(** * Expense tracker: the classify / extract / validate / execute pipeline

    A shallow embedding of the TypeScript services of the expense tracker
    backend (prompt resolver, model gateway, query safety gate, intent
    orchestrator, expense handler and expense tracker service), with the
    properties of the specification proved about it.

    Conventions of the embedding.
    - [async] code is sequential in each message: a method is a computation
      in the monad [M], which threads the process state ([World]), reads the
      outside world ([Env]) and either returns or throws ([Result]).
    - Every call that leaves the process (prompt store, model provider,
      database, chat transport) appends an [Event] to the trace of the
      world; the outside world answers as a function of the trace so far,
      so two calls with the same arguments may be answered differently.
    - Texts are [string]s over the ASCII repertoire; [trim], [toUpperCase]
      and the regular expressions are the ECMAScript ones on that range.
    - A JavaScript number is the rational it denotes ([Q]) and arithmetic
      on numbers is exact (the rounding of doubles is not modelled);
      values typed [any] are [JsValue]s.
    - The model provider, the prompt store and the inserts into the
      database may fail; the lookups in the database and the replies to
      the chat are answered.  Logging is left out. *)

From Stdlib Require Import ZArith QArith String Ascii List Bool Lia.
From stdpp Require Import base option gmap strings list pretty.
Import ListNotations.

Set Warnings "-register-all".

Local Open Scope string_scope.
Local Open Scope list_scope.
Local Open Scope Z_scope.

(** ** JavaScript values *)

Inductive JsValue : Type :=
| JUndefined
| JNull
| JBool (b : bool)
| JNumber (q : Q)
| JString (s : string)
| JArray (items : list JsValue)
| JObject (props : list (string * JsValue)).

(** ToBoolean: what [if (v)], [!v] and [v || w] test. *)
Definition truthy (v : JsValue) : bool :=
  match v with
  | JUndefined | JNull => false
  | JBool b => b
  | JNumber q => negb (Qeq_bool q 0)
  | JString s => negb (String.eqb s "")
  | JArray _ | JObject _ => true
  end.

(** [a || b] on values. *)
Definition js_or (a b : JsValue) : JsValue := if truthy a then a else b.

(** Property read [o.k]; a missing property, or a read on a primitive, is
    [undefined].  ([o?.k] is the same read guarded against null and
    undefined, which this function already maps to [undefined].) *)
Fixpoint assoc_get (k : string) (props : list (string * JsValue)) : JsValue :=
  match props with
  | [] => JUndefined
  | (k', v) :: rest => if String.eqb k k' then v else assoc_get k rest
  end.

Definition js_get (o : JsValue) (k : string) : JsValue :=
  match o with
  | JObject props => assoc_get k props
  | _ => JUndefined
  end.

(** ** Thrown values *)

Inductive Exn : Type :=
| JsError (message : string)      (* new Error(message) *)
| ZodError (message : string)     (* schema violation, an Error *)
| SyntaxError (message : string)  (* JSON.parse, an Error *)
| Thrown (v : JsValue).           (* a thrown value that is not an Error *)

(** [error instanceof Error ? error.message : 'Unknown error'] *)
Definition message_or_unknown (e : Exn) : string :=
  match e with
  | JsError m | ZodError m | SyntaxError m => m
  | Thrown _ => "Unknown error"
  end.

Inductive Result (A : Type) : Type :=
| Ok (a : A)
| Throw (e : Exn).
Arguments Ok {A} a.
Arguments Throw {A} e.

(** ** Texts *)

(** The character U+0022. *)
Definition doubleQuote : string := String (ascii_of_nat 34) EmptyString.

Module Text.

(** WhiteSpace and LineTerminator code points below 128. *)
Definition isWhiteSpace (c : ascii) : bool :=
  let n := nat_of_ascii c in
  ((9 <=? n)%nat && (n <=? 13)%nat) || (n =? 32)%nat.

Fixpoint trimStart (s : string) : string :=
  match s with
  | EmptyString => EmptyString
  | String c rest => if isWhiteSpace c then trimStart rest else s
  end.

Fixpoint trimEnd (s : string) : string :=
  match s with
  | EmptyString => EmptyString
  | String c rest =>
      match trimEnd rest with
      | EmptyString => if isWhiteSpace c then EmptyString else String c EmptyString
      | kept => String c kept
      end
  end.

(** String.prototype.trim *)
Definition trim (s : string) : string := trimEnd (trimStart s).

Definition upperChar (c : ascii) : ascii :=
  let n := nat_of_ascii c in
  if ((97 <=? n)%nat && (n <=? 122)%nat) then ascii_of_nat (n - 32) else c.

(** String.prototype.toUpperCase *)
Fixpoint toUpperCase (s : string) : string :=
  match s with
  | EmptyString => EmptyString
  | String c rest => String (upperChar c) (toUpperCase rest)
  end.

(** [s.startsWith(p)], returning what follows the prefix. *)
Fixpoint stripPrefix (p s : string) : option string :=
  match p with
  | EmptyString => Some s
  | String a p' =>
      match s with
      | String b s' => if Ascii.eqb a b then stripPrefix p' s' else None
      | EmptyString => None
      end
  end.

Fixpoint drop (n : nat) (s : string) : string :=
  match n, s with
  | O, _ => s
  | S n', String _ rest => drop n' rest
  | S _, EmptyString => EmptyString
  end.

Fixpoint take (n : nat) (s : string) : string :=
  match n, s with
  | S n', String c rest => String c (take n' rest)
  | _, _ => EmptyString
  end.

End Text.

(** ** Dates

    A [Date] in the local time of the process: the civil fields that
    [getMonth] and [setMonth] read and write, or the invalid date (NaN time
    value).  Months count from 0.  The day of a valid date lies within its
    month ([wf]); [setMonth] is MakeDay on such dates. *)

Module JsDate.

Inductive t : Type :=
| Invalid
| Civil (year month day msInDay : Z).

Definition isLeapYear (y : Z) : bool :=
  ((y mod 4 =? 0) && negb (y mod 100 =? 0)) || (y mod 400 =? 0).

Definition daysInMonth (y m : Z) : Z :=
  if m =? 1 then (if isLeapYear y then 29 else 28)
  else if (m =? 3) || (m =? 5) || (m =? 8) || (m =? 10) then 30
  else 31.


(** [d.getMonth()]; [None] is NaN. *)
Definition getMonth (d : t) : option Z :=
  match d with
  | Invalid => None
  | Civil _ m _ _ => Some m
  end.

(** [d.setMonth(m)]: the month is carried into the year, and a day past
    the end of the resulting month runs over into the month after it. *)
Definition setMonth (d : t) (m : option Z) : t :=
  match d, m with
  | Civil y _ day ms, Some m =>
      let y' := y + m / 12 in
      let m' := m mod 12 in
      if day <=? daysInMonth y' m' then Civil y' m' day ms
      else if m' =? 11 then Civil (y' + 1) 0 (day - daysInMonth y' m') ms
      else Civil y' (m' + 1) (day - daysInMonth y' m') ms
  | _, _ => Invalid
  end.

(** [a + k] on a month number that may be NaN. *)
Definition addMonths (m : option Z) (k : Z) : option Z :=
  match m with Some m => Some (m + k) | None => None end.

End JsDate.

(** ** Persisted data (types/*.ts) *)

Inductive AccountType : Type := BANK | CRYPTO | CREDIT_CARD.
Inductive Currency : Type := EUR | USDC | ARS | USD.
Inductive TransactionType : Type := INCOME | TRANSFER | EXPENSE | CREDIT_CARD_PAYMENT.

Record Account : Type := {
  acc_id : Z;
  acc_name : string;
  acc_type : AccountType;
  acc_currency : Currency
}.

Record Category : Type := {
  cat_id : Z;
  cat_name : string
}.

Record CreateTransactionDTO : Type := {
  tx_date : JsDate.t;
  tx_description : string;
  tx_fromAccountId : option Z;
  tx_toAccountId : option Z;
  tx_fromAmount : option Q;
  tx_toAmount : Q;
  tx_fromCurrency : option Currency;
  tx_toCurrency : Currency;
  tx_categoryId : option Z;
  tx_type : TransactionType
}.

(** The row [INSERT ... RETURNING *] gives back, as far as the pipeline
    reads it. *)
Record Transaction : Type := {
  t_id : Z;
  t_date : JsDate.t;
  t_description : string;
  t_to_amount : Q;
  t_to_currency : Currency
}.

Record CreateCreditCardPurchaseDTO : Type := {
  cc_creditCardAccountId : Z;
  cc_date : JsDate.t;
  cc_description : string;
  cc_amount : Q;
  cc_currency : Currency;
  cc_categoryId : option Z;
  cc_installmentNumber : Z;
  cc_totalInstallments : Z;
  cc_purchaseGroupId : string
}.

Record CreditCardPurchase : Type := {
  p_id : Z;
  p_date : JsDate.t;
  p_description : string;
  p_amount : Q;
  p_currency : Currency;
  p_installment_number : Z;
  p_total_installments : Z;
  p_purchase_group_id : string
}.

Record CreateFullCreditCardPurchaseDTO : Type := {
  full_creditCardAccountId : Z;
  full_date : JsDate.t;
  full_description : string;
  full_totalAmount : Q;
  full_currency : Currency;
  full_categoryId : option Z;
  full_totalInstallments : Z
}.

(** ** Model provider requests (types/ai.ts, openai SDK) *)

Inductive ModelType : Type := MText | MTextFast | MVision | MVisionFast | MAudio.

Record AIMessage : Type := {
  msg_role : string;
  msg_content : string
}.

Record JsonSchemaFormat : Type := {
  js_name : string;
  js_strict : bool;
  js_schema : JsValue
}.

(** [options.responseFormat] *)
Record ResponseFormat : Type := {
  rf_type : string;
  rf_json_schema : option JsonSchemaFormat
}.

Record ChatOptions : Type := {
  opt_temperature : option Q;
  opt_maxTokens : option Z;
  opt_responseFormat : option ResponseFormat
}.

(** [requestParams] of [chat.completions.create] *)
Record CompletionRequest : Type := {
  req_model : string;
  req_messages : list AIMessage;
  req_temperature : Q;
  req_max_tokens : Z;
  req_response_format : option ResponseFormat
}.

Record Usage : Type := {
  prompt_tokens : Z;
  completion_tokens : Z;
  total_tokens : Z
}.

(** A choice of the completion: [message] may be missing and its [content]
    null. *)
Record Choice : Type := {
  choice_message : option (option string)
}.

Record CompletionResponse : Type := {
  resp_choices : list Choice;
  resp_model : string;
  resp_usage : option Usage
}.

Record AIResponse : Type := {
  ai_content : string;
  ai_model : string;
  ai_usage : option Usage
}.

(** ** Prompt store (langfuse SDK) *)

Record PromptData : Type := {
  pd_prompt : option string;   (* the prompt text, possibly missing *)
  pd_config : JsValue          (* [config?: any] *)
}.

(** ** Analytics queries (schemas/query-generator.schema.ts) *)

Record GeneratedQuery : Type := {
  query_type : string;
  sort_order : option string;
  limit : option Z;
  time_period : string;
  filters : JsValue;
  include_archived : bool;
  credit_card_account_id : option Z
}.

(** The read aggregations of the repositories, with the arguments taken
    from the query (the date range the executor derives from [time_period]
    and the clock is carried as the period). *)
Inductive Aggregation : Type :=
| GetAccountsRankedByExpenses (period sort : string) (lim : option Z) (includeArchived : bool)
| GetExpensesSummary (period : string)
| CountArchived
| CountRemainingInstallments (creditCardAccountId : option Z)
| GetTotalDebt (creditCardAccountId : option Z)
| GetAccountsRankedByTransactionCount (period sort : string) (lim : option Z) (includeArchived : bool).

(** ** Events: every call that leaves the process *)

Inductive Event : Type :=
| EvLangfuseGetPrompt (name : string) (version : option Z)
| EvCompletion (req : CompletionRequest)
| EvFindAccountById (id : Z)
| EvFindAccountByName (name : option string)
| EvFindAllAccounts
| EvFindCategoryById (id : Z)
| EvFindCategoryByName (name : option string)
| EvCreateTransaction (dto : CreateTransactionDTO)
| EvCreatePurchase (dto : CreateCreditCardPurchaseDTO)
| EvAggregate (a : Aggregation)
| EvChatAction (action : string)
| EvReply (text : string) (keyboard : list (string * string)).

Definition Trace : Type := list Event.

(** ** The outside world

    What the collaborators answer, and the built-ins of the platform that
    the pipeline calls but does not define.  Answers may depend on
    everything that happened before (the trace). *)

Record Env : Type := {
  (* langfuse-client.ts: credentials present, and the SDK's getPrompt *)
  langfuse_enabled : bool;
  langfuse_sdk_getPrompt : Trace -> string -> option Z -> Result (option PromptData);
  (* successive readings of Date.now(), in milliseconds *)
  clock : nat -> Z;
  (* openai SDK: chat.completions.create *)
  completions_create : Trace -> CompletionRequest -> Result CompletionResponse;
  (* models configured in the process environment *)
  models : ModelType -> string;
  (* built-ins *)
  JSON_parse : string -> Result JsValue;
  JSON_stringify_query : GeneratedQuery -> string;
  numberToString : Q -> string;
  toLocaleDateString : JsDate.t -> string;
  newDate : string -> JsDate.t;
  uuidv4 : nat -> string;
  (* database: the account and category tables, PostgreSQL's ILIKE, and
     the answers to inserts and aggregations *)
  db_accounts : list Account;
  db_categories : list Category;
  ilike : string -> string -> bool;
  db_insert_transaction : Trace -> CreateTransactionDTO -> Result Transaction;
  db_insert_purchase : Trace -> CreateCreditCardPurchaseDTO -> Result CreditCardPurchase;
  db_rows : Trace -> Aggregation -> Result (list JsValue);
  db_count : Trace -> Aggregation -> Result Z;
  (* one line of a formatted result list (template literal with
     Intl.NumberFormat), given the query type, the index and the row *)
  renderRow : string -> nat -> JsValue -> string
}.

(** ** Process state *)

Record CacheEntry : Type := {
  ce_prompt : string;
  ce_config : JsValue;
  ce_timestamp : Z
}.

(** The parsed transaction of the expense parser
    (schemas/expense-parser.schema.ts). *)
Inductive ParsedType : Type :=
| PIncome | PTransfer | PExpense | PCreditCardPayment | PCreditCardPurchase.

Record ExpenseParserResult : Type := {
  ep_type : ParsedType;
  ep_description : string;
  ep_amount : Q;
  ep_fromAccount : option string;
  ep_toAccount : option string;
  ep_category : option string;
  ep_currency : Currency;
  ep_date : string;
  ep_installments : Z;
  ep_fromAmount : option Q;
  ep_toAmount : option Q;
  ep_confidence : Q
}.

Record World : Type := {
  promptCache : gmap string CacheEntry;   (* PromptManager.promptCache *)
  clock_reads : nat;                      (* readings of Date.now() so far *)
  uuids_drawn : nat;                      (* calls of uuidv4() so far *)
  pendingTransaction : option ExpenseParserResult;   (* ctx.session *)
  trace : Trace
}.

Definition set_promptCache (c : gmap string CacheEntry) (w : World) : World :=
  {| promptCache := c; clock_reads := clock_reads w; uuids_drawn := uuids_drawn w;
     pendingTransaction := pendingTransaction w; trace := trace w |}.

Definition set_clock_reads (n : nat) (w : World) : World :=
  {| promptCache := promptCache w; clock_reads := n; uuids_drawn := uuids_drawn w;
     pendingTransaction := pendingTransaction w; trace := trace w |}.

Definition set_uuids_drawn (n : nat) (w : World) : World :=
  {| promptCache := promptCache w; clock_reads := clock_reads w; uuids_drawn := n;
     pendingTransaction := pendingTransaction w; trace := trace w |}.

Definition set_pendingTransaction (p : option ExpenseParserResult) (w : World) : World :=
  {| promptCache := promptCache w; clock_reads := clock_reads w; uuids_drawn := uuids_drawn w;
     pendingTransaction := p; trace := trace w |}.

Definition set_trace (t : Trace) (w : World) : World :=
  {| promptCache := promptCache w; clock_reads := clock_reads w; uuids_drawn := uuids_drawn w;
     pendingTransaction := pendingTransaction w; trace := t |}.

(** ** The monad of the services *)

Definition M (A : Type) : Type := Env -> World -> Result A * World.

Definition ret {A : Type} (a : A) : M A := fun _ w => (Ok a, w).

Definition bind {A B : Type} (m : M A) (k : A -> M B) : M B := fun env w =>
  match m env w with
  | (Ok a, w') => k a env w'
  | (Throw e, w') => (Throw e, w')
  end.

Notation "'let*' x ':=' m 'in' k" := (bind m (fun x => k))
  (at level 10, x name, m at level 100, k at level 200).

(** [throw e] *)
Definition throw {A : Type} (e : Exn) : M A := fun _ w => (Throw e, w).

(** [try { body } catch (error) { handler }]; the state changes made before
    the throw stay. *)
Definition try_catch {A : Type} (body : M A) (handler : Exn -> M A) : M A :=
  fun env w =>
    match body env w with
    | (Ok a, w') => (Ok a, w')
    | (Throw e, w') => handler e env w'
    end.

Definition ask : M Env := fun env w => (Ok env, w).
Definition get : M World := fun _ w => (Ok w, w).
Definition modify (f : World -> World) : M unit := fun _ w => (Ok tt, f w).

(** Record a call that leaves the process. *)
Definition emit (e : Event) : M unit :=
  modify (fun w => set_trace (trace w ++ [e]) w).

(** A call to a collaborator: the event is recorded, then the collaborator
    answers from the trace before the call. *)
Definition call {A : Type} (e : Event) (answer : Env -> Trace -> Result A) : M A :=
  fun env w =>
    (answer env (trace w), set_trace (trace w ++ [e]) w).

(** [Date.now()] *)
Definition Date_now : M Z := fun env w =>
  (Ok (clock env (clock_reads w)), set_clock_reads (S (clock_reads w)) w).

Definition lift_result {A : Type} (r : Result A) : M A := fun _ w => (r, w).

(** ** services/langfuse-client.ts *)

Module LangfuseClient.

Definition isEnabled : M bool :=
  let* env := ask in ret (langfuse_enabled env).

(** [version ? client.getPrompt(name, version) : client.getPrompt(name)]:
    the version reaches the SDK only when it is truthy. *)
Definition sdkVersion (version : option Z) : option Z :=
  match version with
  | Some v => if v =? 0 then None else Some v
  | None => None
  end.

Definition getPrompt (name : string) (version : option Z) : M (option PromptData) :=
  let* enabled := isEnabled in
  if negb enabled then ret None
  else
    try_catch
      (let* promptData := call (EvLangfuseGetPrompt name (sdkVersion version))
                         (fun env tr => langfuse_sdk_getPrompt env tr name (sdkVersion version)) in
       match promptData with
       | None => ret None
       | Some d => ret (Some {| pd_prompt := pd_prompt d; pd_config := pd_config d |})
       end)
      (fun _ => ret None).

End LangfuseClient.

(** ** services/prompt-manager.ts *)

Record PromptWithConfig : Type := {
  pwc_prompt : string;
  pwc_config : JsValue
}.

Module PromptManager.

Definition cacheTTL : Z := 5 * 60 * 1000.

Definition notFoundMessage (name : string) : string :=
  "Prompt '" +:+ name +:+ "' not found or invalid in Langfuse. Please configure it correctly.".

(** The part of [getPromptWithConfig] after the cache check. *)
Definition fetchPromptWithConfig (name : string) (fallbackConfig : JsValue)
    (version : option Z) : M PromptWithConfig :=
  let notFound : M PromptWithConfig := throw (JsError (notFoundMessage name)) in
  let* enabled := LangfuseClient.isEnabled in
  if enabled then
    let* result := LangfuseClient.getPrompt name version in
    match result with
    | Some r =>
        match pd_prompt r with
        | Some text =>
            if negb (String.eqb text "") then
              let finalConfig := js_or (pd_config r) fallbackConfig in
              let* now := Date_now in
              let* _ := modify (fun w =>
                set_promptCache
                  (<[name := {| ce_prompt := text; ce_config := finalConfig;
                                ce_timestamp := now |}]> (promptCache w)) w) in
              ret {| pwc_prompt := text; pwc_config := finalConfig |}
            else notFound
        | None => notFound
        end
    | None => notFound
    end
  else notFound.

Definition getPromptWithConfig (name : string) (fallbackConfig : JsValue)
    (version : option Z) : M PromptWithConfig :=
  let* w := get in
  match promptCache w !! name with
  | Some cached =>
      let* now := Date_now in
      if now - ce_timestamp cached <? cacheTTL
      then ret {| pwc_prompt := ce_prompt cached; pwc_config := ce_config cached |}
      else fetchPromptWithConfig name fallbackConfig version
  | None => fetchPromptWithConfig name fallbackConfig version
  end.

Definition getPrompt (name : string) (version : option Z) : M string :=
  let* promptData := getPromptWithConfig name JUndefined version in
  ret (pwc_prompt promptData).

Definition clearCache : M unit :=
  modify (set_promptCache ∅).

Definition clearPromptCache (name : string) : M unit :=
  modify (fun w => set_promptCache (delete name (promptCache w)) w).

(** *** compilePrompt

    [new RegExp(`\{\{\s*${key}\s*\}\}`, 'g')] (each backslash is doubled
    in the source text) puts the key into the pattern as it is.  The
    model covers the keys that the pattern matches
    literally: no syntax character of the pattern language, and no
    leading white space (which the preceding [\s*] would compete for). *)

Definition isSyntaxChar (c : ascii) : bool :=
  existsb (Ascii.eqb c) (list_ascii_of_string "^$\.*+?()[]{}|").

Definition literalKey (key : string) : bool :=
  forallb (fun c => negb (isSyntaxChar c)) (list_ascii_of_string key)
  && match key with
     | String c _ => negb (Text.isWhiteSpace c)
     | EmptyString => true
     end.

(** The match of the pattern at the start of [s], as its length. *)
Definition matchPlaceholder (key s : string) : option nat :=
  match Text.stripPrefix "{{" s with
  | Some r0 =>
      match Text.stripPrefix key (Text.trimStart r0) with
      | Some r1 =>
          match Text.stripPrefix "}}" (Text.trimStart r1) with
          | Some r2 => Some (String.length s - String.length r2)%nat
          | None => None
          end
      | None => None
      end
  | None => None
  end.

(** GetSubstitution for a pattern without capture groups: in the
    replacement text [$$] is a dollar sign, [$&] the matched text, [$`]
    the text before the match and [$'] the text after it. *)
Fixpoint getSubstitution (matched before after replacement : string) : string :=
  match replacement with
  | EmptyString => EmptyString
  | String c tail =>
      if Ascii.eqb c "$" then
        match tail with
        | String d rest =>
            if Ascii.eqb d "$" then "$" +:+ getSubstitution matched before after rest
            else if Ascii.eqb d "&" then matched +:+ getSubstitution matched before after rest
            else if Ascii.eqb d "`" then before +:+ getSubstitution matched before after rest
            else if Ascii.eqb d "'" then after +:+ getSubstitution matched before after rest
            else String c (getSubstitution matched before after tail)
        | EmptyString => String c EmptyString
        end
      else String c (getSubstitution matched before after tail)
  end.

(** [whole.replace(regex, value)] with the global flag, from position
    [pos] of [whole] onwards; [skip] characters of an earlier match are
    still to be passed over. *)
Fixpoint replaceFrom (key value whole : string) (pos skip : nat) (s : string) : string :=
  match s with
  | EmptyString => EmptyString
  | String c rest =>
      match skip with
      | S k => replaceFrom key value whole (S pos) k rest
      | O =>
          match matchPlaceholder key s with
          | Some len =>
              getSubstitution (Text.take len s) (Text.take pos whole) (Text.drop len s) value
              +:+ replaceFrom key value whole (S pos) (len - 1) rest
          | None => String c (replaceFrom key value whole (S pos) 0 rest)
          end
      end
  end.

Definition replacePlaceholders (key value compiled : string) : string :=
  replaceFrom key value compiled 0 0 compiled.

(** [variables] in the order of [Object.entries]. *)
Definition compilePrompt (template : string) (variables : list (string * string)) : string :=
  fold_left (fun compiled kv => replacePlaceholders (fst kv) (snd kv) compiled)
            variables template.

End PromptManager.

(** ** utils/ai.ts *)

(** [text.replace(/```json\s*\n?/g, '')]: every fence opener goes, together
    with the white space after it ([skip] characters of a match are still
    to be passed over). *)
Fixpoint removeJsonFences (skip : nat) (s : string) : string :=
  match s with
  | EmptyString => EmptyString
  | String c rest =>
      match skip with
      | S k => removeJsonFences k rest
      | O =>
          match Text.stripPrefix "```json" s with
          | Some r =>
              removeJsonFences (String.length s - String.length (Text.trimStart r) - 1) rest
          | None => String c (removeJsonFences 0 rest)
          end
      end
  end.

(** [text.replace(/```\s*$/g, '')]: a fence followed only by white space up
    to the end of the text goes, with that white space. *)
Fixpoint removeClosingFence (s : string) : string :=
  match s with
  | EmptyString => EmptyString
  | String c rest =>
      match Text.stripPrefix "```" s with
      | Some r =>
          match Text.trimStart r with
          | EmptyString => EmptyString
          | _ => String c (removeClosingFence rest)
          end
      | None => String c (removeClosingFence rest)
      end
  end.

Definition stripMarkdownCodeFences (text : string) : string :=
  Text.trim (removeClosingFence (removeJsonFences 0 text)).

(** ** services/openrouter-client.ts: the model gateway *)

Module OpenRouterClient.

Definition getModel (type : ModelType) : M string :=
  let* env := ask in ret (models env type).

Definition isJsonFormat (options : ChatOptions) : bool :=
  match opt_responseFormat options with
  | Some rf => String.eqb (rf_type rf) "json_object" || String.eqb (rf_type rf) "json_schema"
  | None => false
  end.

Definition requestParams (env : Env) (messages : list AIMessage) (model : option string)
    (options : ChatOptions) : CompletionRequest :=
  {| req_model :=
       match model with
       | Some m => if String.eqb m "" then models env MText else m
       | None => models env MText
       end;
     req_messages := messages;
     req_temperature := default (7 # 10)%Q (opt_temperature options);
     req_max_tokens := default 2000 (opt_maxTokens options);
     req_response_format :=
       match opt_responseFormat options with
       | Some rf =>
           match rf_json_schema rf with
           | Some schema =>
               if String.eqb (rf_type rf) "json_schema"
               then Some {| rf_type := "json_schema"; rf_json_schema := Some schema |}
               else Some {| rf_type := "json_object"; rf_json_schema := None |}
           | None => Some {| rf_type := "json_object"; rf_json_schema := None |}
           end
       | None => None
       end |}.

Definition chat (messages : list AIMessage) (model : option string)
    (options : ChatOptions) : M AIResponse :=
  try_catch
    (let* env := ask in
     let params := requestParams env messages model options in
     let* response := call (EvCompletion params)
                           (fun env tr => completions_create env tr params) in
     match resp_choices response with
     | choice :: _ =>
         match choice_message choice with
         | Some message =>
             let content := default "" message in
             let content :=
               if isJsonFormat options then stripMarkdownCodeFences content else content in
             ret {| ai_content := content;
                    ai_model := resp_model response;
                    ai_usage := resp_usage response |}
         | None => throw (JsError "No response from AI model")
         end
     | [] => throw (JsError "No response from AI model")
     end)
    (fun error => throw (JsError ("AI request failed: " +:+ message_or_unknown error))).

End OpenRouterClient.

(** ** services/text-processor.ts *)

Record TextProcessingOptions : Type := {
  tp_model : option string;
  tp_systemPrompt : option string;
  tp_temperature : option Q;
  tp_maxTokens : option Z
}.

Module TextProcessor.

Definition nonEmpty (o : option string) : option string :=
  match o with
  | Some s => if String.eqb s "" then None else Some s
  | None => None
  end.

Definition processText (userMessage : string) (options : TextProcessingOptions)
    : M AIResponse :=
  let system :=
    match nonEmpty (tp_systemPrompt options) with
    | Some p => [ {| msg_role := "system"; msg_content := p |} ]
    | None => []
    end in
  let messages := system ++ [ {| msg_role := "user"; msg_content := userMessage |} ] in
  let* model :=
    match nonEmpty (tp_model options) with
    | Some m => ret m
    | None => OpenRouterClient.getModel MText
    end in
  OpenRouterClient.chat messages (Some model)
    {| opt_temperature := tp_temperature options;
       opt_maxTokens := tp_maxTokens options;
       opt_responseFormat := None |}.

Definition extractStructured {T : Type} (text systemPrompt : string)
    (jsonSchema : string * JsValue) (zodSchema : JsValue -> Result T) : M T :=
  let* model := OpenRouterClient.getModel MTextFast in
  let* response :=
    OpenRouterClient.chat
      [ {| msg_role := "system"; msg_content := systemPrompt |};
        {| msg_role := "user"; msg_content := text |} ]
      (Some model)
      {| opt_temperature := Some (2 # 10)%Q;
         opt_maxTokens := Some 1000;
         opt_responseFormat :=
           Some {| rf_type := "json_schema";
                   rf_json_schema :=
                     Some {| js_name := fst jsonSchema; js_strict := true;
                             js_schema := snd jsonSchema |} |} |} in
  let cleanedContent := stripMarkdownCodeFences (ai_content response) in
  let* env := ask in
  let* parsed := lift_result (JSON_parse env cleanedContent) in
  lift_result (zodSchema parsed).

(** [{ ...options, systemPrompt }] *)
Definition withSystemPrompt (options : TextProcessingOptions) (systemPrompt : string)
    : TextProcessingOptions :=
  {| tp_model := tp_model options; tp_systemPrompt := Some systemPrompt;
     tp_temperature := tp_temperature options; tp_maxTokens := tp_maxTokens options |}.

(** Process text with a prompt of the store; [variables] is the optional
    argument (an object, also an empty one, is compiled). *)
Definition processWithPrompt (userMessage promptName : string)
    (variables : option (list (string * string))) (options : TextProcessingOptions)
    : M AIResponse :=
  let* promptTemplate := PromptManager.getPrompt promptName None in
  let systemPrompt :=
    match variables with
    | Some vars => PromptManager.compilePrompt promptTemplate vars
    | None => promptTemplate
    end in
  processText userMessage (withSystemPrompt options systemPrompt).

End TextProcessor.

(** ** schemas/*.ts: validation of model output (zod)

    A [z.object] schema reads the declared keys of an object and drops the
    others; a failed check throws a ZodError naming the key. *)

Module Zod.

Definition rbind {A B : Type} (r : Result A) (k : A -> Result B) : Result B :=
  match r with
  | Ok a => k a
  | Throw e => Throw e
  end.

Definition invalid {A : Type} (key : string) : Result A := Throw (ZodError key).

Definition enum (options : list string) (key : string) (v : JsValue) : Result string :=
  match v with
  | JString s => if existsb (String.eqb s) options then Ok s else invalid key
  | _ => invalid key
  end.

Definition string_ (key : string) (v : JsValue) : Result string :=
  match v with
  | JString s => Ok s
  | _ => invalid key
  end.

Definition boolean (key : string) (v : JsValue) : Result bool :=
  match v with
  | JBool b => Ok b
  | _ => invalid key
  end.

(** [z.number()] with a test on the value. *)
Definition number (test : Q -> bool) (key : string) (v : JsValue) : Result Q :=
  match v with
  | JNumber q => if test q then Ok q else invalid key
  | _ => invalid key
  end.

Definition positive (q : Q) : bool := negb (Qle_bool q 0).
Definition between (lo hi : Q) (q : Q) : bool := Qle_bool lo q && Qle_bool q hi.
Definition isInt (q : Q) : bool := Pos.eqb (Qden (Qred q)) 1.

(** [z.number().int().positive()] *)
Definition positiveInt (key : string) (v : JsValue) : Result Z :=
  rbind (number (fun q => isInt q && positive q) key v)
        (fun q => Ok (Qnum (Qred q))).

Definition optional {A : Type} (p : JsValue -> Result A) (v : JsValue) : Result (option A) :=
  match v with
  | JUndefined => Ok None
  | _ => rbind (p v) (fun a => Ok (Some a))
  end.

(** [.nullable().optional()] *)
Definition nullish {A : Type} (p : JsValue -> Result A) (v : JsValue) : Result (option A) :=
  match v with
  | JUndefined | JNull => Ok None
  | _ => rbind (p v) (fun a => Ok (Some a))
  end.

(** [.optional().default(d)] *)
Definition withDefault {A : Type} (d : A) (p : JsValue -> Result A) (v : JsValue) : Result A :=
  match v with
  | JUndefined => Ok d
  | _ => p v
  end.

End Zod.

Notation "'let+' x ':=' r 'in' k" := (Zod.rbind r (fun x => k))
  (at level 10, x name, r at level 100, k at level 200).

(** *** schemas/orchestrator.schema.ts *)

Record OrchestratorDecision : Type := {
  intent : string;
  confidence : Q;
  reasoning : option string
}.

Definition intents : list string :=
  [ "track_expense"; "track_income"; "query_balance"; "query_transactions";
    "query_report"; "archive_transaction"; "general_chat"; "unknown" ].

Definition OrchestratorDecisionSchema (v : JsValue) : Result OrchestratorDecision :=
  match v with
  | JObject _ =>
      let+ i := Zod.enum intents "intent" (js_get v "intent") in
      let+ c := Zod.number (Zod.between 0 1) "confidence" (js_get v "confidence") in
      let+ r := Zod.optional (Zod.string_ "reasoning") (js_get v "reasoning") in
      Ok {| intent := i; confidence := c; reasoning := r |}
  | _ => Zod.invalid EmptyString
  end.

Definition prop (type description : string) : JsValue :=
  JObject [ ("type", JString type); ("description", JString description) ].

Definition enumProp (options : list string) (description : string) : JsValue :=
  JObject [ ("type", JString "string");
            ("enum", JArray (map JString options));
            ("description", JString description) ].

Definition getOrchestratorJSONSchema : JsValue :=
  JObject
    [ ("type", JString "object");
      ("properties",
        JObject
          [ ("intent", enumProp intents "The detected intent from the user message");
            ("confidence",
              JObject [ ("type", JString "number"); ("minimum", JNumber 0);
                        ("maximum", JNumber 1);
                        ("description", JString "Confidence score between 0 and 1") ]);
            ("reasoning", prop "string" "Brief explanation of the classification decision") ]);
      ("required", JArray [ JString "intent"; JString "confidence" ]);
      ("additionalProperties", JBool false) ].

(** *** schemas/query-generator.schema.ts *)

Definition queryTypes : list string :=
  [ "rank_accounts_by_expense"; "total_spending_by_category";
    "count_archived_transactions"; "count_remaining_installments";
    "total_credit_card_debt"; "rank_accounts_by_transaction_count" ].

Definition timePeriods : list string :=
  [ "today"; "this_week"; "this_month"; "this_year"; "all_time" ].

(** [z.record(z.string(), z.any()).optional()] *)
Definition recordOfAny (key : string) (v : JsValue) : Result JsValue :=
  match v with
  | JUndefined | JObject _ => Ok v
  | _ => Zod.invalid key
  end.

Definition QueryGeneratorSchema (v : JsValue) : Result GeneratedQuery :=
  match v with
  | JObject _ =>
      let+ qt := Zod.enum queryTypes "query_type" (js_get v "query_type") in
      let+ so := Zod.optional (Zod.enum ["asc"; "desc"] "sort_order") (js_get v "sort_order") in
      let+ li := Zod.optional (Zod.positiveInt "limit") (js_get v "limit") in
      let+ tp := Zod.withDefault "all_time" (Zod.enum timePeriods "time_period")
                   (js_get v "time_period") in
      let+ fi := recordOfAny "filters" (js_get v "filters") in
      let+ ia := Zod.withDefault false (Zod.boolean "include_archived")
                   (js_get v "include_archived") in
      let+ cc := Zod.optional (Zod.positiveInt "credit_card_account_id")
                   (js_get v "credit_card_account_id") in
      Ok {| query_type := qt; sort_order := so; limit := li; time_period := tp;
            filters := fi; include_archived := ia; credit_card_account_id := cc |}
  | _ => Zod.invalid EmptyString
  end.

Definition getQueryGeneratorJSONSchema : JsValue :=
  JObject
    [ ("type", JString "object");
      ("properties",
        JObject
          [ ("query_type", enumProp queryTypes "The type of query to perform");
            ("sort_order",
              enumProp ["asc"; "desc"]
                "The sort order for the results. Defaults to `desc` for rankings.");
            ("limit",
              prop "number" "The maximum number of results to return (e.g., for top 3, use 3).");
            ("time_period",
              enumProp timePeriods
                "The time period to filter the query by. Defaults to `all_time`.");
            (* the description goes on with a quoted example, left out here *)
            ("filters", prop "object" "Key-value filters to apply to the query");
            ("include_archived",
              prop "boolean"
                "Set to true to include archived transactions in the query. Defaults to false.");
            ("credit_card_account_id",
              prop "number" "Filter by specific credit card account ID (optional)") ]);
      ("required", JArray [ JString "query_type" ]);
      ("additionalProperties", JBool false) ].

(** *** schemas/expense-parser.schema.ts *)

Definition parsedTypeOf (s : string) : ParsedType :=
  if String.eqb s "income" then PIncome
  else if String.eqb s "transfer" then PTransfer
  else if String.eqb s "expense" then PExpense
  else if String.eqb s "credit_card_payment" then PCreditCardPayment
  else PCreditCardPurchase.

Definition parsedTypeName (t : ParsedType) : string :=
  match t with
  | PIncome => "income"
  | PTransfer => "transfer"
  | PExpense => "expense"
  | PCreditCardPayment => "credit_card_payment"
  | PCreditCardPurchase => "credit_card_purchase"
  end.

Definition currencyOf (s : string) : Currency :=
  if String.eqb s "EUR" then EUR
  else if String.eqb s "USDC" then USDC
  else if String.eqb s "ARS" then ARS
  else USD.

Definition currencyName (c : Currency) : string :=
  match c with EUR => "EUR" | USDC => "USDC" | ARS => "ARS" | USD => "USD" end.

Definition isDigit (c : ascii) : bool :=
  let n := nat_of_ascii c in ((48 <=? n)%nat && (n <=? 57)%nat).

(** [/^\d{4}-\d{2}-\d{2}$/] *)
Definition isDateText (s : string) : bool :=
  match list_ascii_of_string s with
  | [y1; y2; y3; y4; h1; m1; m2; h2; d1; d2] =>
      forallb isDigit [y1; y2; y3; y4; m1; m2; d1; d2]
      && Ascii.eqb h1 "-" && Ascii.eqb h2 "-"
  | _ => false
  end.

Definition dateText (key : string) (v : JsValue) : Result string :=
  match v with
  | JString s => if isDateText s then Ok s else Zod.invalid key
  | _ => Zod.invalid key
  end.

Definition ExpenseParserSchema (v : JsValue) : Result ExpenseParserResult :=
  match v with
  | JObject _ =>
      let+ ty := Zod.enum
                   ["income"; "transfer"; "expense"; "credit_card_payment";
                    "credit_card_purchase"] "type" (js_get v "type") in
      let+ de := Zod.string_ "description" (js_get v "description") in
      let+ am := Zod.number Zod.positive "amount" (js_get v "amount") in
      let+ fa := Zod.nullish (Zod.string_ "fromAccount") (js_get v "fromAccount") in
      let+ ta := Zod.nullish (Zod.string_ "toAccount") (js_get v "toAccount") in
      let+ ca := Zod.nullish (Zod.string_ "category") (js_get v "category") in
      let+ cu := Zod.enum ["EUR"; "USDC"; "ARS"; "USD"] "currency" (js_get v "currency") in
      let+ da := dateText "date" (js_get v "date") in
      let+ ins := Zod.withDefault 1 (Zod.positiveInt "installments") (js_get v "installments") in
      let+ fam := Zod.optional (Zod.number Zod.positive "fromAmount") (js_get v "fromAmount") in
      let+ tam := Zod.optional (Zod.number Zod.positive "toAmount") (js_get v "toAmount") in
      let+ co := Zod.number (Zod.between 0 100) "confidence" (js_get v "confidence") in
      Ok {| ep_type := parsedTypeOf ty; ep_description := de; ep_amount := am;
            ep_fromAccount := fa; ep_toAccount := ta; ep_category := ca;
            ep_currency := currencyOf cu; ep_date := da; ep_installments := ins;
            ep_fromAmount := fam; ep_toAmount := tam; ep_confidence := co |}
  | _ => Zod.invalid EmptyString
  end.

Definition numberProp (minimum : Q) (exclusive : bool) (description : string) : JsValue :=
  JObject ([ ("type", JString "number"); ("minimum", JNumber minimum) ]
           ++ (if exclusive then [ ("exclusiveMinimum", JBool true) ] else [])
           ++ [ ("description", JString description) ]).

Definition nullableStringProp (description : string) : JsValue :=
  JObject [ ("type", JArray [ JString "string"; JString "null" ]);
            ("description", JString description) ].

Definition getExpenseParserJSONSchema : JsValue :=
  JObject
    [ ("type", JString "object");
      ("properties",
        JObject
          [ ("type",
              enumProp ["income"; "transfer"; "expense"; "credit_card_payment";
                        "credit_card_purchase"] "Type of financial transaction");
            ("description", prop "string" "Description of the transaction");
            ("amount", numberProp 0 true "Transaction amount");
            ("fromAccount", nullableStringProp "Source account name");
            ("toAccount", nullableStringProp "Destination account name");
            ("category", nullableStringProp "Transaction category");
            ("currency", enumProp ["EUR"; "USDC"; "ARS"; "USD"] "Currency code");
            ("date",
              JObject [ ("type", JString "string");
                        ("pattern", JString "^\d{4}-\d{2}-\d{2}$");
                        ("description", JString "Transaction date in YYYY-MM-DD format") ]);
            ("installments",
              numberProp 1 false "Number of installments for credit card purchases");
            ("fromAmount", numberProp 0 true "Source amount for transfers with conversion");
            ("toAmount", numberProp 0 true "Destination amount for transfers with conversion");
            ("confidence",
              JObject [ ("type", JString "number"); ("minimum", JNumber 0);
                        ("maximum", JNumber 100);
                        ("description", JString "Confidence score 0-100") ]) ]);
      ("required",
        JArray (map JString ["type"; "description"; "amount"; "currency"; "date"; "confidence"]));
      ("additionalProperties", JBool false) ].

(** The fallback every caller hands to the prompt resolver:
    [{ config: { schema: ... } }]. *)
Definition fallbackOf (schema : JsValue) : JsValue :=
  JObject [ ("config", JObject [ ("schema", schema) ]) ].

(** [promptData.config?.schema || defaultSchema] *)
Definition schemaOf (promptData : PromptWithConfig) (defaultSchema : JsValue) : JsValue :=
  js_or (js_get (pwc_config promptData) "schema") defaultSchema.

(** ** services/analytics.service.ts *)

Inductive QueryResult : Type :=
| Rows (rows : list JsValue)
| Count (count : Z).

Module AnalyticsService.

Definition generateQuery (naturalLanguageQuery : string) : M GeneratedQuery :=
  try_catch
    (let* promptData :=
       PromptManager.getPromptWithConfig "query-generator"
         (fallbackOf getQueryGeneratorJSONSchema) None in
     let schema := schemaOf promptData getQueryGeneratorJSONSchema in
     TextProcessor.extractStructured naturalLanguageQuery (pwc_prompt promptData)
       ("query_generator", schema) QueryGeneratorSchema)
    (fun _ => throw (JsError "Failed to generate a valid structured query from your request.")).

Definition allowedQueryTypes : list string :=
  [ "rank_accounts_by_expense"; "total_spending_by_category";
    "count_archived_transactions"; "count_remaining_installments";
    "total_credit_card_debt"; "rank_accounts_by_transaction_count" ].

(** [allowedQueryTypes.includes(t)] *)
Definition includes (l : list string) (t : string) : bool := existsb (String.eqb t) l.

Definition validatorQuestion : string :=
  "Based on the rules in the system prompt, is the query safe? Respond with a single word: SAFE or DESTRUCTIVE.".

(** The system prompt of the validator: the template compiled with the
    request and the generated query. *)
Definition validatorPrompt (env : Env) (promptTemplate naturalLanguageQuery : string)
    (generatedQuery : GeneratedQuery) : string :=
  PromptManager.compilePrompt promptTemplate
    [ ("user_request", naturalLanguageQuery);
      ("generated_query", JSON_stringify_query env generatedQuery) ].

Definition validatorOptions (systemPrompt : string) : TextProcessingOptions :=
  {| tp_model := None; tp_systemPrompt := Some systemPrompt;
     tp_temperature := Some (1 # 10)%Q; tp_maxTokens := Some 10 |}.

Definition validateQuery (naturalLanguageQuery : string) (generatedQuery : GeneratedQuery)
    : M bool :=
  (* 1. Code-based validation (allow-list of query types) *)
  if negb (includes allowedQueryTypes (query_type generatedQuery)) then ret false
  else
    (* 2. AI-based validation *)
    let* promptTemplate := PromptManager.getPrompt "query-validator" None in
    let* env := ask in
    let systemPrompt :=
      validatorPrompt env promptTemplate naturalLanguageQuery generatedQuery in
    let* validationResponse :=
      TextProcessor.processText validatorQuestion (validatorOptions systemPrompt) in
    let decision := Text.toUpperCase (Text.trim (ai_content validationResponse)) in
    ret (String.eqb decision "SAFE").

Definition sortOf (query : GeneratedQuery) : string :=
  match TextProcessor.nonEmpty (sort_order query) with
  | Some s => s
  | None => "desc"
  end.

Definition rows (a : Aggregation) : M QueryResult :=
  let* r := call (EvAggregate a) (fun env tr => db_rows env tr a) in ret (Rows r).

Definition count (a : Aggregation) : M QueryResult :=
  let* n := call (EvAggregate a) (fun env tr => db_count env tr a) in ret (Count n).

Definition executeQuery (query : GeneratedQuery) : M QueryResult :=
  let t := query_type query in
  if String.eqb t "rank_accounts_by_expense" then
    rows (GetAccountsRankedByExpenses (time_period query) (sortOf query) (limit query)
            (include_archived query))
  else if String.eqb t "total_spending_by_category" then
    rows (GetExpensesSummary (time_period query))
  else if String.eqb t "count_archived_transactions" then
    count CountArchived
  else if String.eqb t "count_remaining_installments" then
    count (CountRemainingInstallments (credit_card_account_id query))
  else if String.eqb t "total_credit_card_debt" then
    rows (GetTotalDebt (credit_card_account_id query))
  else if String.eqb t "rank_accounts_by_transaction_count" then
    rows (GetAccountsRankedByTransactionCount (time_period query) (sortOf query)
            (limit query) (include_archived query))
  else
    throw (JsError ("The query type " +:+ doubleQuote +:+ t +:+ doubleQuote
                    +:+ " is not supported.")).

Module ResultFormatter.

(** [`... ${n} thing${n !== 1 ? 's' : ''}`] *)
Definition plural (n : Z) : string := if n =? 1 then EmptyString else "s".

(** [results.forEach((r, i) => { response += ... })] *)
Fixpoint renderRows (env : Env) (queryType : string) (i : nat) (rows : list JsValue) : string :=
  match rows with
  | [] => EmptyString
  | r :: rest => renderRow env queryType i r +:+ renderRows env queryType (S i) rest
  end.

Definition listing (env : Env) (queryType empty header : string) (results : QueryResult)
    : string :=
  match results with
  | Rows [] => empty
  | Rows rs => header +:+ renderRows env queryType 0 rs
  | Count _ => header
  end.

Definition counting (env : Env) (what : string) (results : QueryResult) : string :=
  match results with
  | Count n =>
      "You have " +:+ numberToString env (inject_Z n) +:+ " " +:+ what +:+ plural n +:+ "."
  | Rows _ => "You have undefined " +:+ what +:+ "s."
  end.

(** AnalyticsService.formatResponse *)
Definition formatResponse (env : Env) (query : GeneratedQuery) (results : QueryResult)
    : string :=
  let t := query_type query in
  let nl := String (ascii_of_nat 10) EmptyString in
  if String.eqb t "rank_accounts_by_expense" then
    listing env t "No expense data found for the specified period."
      ("Account Ranking by Expenses:" +:+ nl +:+ nl) results
  else if String.eqb t "total_spending_by_category" then
    listing env t "No spending data found for the specified period."
      ("Spending by Category:" +:+ nl +:+ nl) results
  else if String.eqb t "count_archived_transactions" then
    counting env "archived transaction" results
  else if String.eqb t "count_remaining_installments" then
    counting env "remaining installment" results
  else if String.eqb t "total_credit_card_debt" then
    listing env t "No credit card debt found."
      ("Credit Card Debt:" +:+ nl +:+ nl) results
  else if String.eqb t "rank_accounts_by_transaction_count" then
    listing env t "No transaction data found for the specified period."
      ("Account Ranking by Transaction Count:" +:+ nl +:+ nl) results
  else
    "I was able to fetch the data, but I don't know how to display it for this query type.".

End ResultFormatter.

Definition unsafeMessage : string := "Query was deemed unsafe to run.".

Definition processNaturalLanguageQuery (query : string) : M string :=
  (* 1. Generate structured query *)
  let* generatedQuery := generateQuery query in
  (* 2. Validate query *)
  let* isSafe := validateQuery query generatedQuery in
  if negb isSafe then throw (JsError unsafeMessage)
  else
    (* 3. Execute query *)
    let* results := executeQuery generatedQuery in
    (* 4. Format response *)
    let* env := ask in
    ret (ResultFormatter.formatResponse env generatedQuery results).

End AnalyticsService.

(** ** bot/handlers/query.handler.ts *)

Module QueryHandler.

(** [handleCustomReportQuery]; [ctx] is read as in the expense handler
    (the text of the message), the Markdown parse mode of the reply is
    not recorded, and the chat is taken to accept the replies. *)
Definition handleCustomReportQuery (messageText : option string) : M unit :=
  try_catch
    (match TextProcessor.nonEmpty messageText with
     | None => ret tt
     | Some text =>
         let* _ := emit (EvChatAction "typing") in
         let* result := AnalyticsService.processNaturalLanguageQuery text in
         emit (EvReply result [])
     end)
    (fun error =>
       emit (EvReply ("❌ Error processing your query: " +:+ message_or_unknown error) [])).

End QueryHandler.

(** ** services/orchestrator.ts *)

Module Orchestrator.

Definition fallbackDecision : OrchestratorDecision :=
  {| intent := "unknown"; confidence := 0; reasoning := Some "Failed to analyze intent" |}.

Definition messagesFor (systemPrompt userMessage : string) : list AIMessage :=
  [ {| msg_role := "system"; msg_content := systemPrompt |};
    {| msg_role := "user"; msg_content := userMessage |} ].

Definition chatOptions (schema : JsValue) : ChatOptions :=
  {| opt_temperature := Some (1 # 10)%Q;
     opt_maxTokens := Some 500;
     opt_responseFormat :=
       Some {| rf_type := "json_schema";
               rf_json_schema :=
                 Some {| js_name := "orchestrator_decision"; js_strict := true;
                         js_schema := schema |} |} |}.

(** The body of the [try] block of [analyzeIntent]. *)
Definition classify (userMessage : string) : M OrchestratorDecision :=
  let* promptData :=
    PromptManager.getPromptWithConfig "orchestrator-intent"
      (fallbackOf getOrchestratorJSONSchema) None in
  let schema := schemaOf promptData getOrchestratorJSONSchema in
  let* model := OpenRouterClient.getModel MTextFast in
  let* response :=
    OpenRouterClient.chat (messagesFor (pwc_prompt promptData) userMessage)
      (Some model) (chatOptions schema) in
  let cleanedContent := stripMarkdownCodeFences (ai_content response) in
  let* env := ask in
  let* parsed := lift_result (JSON_parse env cleanedContent) in
  lift_result (OrchestratorDecisionSchema parsed).

Definition analyzeIntent (userMessage : string) : M OrchestratorDecision :=
  try_catch (classify userMessage) (fun _ => ret fallbackDecision).

End Orchestrator.

(** ** database/repositories/*.ts

    Lookups read the account and category tables; [findByName] is
    [WHERE name ILIKE $1], and a null or undefined name matches no row. *)

(** What the tables hold. *)
Definition accountWithId (env : Env) (id : Z) : option Account :=
  List.find (fun a => acc_id a =? id) (db_accounts env).

Definition accountNamed (env : Env) (name : option string) : option Account :=
  match name with
  | Some n => List.find (fun a => ilike env (acc_name a) n) (db_accounts env)
  | None => None
  end.

Definition categoryWithId (env : Env) (id : Z) : option Category :=
  List.find (fun c => cat_id c =? id) (db_categories env).

Definition categoryNamed (env : Env) (name : option string) : option Category :=
  match name with
  | Some n => List.find (fun c => ilike env (cat_name c) n) (db_categories env)
  | None => None
  end.

Module AccountRepository.

Definition findById (id : Z) : M (option Account) :=
  call (EvFindAccountById id) (fun env _ => Ok (accountWithId env id)).

Definition findByName (name : option string) : M (option Account) :=
  call (EvFindAccountByName name) (fun env _ => Ok (accountNamed env name)).

Definition findAll : M (list Account) :=
  call EvFindAllAccounts (fun env _ => Ok (db_accounts env)).

End AccountRepository.

Module CategoryRepository.

Definition findById (id : Z) : M (option Category) :=
  call (EvFindCategoryById id) (fun env _ => Ok (categoryWithId env id)).

Definition findByName (name : option string) : M (option Category) :=
  call (EvFindCategoryByName name) (fun env _ => Ok (categoryNamed env name)).

End CategoryRepository.

Module TransactionRepository.

(** The exchange rate that [create] stores with the row:
    [data.fromAmount && data.toAmount ? data.toAmount / data.fromAmount : 1];
    the quotient is that of the rationals, where the code divides
    doubles. *)
Definition exchangeRate (data : CreateTransactionDTO) : Q :=
  match tx_fromAmount data with
  | Some fromAmount =>
      if negb (Qeq_bool fromAmount 0) && negb (Qeq_bool (tx_toAmount data) 0)
      then (tx_toAmount data / fromAmount)%Q
      else 1%Q
  | None => 1%Q
  end.

Definition create (data : CreateTransactionDTO) : M Transaction :=
  call (EvCreateTransaction data) (fun env tr => db_insert_transaction env tr data).

End TransactionRepository.

Module CreditCardRepository.

Definition create (data : CreateCreditCardPurchaseDTO) : M CreditCardPurchase :=
  call (EvCreatePurchase data) (fun env tr => db_insert_purchase env tr data).

End CreditCardRepository.

(** ** services/expense-tracker.service.ts *)

Record CreateIncomeDTO : Type := {
  inc_date : JsDate.t;
  inc_description : string;
  inc_accountId : Z;
  inc_amount : Q;
  inc_currency : Currency
}.

Record CreateTransferDTO : Type := {
  tr_date : JsDate.t;
  tr_description : string;
  tr_fromAccountId : Z;
  tr_toAccountId : Z;
  tr_fromAmount : Q;
  tr_toAmount : Q
}.

Record CreateExpenseDTO : Type := {
  exp_date : JsDate.t;
  exp_description : string;
  exp_accountId : Z;
  exp_amount : Q;
  exp_categoryId : Z
}.

Module ExpenseTrackerService.

Definition idText (env : Env) (id : Z) : string := numberToString env (inject_Z id).

Definition isCreditCard (a : Account) : bool :=
  match acc_type a with CREDIT_CARD => true | _ => false end.

(** [uuidv4()] *)
Definition newUuid : M string := fun env w =>
  (Ok (uuidv4 env (uuids_drawn w)), set_uuids_drawn (S (uuids_drawn w)) w).

Definition recordIncome (data : CreateIncomeDTO) : M Transaction :=
  let* env := ask in
  let* account := AccountRepository.findById (inc_accountId data) in
  match account with
  | None => throw (JsError ("Account " +:+ idText env (inc_accountId data) +:+ " not found"))
  | Some _ =>
      TransactionRepository.create
        {| tx_date := inc_date data; tx_description := inc_description data;
           tx_fromAccountId := None; tx_toAccountId := Some (inc_accountId data);
           tx_fromAmount := Some (inc_amount data); tx_toAmount := inc_amount data;
           tx_fromCurrency := Some (inc_currency data); tx_toCurrency := inc_currency data;
           tx_categoryId := None; tx_type := INCOME |}
  end.

Definition recordTransfer (data : CreateTransferDTO) : M Transaction :=
  let* env := ask in
  let* fromAccount := AccountRepository.findById (tr_fromAccountId data) in
  let* toAccount := AccountRepository.findById (tr_toAccountId data) in
  match fromAccount, toAccount with
  | None, _ =>
      throw (JsError ("From account " +:+ idText env (tr_fromAccountId data) +:+ " not found"))
  | Some _, None =>
      throw (JsError ("To account " +:+ idText env (tr_toAccountId data) +:+ " not found"))
  | Some from, Some to =>
      TransactionRepository.create
        {| tx_date := tr_date data; tx_description := tr_description data;
           tx_fromAccountId := Some (tr_fromAccountId data);
           tx_toAccountId := Some (tr_toAccountId data);
           tx_fromAmount := Some (tr_fromAmount data); tx_toAmount := tr_toAmount data;
           tx_fromCurrency := Some (acc_currency from); tx_toCurrency := acc_currency to;
           tx_categoryId := None; tx_type := TRANSFER |}
  end.

Definition recordExpense (data : CreateExpenseDTO) : M Transaction :=
  let* env := ask in
  let* account := AccountRepository.findById (exp_accountId data) in
  match account with
  | None => throw (JsError ("Account " +:+ idText env (exp_accountId data) +:+ " not found"))
  | Some account =>
      let* category := CategoryRepository.findById (exp_categoryId data) in
      match category with
      | None =>
          throw (JsError ("Category " +:+ idText env (exp_categoryId data) +:+ " not found"))
      | Some _ =>
          TransactionRepository.create
            {| tx_date := exp_date data; tx_description := exp_description data;
               tx_fromAccountId := Some (exp_accountId data); tx_toAccountId := None;
               tx_fromAmount := Some (exp_amount data); tx_toAmount := exp_amount data;
               tx_fromCurrency := Some (acc_currency account);
               tx_toCurrency := acc_currency account;
               tx_categoryId := Some (exp_categoryId data); tx_type := EXPENSE |}
      end
  end.

Definition recordCreditCardPayment (fromAccountId creditCardAccountId : Z) (amount : Q)
    (date : JsDate.t) (description : string) : M Transaction :=
  let* env := ask in
  let* fromAccount := AccountRepository.findById fromAccountId in
  let* creditCardAccount := AccountRepository.findById creditCardAccountId in
  match fromAccount, creditCardAccount with
  | None, _ =>
      throw (JsError ("From account " +:+ idText env fromAccountId +:+ " not found"))
  | Some _, None =>
      throw (JsError ("Credit card account " +:+ idText env creditCardAccountId
                      +:+ " not found"))
  | Some from, Some card =>
      if negb (isCreditCard card) then
        throw (JsError ("Account " +:+ idText env creditCardAccountId
                        +:+ " is not a credit card"))
      else
        TransactionRepository.create
          {| tx_date := date; tx_description := description;
             tx_fromAccountId := Some fromAccountId;
             tx_toAccountId := Some creditCardAccountId;
             tx_fromAmount := Some amount; tx_toAmount := amount;
             tx_fromCurrency := Some (acc_currency from);
             tx_toCurrency := acc_currency card;
             tx_categoryId := None; tx_type := CREDIT_CARD_PAYMENT |}
  end.

(** [if (data.categoryId)]: an id that is given and not 0. *)
Definition givenId (id : option Z) : option Z :=
  match id with
  | Some i => if i =? 0 then None else Some i
  | None => None
  end.

(** The installment date of the loop body:
    [d = new Date(data.date); d.setMonth(d.getMonth() + (i - 1))]. *)
Definition installmentDate (date : JsDate.t) (i : Z) : JsDate.t :=
  JsDate.setMonth date (JsDate.addMonths (JsDate.getMonth date) (i - 1)).

Definition installmentDTO (env : Env) (data : CreateFullCreditCardPurchaseDTO)
    (purchaseGroupId : string) (installmentAmount : Q) (i : Z)
    : CreateCreditCardPurchaseDTO :=
  {| cc_creditCardAccountId := full_creditCardAccountId data;
     cc_date := installmentDate (full_date data) i;
     cc_description :=
       full_description data +:+ " (" +:+ idText env i +:+ "/"
       +:+ idText env (full_totalInstallments data) +:+ ")";
     cc_amount := installmentAmount;
     cc_currency := full_currency data;
     cc_categoryId := full_categoryId data;
     cc_installmentNumber := i;
     cc_totalInstallments := full_totalInstallments data;
     cc_purchaseGroupId := purchaseGroupId |}.

(** [for (let i = ...; i <= data.totalInstallments; i++) { ... }] with
    [remaining] passes still to make, the next one for installment [i]. *)
Fixpoint createInstallments (data : CreateFullCreditCardPurchaseDTO)
    (purchaseGroupId : string) (installmentAmount : Q)
    (remaining : nat) (i : Z) (purchases : list CreditCardPurchase)
    : M (list CreditCardPurchase) :=
  match remaining with
  | O => ret purchases
  | S remaining' =>
      let* env := ask in
      let* purchase :=
        CreditCardRepository.create
          (installmentDTO env data purchaseGroupId installmentAmount i) in
      createInstallments data purchaseGroupId installmentAmount remaining' (i + 1)
        (purchases ++ [purchase])
  end.

Definition recordCreditCardPurchase (data : CreateFullCreditCardPurchaseDTO)
    : M (list CreditCardPurchase) :=
  let* env := ask in
  let* creditCardAccount := AccountRepository.findById (full_creditCardAccountId data) in
  match creditCardAccount with
  | None =>
      throw (JsError ("Credit card account " +:+ idText env (full_creditCardAccountId data)
                      +:+ " not found"))
  | Some card =>
      if negb (isCreditCard card) then
        throw (JsError ("Account " +:+ idText env (full_creditCardAccountId data)
                        +:+ " is not a credit card"))
      else
        let* _ :=
          match givenId (full_categoryId data) with
          | Some categoryId =>
              let* category := CategoryRepository.findById categoryId in
              match category with
              | None =>
                  throw (JsError ("Category " +:+ idText env categoryId +:+ " not found"))
              | Some _ => ret tt
              end
          | None => ret tt
          end in
        let* purchaseGroupId := newUuid in
        let installmentAmount :=
          (full_totalAmount data / inject_Z (full_totalInstallments data))%Q in
        createInstallments data purchaseGroupId installmentAmount
          (Z.to_nat (full_totalInstallments data)) 1 []
  end.

Definition findAccountByName (name : option string) : M (option Account) :=
  AccountRepository.findByName name.

Definition findCategoryByName (name : option string) : M (option Category) :=
  CategoryRepository.findByName name.

Definition getAllAccounts : M (list Account) := AccountRepository.findAll.

End ExpenseTrackerService.

(** ** bot/handlers/expense.handler.ts *)

(** What the handler reads of the chat context: [ctx.message?.text]. *)
Record Context : Type := {
  ctx_text : option string
}.

(** What the persistence step hands back: a transaction row, or the
    installment rows of a credit-card purchase. *)
Inductive Saved : Type :=
| SavedTransaction (t : Transaction)
| SavedInstallments (rows : list CreditCardPurchase).

Module ExpenseHandler.

(** [ctx.reply(text)] and [ctx.reply(text, { reply_markup: keyboard })];
    the call is recorded, and the chat is taken to accept it (a reply
    that the chat refuses is outside the model). *)
Definition reply (text : string) : M unit := emit (EvReply text []).
Definition replyWithKeyboard (text : string) (keyboard : list (string * string)) : M unit :=
  emit (EvReply text keyboard).

(** A name inside a template literal (null and undefined are not told
    apart by the model; both print as the latter). *)
Definition nameText (name : option string) : string := default "undefined" name.

(** [amount || fallback] on numbers. *)
Definition amountOr (amount : option Q) (fallback : Q) : Q :=
  match amount with
  | Some q => if Qeq_bool q 0 then fallback else q
  | None => fallback
  end.

Definition handleIncome (parsed : ExpenseParserResult) : M Saved :=
  let* env := ask in
  let* account := ExpenseTrackerService.findAccountByName (ep_toAccount parsed) in
  match account with
  | None => throw (JsError ("Account not found: " +:+ nameText (ep_toAccount parsed)))
  | Some account =>
      let* t :=
        ExpenseTrackerService.recordIncome
          {| inc_date := newDate env (ep_date parsed);
             inc_description := ep_description parsed;
             inc_accountId := acc_id account;
             inc_amount := ep_amount parsed;
             inc_currency := ep_currency parsed |} in
      ret (SavedTransaction t)
  end.

Definition handleTransfer (parsed : ExpenseParserResult) : M Saved :=
  let* env := ask in
  let* fromAccount := ExpenseTrackerService.findAccountByName (ep_fromAccount parsed) in
  let* toAccount := ExpenseTrackerService.findAccountByName (ep_toAccount parsed) in
  match fromAccount, toAccount with
  | None, _ =>
      throw (JsError ("From account not found: " +:+ nameText (ep_fromAccount parsed)))
  | Some _, None =>
      throw (JsError ("To account not found: " +:+ nameText (ep_toAccount parsed)))
  | Some from, Some to =>
      let* t :=
        ExpenseTrackerService.recordTransfer
          {| tr_date := newDate env (ep_date parsed);
             tr_description := ep_description parsed;
             tr_fromAccountId := acc_id from;
             tr_toAccountId := acc_id to;
             tr_fromAmount := amountOr (ep_fromAmount parsed) (ep_amount parsed);
             tr_toAmount := amountOr (ep_toAmount parsed) (ep_amount parsed) |} in
      ret (SavedTransaction t)
  end.

Definition handleExpense (parsed : ExpenseParserResult) : M Saved :=
  let* env := ask in
  let* account := ExpenseTrackerService.findAccountByName (ep_fromAccount parsed) in
  let* category := ExpenseTrackerService.findCategoryByName (ep_category parsed) in
  match account, category with
  | None, _ => throw (JsError ("Account not found: " +:+ nameText (ep_fromAccount parsed)))
  | Some _, None =>
      throw (JsError ("Category not found: " +:+ nameText (ep_category parsed)))
  | Some account, Some category =>
      let* t :=
        ExpenseTrackerService.recordExpense
          {| exp_date := newDate env (ep_date parsed);
             exp_description := ep_description parsed;
             exp_accountId := acc_id account;
             exp_amount := ep_amount parsed;
             exp_categoryId := cat_id category |} in
      ret (SavedTransaction t)
  end.

Definition handleCreditCardPayment (parsed : ExpenseParserResult) : M Saved :=
  let* env := ask in
  let* fromAccount := ExpenseTrackerService.findAccountByName (ep_fromAccount parsed) in
  let* creditCard := ExpenseTrackerService.findAccountByName (ep_toAccount parsed) in
  match fromAccount, creditCard with
  | None, _ =>
      throw (JsError ("From account not found: " +:+ nameText (ep_fromAccount parsed)))
  | Some _, None =>
      throw (JsError ("Credit card not found: " +:+ nameText (ep_toAccount parsed)))
  | Some from, Some card =>
      let* t :=
        ExpenseTrackerService.recordCreditCardPayment (acc_id from) (acc_id card)
          (ep_amount parsed) (newDate env (ep_date parsed)) (ep_description parsed) in
      ret (SavedTransaction t)
  end.

(** [parsed.toAccount || 'BBVA Credit Card'] *)
Definition cardName (parsed : ExpenseParserResult) : string :=
  match TextProcessor.nonEmpty (ep_toAccount parsed) with
  | Some n => n
  | None => "BBVA Credit Card"
  end.

(** [parsed.installments || 1] *)
Definition installmentsOf (parsed : ExpenseParserResult) : Z :=
  if ep_installments parsed =? 0 then 1 else ep_installments parsed.

Definition handleCreditCardPurchase (parsed : ExpenseParserResult) : M Saved :=
  let* env := ask in
  let* creditCard := ExpenseTrackerService.findAccountByName (Some (cardName parsed)) in
  match creditCard with
  | None => throw (JsError "Credit card not found")
  | Some card =>
      let* category :=
        match TextProcessor.nonEmpty (ep_category parsed) with
        | Some c => ExpenseTrackerService.findCategoryByName (Some c)
        | None => ret None
        end in
      let* rows :=
        ExpenseTrackerService.recordCreditCardPurchase
          {| full_creditCardAccountId := acc_id card;
             full_date := newDate env (ep_date parsed);
             full_description := ep_description parsed;
             full_totalAmount := ep_amount parsed;
             full_currency := ep_currency parsed;
             full_categoryId := option_map cat_id category;
             full_totalInstallments := installmentsOf parsed |} in
      ret (SavedInstallments rows)
  end.

Definition icon (type : ParsedType) : string :=
  match type with
  | PIncome => "💰"
  | PTransfer => "↔️"
  | PExpense => "💸"
  | PCreditCardPayment => "💳"
  | PCreditCardPurchase => "🛍️"
  end.

Definition formatSuccessMessage (env : Env) (type : ParsedType) (result : Saved)
    : Result string :=
  let nl := String (ascii_of_nat 10) EmptyString in
  match result with
  | SavedInstallments rows =>
      match rows with
      | first :: _ =>
          Ok (icon type +:+ " Credit card purchase recorded!" +:+ nl +:+ nl
              +:+ "📝 " +:+ p_description first +:+ nl
              +:+ "💵 " +:+ numberToString env (p_amount first) +:+ " "
              +:+ currencyName (p_currency first) +:+ " x "
              +:+ numberToString env (inject_Z (Z.of_nat (List.length rows)))
              +:+ " installments" +:+ nl
              +:+ "📅 Starting " +:+ toLocaleDateString env (p_date first))
      | [] =>
          (* [result[0]] is undefined: a TypeError *)
          Throw (JsError "Cannot read properties of undefined (reading 'description')")
      end
  | SavedTransaction t =>
      Ok (icon type +:+ " Transaction recorded!" +:+ nl +:+ nl
          +:+ "📝 " +:+ t_description t +:+ nl
          +:+ "💵 " +:+ numberToString env (t_to_amount t) +:+ " "
          +:+ currencyName (t_to_currency t) +:+ nl
          +:+ "📅 " +:+ toLocaleDateString env (t_date t))
  end.

Definition isExpense (t : ParsedType) : bool :=
  match t with PExpense => true | _ => false end.

(** A name that is there and not empty (truthy). *)
Definition given (name : option string) : bool :=
  match TextProcessor.nonEmpty name with Some _ => true | None => false end.

(** The interactive validation: an expense without an account, when there
    are accounts to choose from, is parked in the session and the user is
    asked; the result tells whether the handler stops here. *)
Definition askForAccount (parsed : ExpenseParserResult) : M bool :=
  if isExpense (ep_type parsed) && negb (given (ep_fromAccount parsed))
  then
    let* env := ask in
    let* accounts := ExpenseTrackerService.getAllAccounts in
    match accounts with
    | _ :: _ =>
        let* _ := modify (set_pendingTransaction (Some parsed)) in
        let keyboard :=
          map (fun acc => (acc_name acc,
                           "complete_expense_account:" +:+ numberToString env (inject_Z (acc_id acc))))
              accounts in
        let* _ :=
          replyWithKeyboard
            ("I see you spent " +:+ numberToString env (ep_amount parsed) +:+ " "
             +:+ currencyName (ep_currency parsed) +:+ " on " +:+ doubleQuote
             +:+ ep_description parsed +:+ doubleQuote +:+ "."
             +:+ String (ascii_of_nat 10) EmptyString +:+ "Which account did you use?")
            keyboard in
        ret true
    | [] => ret false
    end
  else ret false.

(** The [switch (parsed.type)]; the schema leaves no other type. *)
Definition save (parsed : ExpenseParserResult) : M Saved :=
  match ep_type parsed with
  | PIncome => handleIncome parsed
  | PTransfer => handleTransfer parsed
  | PExpense => handleExpense parsed
  | PCreditCardPayment => handleCreditCardPayment parsed
  | PCreditCardPurchase => handleCreditCardPurchase parsed
  end.

Definition lowConfidenceReply (env : Env) (parsed : ExpenseParserResult) : string :=
  "❓ I'm not confident about this transaction ("
  +:+ numberToString env (ep_confidence parsed)
  +:+ "% confidence). Can you provide more details?".

(** [parsed.confidence < 50] *)
Definition lowConfidence (parsed : ExpenseParserResult) : bool :=
  negb (Qle_bool 50 (ep_confidence parsed)).

(** What [handleExpenseMessage] does once the parser has answered. *)
Definition handleParsed (parsed : ExpenseParserResult) : M unit :=
  let* env := ask in
  if lowConfidence parsed then reply (lowConfidenceReply env parsed)
  else
    let* waiting := askForAccount parsed in
    if waiting then ret tt
    else
      let* result := try_catch (save parsed) (fun dbError => throw dbError) in
      let* text := lift_result (formatSuccessMessage env (ep_type parsed) result) in
      reply text.

Definition handleExpenseMessage (ctx : Context) : M unit :=
  try_catch
    (match TextProcessor.nonEmpty (ctx_text ctx) with
     | None => ret tt
     | Some messageText =>
         let* _ := emit (EvChatAction "typing") in
         let* promptData :=
           PromptManager.getPromptWithConfig "expense-parser"
             (fallbackOf getExpenseParserJSONSchema) None in
         let schema := schemaOf promptData getExpenseParserJSONSchema in
         let* parsed :=
           try_catch
             (let* p :=
                TextProcessor.extractStructured messageText (pwc_prompt promptData)
                  ("expense_parser", schema) ExpenseParserSchema in
              ret (Some p))
             (fun _ =>
                let* _ :=
                  reply "❌ Could not understand the transaction format. Please try again with more details." in
                ret None) in
         match parsed with
         | None => ret tt
         | Some parsed => handleParsed parsed
         end
     end)
    (fun error =>
       reply ("❌ Error processing transaction: " +:+ message_or_unknown error)).

End ExpenseHandler.

(** ** bot/handlers/archive.handler.ts *)

Module ArchiveHandler.

(** A line terminator below 128, which the dot of a pattern does not
    match. *)
Definition isLineTerminator (c : ascii) : bool :=
  let n := nat_of_ascii c in (n =? 10)%nat || (n =? 13)%nat.

(** [word] at the start of [s], letters compared without case (the [i]
    flag); what follows it. *)
Fixpoint stripPrefixNoCase (word s : string) : option string :=
  match word with
  | EmptyString => Some s
  | String a word' =>
      match s with
      | String b s' =>
          if Ascii.eqb (Text.upperChar a) (Text.upperChar b)
          then stripPrefixNoCase word' s' else None
      | EmptyString => None
      end
  end.

(** [\s+] at the start of [s]: what follows the white space, when there
    is some. *)
Definition whiteSpaceThen (s : string) : option string :=
  match s with
  | String c _ => if Text.isWhiteSpace c then Some (Text.trimStart s) else None
  | EmptyString => None
  end.

(** [(?:delete|archive)\s+] at the start of [s]. *)
Definition verbThen (s : string) : option string :=
  match stripPrefixNoCase "delete" s with
  | Some r =>
      match whiteSpaceThen r with
      | Some r' => Some r'
      | None =>
          match stripPrefixNoCase "archive" s with
          | Some r2 => whiteSpaceThen r2
          | None => None
          end
      end
  | None =>
      match stripPrefixNoCase "archive" s with
      | Some r2 => whiteSpaceThen r2
      | None => None
      end
  end.

(** [(?:the\s+)?] at the start of [s]: taken when it matches. *)
Definition articleThen (s : string) : string :=
  match stripPrefixNoCase "the" s with
  | Some r =>
      match whiteSpaceThen r with
      | Some r' => r'
      | None => s
      end
  | None => s
  end.

(** The capture group (a dot, starred): the rest of the line. *)
Fixpoint restOfLine (s : string) : string :=
  match s with
  | EmptyString => EmptyString
  | String c rest => if isLineTerminator c then EmptyString else String c (restOfLine rest)
  end.

(** The capture group of the leftmost match in [s] of the pattern
    [(?:delete|archive)\s+(?:the\s+)?] + group + [(?:\s+expense)?], with the
    flag [i].  The group is greedy and takes the rest of the line, so the
    optional tail of the pattern takes nothing away from it. *)
Fixpoint matchGroup (s : string) : option string :=
  match verbThen s with
  | Some r => Some (restOfLine (articleThen r))
  | None =>
      match s with
      | EmptyString => None
      | String _ rest => matchGroup rest
      end
  end.

Definition extractDescriptionForArchiving (message : string) : string :=
  match matchGroup message with
  | Some group =>
      if String.eqb group EmptyString then message else Text.trim group
  | None => message
  end.

End ArchiveHandler.

(** ** services/logger.service.ts *)

Module LoggerService.

Inductive LogLevel : Type := DEBUG | INFO | WARN | ERROR | NONE.

Definition levelNumber (l : LogLevel) : Z :=
  match l with DEBUG => 0 | INFO => 1 | WARN => 2 | ERROR => 3 | NONE => 4 end.

Record Logger : Type := {
  currentLevel : LogLevel;
  enableColors : bool;
  enableTimestamps : bool
}.

(** A call of [console.log], [console.warn] or [console.error] with its
    first argument. *)
Inductive ConsoleCall : Type :=
| ConsoleLog (line : string)
| ConsoleWarn (line : string)
| ConsoleError (line : string).

Definition escape (code : string) : string :=
  String (ascii_of_nat 27) EmptyString +:+ code.

Definition getLevelString (logger : Logger) (level : LogLevel) : string :=
  if negb (enableColors logger) then
    match level with
    | DEBUG => "[DEBUG] "
    | INFO => "[INFO] "
    | WARN => "[WARN] "
    | ERROR => "[ERROR] "
    | NONE => EmptyString
    end
  else
    let RESET := escape "[0m" in
    match level with
    | DEBUG => escape "[90m" +:+ "[DEBUG]" +:+ RESET +:+ " "
    | INFO => escape "[34m" +:+ "[INFO]" +:+ RESET +:+ " "
    | WARN => escape "[33m" +:+ "[WARN]" +:+ RESET +:+ " "
    | ERROR => escape "[31m" +:+ "[ERROR]" +:+ RESET +:+ " "
    | NONE => EmptyString
    end.

(** The private [log]; [isoNow] is [new Date().toISOString()] at the call. *)
Definition log (logger : Logger) (isoNow : string) (level : LogLevel) (message : string)
    : list ConsoleCall :=
  if levelNumber level <? levelNumber (currentLevel logger) then []
  else
    let timestamp :=
      if enableTimestamps logger then "[" +:+ isoNow +:+ "] " else EmptyString in
    let formattedMessage := timestamp +:+ getLevelString logger level +:+ message in
    match level with
    | DEBUG | INFO => [ConsoleLog formattedMessage]
    | WARN => [ConsoleWarn formattedMessage]
    | ERROR => [ConsoleError formattedMessage]
    | NONE => []
    end.

Definition debug (logger : Logger) (isoNow message : string) : list ConsoleCall :=
  log logger isoNow DEBUG message.
Definition info (logger : Logger) (isoNow message : string) : list ConsoleCall :=
  log logger isoNow INFO message.
Definition warn (logger : Logger) (isoNow message : string) : list ConsoleCall :=
  log logger isoNow WARN message.
Definition error (logger : Logger) (isoNow message : string) : list ConsoleCall :=
  log logger isoNow ERROR message.

(** [char.repeat(length)] for a count that is a natural number. *)
Fixpoint repeatText (char : string) (length : nat) : string :=
  match length with
  | O => EmptyString
  | S n => char +:+ repeatText char n
  end.

Definition separator (logger : Logger) (char : string) (length : nat) : list ConsoleCall :=
  if levelNumber (currentLevel logger) <=? levelNumber INFO
  then [ConsoleLog (repeatText char length)] else [].

Definition newline (logger : Logger) : list ConsoleCall :=
  if levelNumber (currentLevel logger) <=? levelNumber INFO
  then [ConsoleLog EmptyString] else [].

Definition setLevel (level : LogLevel) (logger : Logger) : Logger :=
  {| currentLevel := level; enableColors := enableColors logger;
     enableTimestamps := enableTimestamps logger |}.

End LoggerService.
(** * Properties *)

(** ** Which events a computation can add to the trace *)

Definition isStoreFetch (e : Event) : bool :=
  match e with EvLangfuseGetPrompt _ _ => true | _ => false end.

Definition isAggregate (e : Event) : bool :=
  match e with EvAggregate _ => true | _ => false end.

(** A create on a repository. *)
Definition isCreate (e : Event) : bool :=
  match e with EvCreateTransaction _ | EvCreatePurchase _ => true | _ => false end.

(** Any call to the persistence layer. *)
Definition isPersistence (e : Event) : bool :=
  match e with
  | EvFindAccountById _ | EvFindAccountByName _ | EvFindAllAccounts
  | EvFindCategoryById _ | EvFindCategoryByName _
  | EvCreateTransaction _ | EvCreatePurchase _ | EvAggregate _ => true
  | _ => false
  end.

(** [m] adds no event of the kind [P] to the trace, whatever the outside
    world answers and whether it returns or throws. *)
Definition quiet (P : Event -> bool) {A : Type} (m : M A) : Prop :=
  forall env w, List.filter P (trace (snd (m env w))) = List.filter P (trace w).


(** ** Vocabulary of the statements *)

(** What [LangfuseClient.getPrompt] hands to the prompt resolver: the data
    of the store, or nothing when the client is disabled, the store has no
    such prompt, or the fetch throws. *)
Definition storeAnswer (env : Env) (tr : Trace) (name : string) (version : option Z)
    : option PromptData :=
  if langfuse_enabled env then
    match langfuse_sdk_getPrompt env tr name (LangfuseClient.sdkVersion version) with
    | Ok (Some d) => Some d
    | Ok None | Throw _ => None
    end
  else None.

(** The cache holds an entry for [name] that is younger than the TTL at the
    next reading of the clock. *)
Definition freshEntry (env : Env) (w : World) (name : string) : bool :=
  match promptCache w !! name with
  | Some cached => clock env (clock_reads w) - ce_timestamp cached <? PromptManager.cacheTTL
  | None => false
  end.

(** The world after the store has been asked for [name]. *)
Definition asked (env : Env) (w : World) (name : string) (version : option Z) : World :=
  if langfuse_enabled env
  then set_trace (trace w ++ [EvLangfuseGetPrompt name (LangfuseClient.sdkVersion version)]) w
  else w.

(** The prompt text of a store answer with its config, when there is a
    text and it is not empty. *)
Definition promptText (answer : option PromptData) : option (string * JsValue) :=
  match answer with
  | Some d =>
      match pd_prompt d with
      | Some text => if String.eqb text EmptyString then None else Some (text, pd_config d)
      | None => None
      end
  | None => None
  end.

(** [i, i+1, ...], [n] numbers. *)
Fixpoint countFrom (i : Z) (n : nat) : list Z :=
  match n with
  | O => []
  | S n' => i :: countFrom (i + 1) n'
  end.

(** Every insert of an installment row is answered with a row. *)
Definition insertsSucceed (env : Env) : Prop :=
  forall tr dto, exists row, db_insert_purchase env tr dto = Ok row.

Definition isSome {A : Type} (o : option A) : bool :=
  match o with Some _ => true | None => false end.

(** The name resolves to an account that the service then finds, by its
    id, to be a credit card. *)
Definition creditCardNamed (env : Env) (name : option string) : bool :=
  match accountNamed env name with
  | Some card =>
      match accountWithId env (acc_id card) with
      | Some found => ExpenseTrackerService.isCreditCard found
      | None => false
      end
  | None => false
  end.

(** The account and category references that the transaction type
    requires are resolved: every lookup on the way to the create finds its
    row (for an expense the account is named in the message; the card of a
    payment or purchase is a credit card). *)
Definition referencesResolved (env : Env) (parsed : ExpenseParserResult) : bool :=
  match ep_type parsed with
  | PIncome => isSome (accountNamed env (ep_toAccount parsed))
  | PTransfer =>
      isSome (accountNamed env (ep_fromAccount parsed))
      && isSome (accountNamed env (ep_toAccount parsed))
  | PExpense =>
      ExpenseHandler.given (ep_fromAccount parsed)
      && isSome (accountNamed env (ep_fromAccount parsed))
      && isSome (categoryNamed env (ep_category parsed))
  | PCreditCardPayment =>
      isSome (accountNamed env (ep_fromAccount parsed))
      && creditCardNamed env (ep_toAccount parsed)
  | PCreditCardPurchase => creditCardNamed env (Some (ExpenseHandler.cardName parsed))
  end.

(** The world in which the handler, having shown the typing action, asks
    the parser. *)
Definition typing (w : World) : World :=
  set_trace (trace w ++ [EvChatAction "typing"]) w.

(** The expense parser answered the message of [ctx] with [parsed],
    leaving the world [wp]. *)
Definition parserAnswered (env : Env) (w : World) (ctx : Context)
    (parsed : ExpenseParserResult) (wp : World) : Prop :=
  exists messageText promptData w1,
    TextProcessor.nonEmpty (ctx_text ctx) = Some messageText
    /\ PromptManager.getPromptWithConfig "expense-parser"
         (fallbackOf getExpenseParserJSONSchema) None env (typing w) = (Ok promptData, w1)
    /\ TextProcessor.extractStructured messageText (pwc_prompt promptData)
         ("expense_parser", schemaOf promptData getExpenseParserJSONSchema)
         ExpenseParserSchema env w1 = (Ok parsed, wp).

(** The category check of [recordCreditCardPurchase] passes. *)
Definition categoryKnown (env : Env) (categoryId : option Z) : bool :=
  match ExpenseTrackerService.givenId categoryId with
  | Some id => isSome (categoryWithId env id)
  | None => true
  end.

(** The installments that [recordCreditCardPurchase] hands to the
    repository, in order. *)
Definition installmentsOfPurchase (env : Env) (w : World)
    (data : CreateFullCreditCardPurchaseDTO) : list CreateCreditCardPurchaseDTO :=
  map (ExpenseTrackerService.installmentDTO env data (uuidv4 env (uuids_drawn w))
         (full_totalAmount data / inject_Z (full_totalInstallments data))%Q)
      (countFrom 1 (Z.to_nat (full_totalInstallments data))).

(** The template has a placeholder for [key] somewhere. *)
Fixpoint hasPlaceholder (key s : string) : bool :=
  match s with
  | EmptyString => false
  | String _ rest => isSome (PromptManager.matchPlaceholder key s) || hasPlaceholder key rest
  end.

(** The replacement text has no dollar sign. *)
Definition dollarFree (value : string) : bool :=
  forallb (fun c => negb (Ascii.eqb c "$")) (list_ascii_of_string value).

(** ** Vocabulary of the further properties *)

(** The keys that each schema declares. *)
Definition orchestratorKeys : list string := [ "intent"; "confidence"; "reasoning" ].

Definition queryGeneratorKeys : list string :=
  [ "query_type"; "sort_order"; "limit"; "time_period"; "filters"; "include_archived";
    "credit_card_account_id" ].

Definition expenseParserKeys : list string :=
  [ "type"; "description"; "amount"; "fromAccount"; "toAccount"; "category"; "currency";
    "date"; "installments"; "fromAmount"; "toAmount"; "confidence" ].

(** The request that [extractStructured] sends to the model provider. *)
Definition extractionRequest (env : Env) (text systemPrompt : string)
    (jsonSchema : string * JsValue) : CompletionRequest :=
  OpenRouterClient.requestParams env
    [ {| msg_role := "system"; msg_content := systemPrompt |};
      {| msg_role := "user"; msg_content := text |} ]
    (Some (models env MTextFast))
    {| opt_temperature := Some (2 # 10)%Q;
       opt_maxTokens := Some 1000;
       opt_responseFormat :=
         Some {| rf_type := "json_schema";
                 rf_json_schema :=
                   Some {| js_name := fst jsonSchema; js_strict := true;
                           js_schema := snd jsonSchema |} |} |}.

(** No backquote occurs in [s]. *)
Definition backquoteFree (s : string) : bool :=
  forallb (fun c => negb (Ascii.eqb c "`")) (list_ascii_of_string s).

Definition lineFeed : string := String (ascii_of_nat 10) EmptyString.

(** [body] as a model writes it into a Markdown code block. *)
Definition fenced (body : string) : string :=
  "```json" +:+ lineFeed +:+ body +:+ lineFeed +:+ "```".

Definition allWhiteSpace (s : string) : bool :=
  forallb Text.isWhiteSpace (list_ascii_of_string s).

(** No opening brace occurs in [s]. *)
Definition braceFree (s : string) : bool :=
  forallb (fun c => negb (Ascii.eqb c "{")) (list_ascii_of_string s).

(** A placeholder for [key], with white space inside the braces. *)
Definition placeholder (before key after : string) : string :=
  "{{" +:+ before +:+ key +:+ after +:+ "}}".

(** What a resolution answers when only the prompt store is asked. *)
Definition storeResult (env : Env) (w : World) (name : string) (fallbackConfig : JsValue)
    (version : option Z) : Result PromptWithConfig :=
  match promptText (storeAnswer env (trace w) name version) with
  | Some (text, config) =>
      Ok {| pwc_prompt := text; pwc_config := js_or config fallbackConfig |}
  | None => Throw (JsError (PromptManager.notFoundMessage name))
  end.

(** The transaction rows that the trace asks the repository to insert, in
    order. *)
Definition createdTransactions (tr : Trace) : list CreateTransactionDTO :=
  flat_map (fun e => match e with EvCreateTransaction dto => [dto] | _ => [] end) tr.

(** The installment rows that the trace asks the repository to insert. *)
Definition createdPurchases (tr : Trace) : list CreateCreditCardPurchaseDTO :=
  flat_map (fun e => match e with EvCreatePurchase dto => [dto] | _ => [] end) tr.

(** A row of one amount: what leaves the one account arrives at the
    other, and the stored exchange rate is 1. *)
Definition singleAmountRow (type : TransactionType) (amount : Q)
    (dto : CreateTransactionDTO) : Prop :=
  tx_type dto = type
  /\ tx_fromAmount dto = Some amount /\ tx_toAmount dto = amount
  /\ (TransactionRepository.exchangeRate dto == 1)%Q.

(** A transfer row: both amounts positive, and the exchange rate stored
    with it is the amount that arrives divided by the amount that
    leaves. *)
Definition transferRow (dto : CreateTransactionDTO) : Prop :=
  tx_type dto = TRANSFER
  /\ (0 < tx_toAmount dto)%Q
  /\ exists fromAmount,
       tx_fromAmount dto = Some fromAmount
       /\ (0 < fromAmount)%Q
       /\ TransactionRepository.exchangeRate dto = (tx_toAmount dto / fromAmount)%Q.

(** The inline keyboard of the question for the account: one button for
    each account, with the id of the account in its callback data. *)
Definition accountKeyboard (env : Env) : list (string * string) :=
  map (fun acc => (acc_name acc,
                   "complete_expense_account:" +:+ numberToString env (inject_Z (acc_id acc))))
      (db_accounts env).

(** The question that the handler asks when an expense names no account. *)
Definition accountQuestion (env : Env) (parsed : ExpenseParserResult) : string :=
  "I see you spent " +:+ numberToString env (ep_amount parsed) +:+ " "
  +:+ currencyName (ep_currency parsed) +:+ " on " +:+ doubleQuote
  +:+ ep_description parsed +:+ doubleQuote +:+ "."
  +:+ String (ascii_of_nat 10) EmptyString +:+ "Which account did you use?".

(** The world after the reply [text] has been sent. *)
Definition replied (text : string) (w : World) : World :=
  set_trace (trace w ++ [EvReply text []]) w.

Definition isCompletion (e : Event) : bool :=
  match e with EvCompletion _ => true | _ => false end.

(** The messages that [processText] sends for a system prompt and a user
    message: an empty system prompt is left out. *)
Definition promptedMessages (systemPrompt userMessage : string) : list AIMessage :=
  (if String.eqb systemPrompt EmptyString then []
   else [ {| msg_role := "system"; msg_content := systemPrompt |} ])
  ++ [ {| msg_role := "user"; msg_content := userMessage |} ].

(** White space does not start the text. *)
Definition startsSolid (s : string) : bool :=
  match s with
  | EmptyString => true
  | String c _ => negb (Text.isWhiteSpace c)
  end.

Definition lineTerminatorFree (s : string) : bool :=
  forallb (fun c => negb (ArchiveHandler.isLineTerminator c)) (list_ascii_of_string s).

(** Every key of the variables is matched literally by the pattern that
    [compilePrompt] builds from it. *)
Definition literalVariables (variables : option (list (string * string))) : bool :=
  match variables with
  | Some vars => forallb (fun kv => PromptManager.literalKey (fst kv)) vars
  | None => true
  end.

(** ** Example worlds

    A small outside world for the scenarios: a prompt store that answers
    every name alike, a model that always replies with the same text, a
    JSON parser that knows one text, and a database with two accounts and
    one category that echoes what is inserted. *)

Module Example.

Definition accounts : list Account :=
  [ {| acc_id := 1; acc_name := "Cash"; acc_type := BANK; acc_currency := USD |};
    {| acc_id := 2; acc_name := "Visa Credit Card"; acc_type := CREDIT_CARD;
       acc_currency := USD |} ].

Definition categories : list Category :=
  [ {| cat_id := 1; cat_name := "Food & Groceries" |} ].

Definition numberText (q : Q) : string :=
  let r := Qred q in
  if Pos.eqb (Qden r) 1 then pretty (Qnum r)
  else pretty (Qnum r) +:+ "/" +:+ pretty (Zpos (Qden r)).

Definition digit (c : ascii) : Z := Z.of_nat (nat_of_ascii c) - 48.

(** The Date constructor on a YYYY-MM-DD text, in the UTC time zone. *)
Definition dateOf (s : string) : JsDate.t :=
  match list_ascii_of_string s with
  | [y1; y2; y3; y4; _; m1; m2; _; d1; d2] =>
      let y := 1000 * digit y1 + 100 * digit y2 + 10 * digit y3 + digit y4 in
      let m := 10 * digit m1 + digit m2 in
      let d := 10 * digit d1 + digit d2 in
      if isDateText s && (1 <=? m) && (m <=? 12) && (1 <=? d)
         && (d <=? JsDate.daysInMonth y (m - 1))
      then JsDate.Civil y (m - 1) d 0
      else JsDate.Invalid
  | _ => JsDate.Invalid
  end.

Definition env (enabled : bool) (stored : option PromptData) (reply : string)
    (parse : string -> Result JsValue) : Env :=
  {| langfuse_enabled := enabled;
     langfuse_sdk_getPrompt := fun _ _ _ => Ok stored;
     clock := fun n => 1000 * Z.of_nat n;
     completions_create := fun _ req =>
       Ok {| resp_choices := [ {| choice_message := Some (Some reply) |} ];
             resp_model := req_model req;
             resp_usage := None |};
     models := fun _ => "openai/gpt-4o-mini";
     JSON_parse := parse;
     JSON_stringify_query := query_type;
     numberToString := numberText;
     toLocaleDateString := fun _ => "a date";
     newDate := dateOf;
     uuidv4 := fun n => "uuid-" +:+ pretty n;
     db_accounts := accounts;
     db_categories := categories;
     ilike := String.eqb;
     db_insert_transaction := fun tr dto =>
       Ok {| t_id := Z.of_nat (List.length tr); t_date := tx_date dto;
             t_description := tx_description dto; t_to_amount := tx_toAmount dto;
             t_to_currency := tx_toCurrency dto |};
     db_insert_purchase := fun tr dto =>
       Ok {| p_id := Z.of_nat (List.length tr); p_date := cc_date dto;
             p_description := cc_description dto; p_amount := cc_amount dto;
             p_currency := cc_currency dto;
             p_installment_number := cc_installmentNumber dto;
             p_total_installments := cc_totalInstallments dto;
             p_purchase_group_id := cc_purchaseGroupId dto |};
     db_rows := fun _ _ => Ok [];
     db_count := fun _ _ => Ok 0;
     renderRow := fun _ _ _ => EmptyString |}.

Definition noJson (s : string) : Result JsValue :=
  Throw (SyntaxError "Unexpected token").

Definition world : World :=
  {| promptCache := ∅; clock_reads := 0; uuids_drawn := 0;
     pendingTransaction := None; trace := [] |}.

Definition stored (text : string) (config : JsValue) : option PromptData :=
  Some {| pd_prompt := Some text; pd_config := config |}.

(** Scenario A: the parser's answer to the message of a grocery expense. *)
Definition groceries : ExpenseParserResult :=
  {| ep_type := PExpense; ep_description := "Groceries"; ep_amount := 50;
     ep_fromAccount := Some "Cash"; ep_toAccount := None;
     ep_category := Some "Food & Groceries"; ep_currency := USD;
     ep_date := "2025-03-15"; ep_installments := 1;
     ep_fromAmount := None; ep_toAmount := None; ep_confidence := 95 |}.

Definition groceriesValue : JsValue :=
  JObject [ ("type", JString "expense"); ("description", JString "Groceries");
            ("amount", JNumber 50); ("fromAccount", JString "Cash");
            ("category", JString "Food & Groceries"); ("currency", JString "USD");
            ("date", JString "2025-03-15"); ("confidence", JNumber 95) ].

Definition quoted (s : string) : string := doubleQuote +:+ s +:+ doubleQuote.

Definition groceriesJson : string :=
  "{" +:+ quoted "type" +:+ ":" +:+ quoted "expense" +:+ ","
  +:+ quoted "description" +:+ ":" +:+ quoted "Groceries" +:+ ","
  +:+ quoted "amount" +:+ ":50,"
  +:+ quoted "fromAccount" +:+ ":" +:+ quoted "Cash" +:+ ","
  +:+ quoted "category" +:+ ":" +:+ quoted "Food & Groceries" +:+ ","
  +:+ quoted "currency" +:+ ":" +:+ quoted "USD" +:+ ","
  +:+ quoted "date" +:+ ":" +:+ quoted "2025-03-15" +:+ ","
  +:+ quoted "confidence" +:+ ":95}".

(** The outside world in which the model answers the parser with the text
    [json], which JSON.parse reads as [value]. *)
Definition parserEnv (json : string) (value : JsValue) : Env :=
  env true (stored "You extract one transaction from the message." JUndefined)
      json (fun s => if String.eqb s json then Ok value else noJson s).

Definition groceriesEnv : Env := parserEnv groceriesJson groceriesValue.

Definition groceriesContext : Context := {| ctx_text := Some "Spent $50 on groceries" |}.

(** A payment of the card in which the model names the bank account as
    the card. *)
Definition payment : ExpenseParserResult :=
  {| ep_type := PCreditCardPayment; ep_description := "Card payment"; ep_amount := 100;
     ep_fromAccount := Some "Cash"; ep_toAccount := Some "Cash";
     ep_category := None; ep_currency := USD;
     ep_date := "2025-03-15"; ep_installments := 1;
     ep_fromAmount := None; ep_toAmount := None; ep_confidence := 90 |}.

Definition paymentValue : JsValue :=
  JObject [ ("type", JString "credit_card_payment"); ("description", JString "Card payment");
            ("amount", JNumber 100); ("fromAccount", JString "Cash");
            ("toAccount", JString "Cash"); ("currency", JString "USD");
            ("date", JString "2025-03-15"); ("confidence", JNumber 90) ].

Definition paymentJson : string :=
  "{" +:+ quoted "type" +:+ ":" +:+ quoted "credit_card_payment" +:+ ","
  +:+ quoted "description" +:+ ":" +:+ quoted "Card payment" +:+ ","
  +:+ quoted "amount" +:+ ":100,"
  +:+ quoted "fromAccount" +:+ ":" +:+ quoted "Cash" +:+ ","
  +:+ quoted "toAccount" +:+ ":" +:+ quoted "Cash" +:+ ","
  +:+ quoted "currency" +:+ ":" +:+ quoted "USD" +:+ ","
  +:+ quoted "date" +:+ ":" +:+ quoted "2025-03-15" +:+ ","
  +:+ quoted "confidence" +:+ ":90}".

Definition paymentEnv : Env := parserEnv paymentJson paymentValue.

Definition paymentContext : Context := {| ctx_text := Some "Paid 100 on my card from Cash" |}.

(** Scenario D: a generated query outside the allow-list. *)
Definition deleteAll : GeneratedQuery :=
  {| query_type := "delete_all_transactions"; sort_order := None; limit := None;
     time_period := "all_time"; filters := JUndefined; include_archived := false;
     credit_card_account_id := None |}.

(** Scenario C: the count of archived transactions, judged by a model that
    answers in lower case with a line break. *)
Definition countArchived : GeneratedQuery :=
  {| query_type := "count_archived_transactions"; sort_order := None; limit := None;
     time_period := "all_time"; filters := JUndefined; include_archived := false;
     credit_card_account_id := None |}.

Definition validatorTemplate : string :=
  "User request: {{user_request}} Generated query: {{generated_query}}".

Definition validatorEnv (reply : string) : Env :=
  env true (stored validatorTemplate JUndefined) reply noJson.

Definition safeReply : string := " safe" +:+ String (ascii_of_nat 10) EmptyString.

(** Scenario B, bought on the last day of January. *)
Definition laptop : CreateFullCreditCardPurchaseDTO :=
  {| full_creditCardAccountId := 2; full_date := JsDate.Civil 2025 0 31 0;
     full_description := "Laptop"; full_totalAmount := 1200; full_currency := USD;
     full_categoryId := None; full_totalInstallments := 12 |}.

Definition shopEnv : Env := env true None EmptyString noJson.

Definition captionTemplate : string :=
  "You are analyzing an image with caption: {{caption}}".

(** A prompt whose config in the store is the value false. *)
Definition switchedOffEnv : Env :=
  env true (stored "You extract one transaction from the message." (JBool false))
      EmptyString noJson.

(** The world in which the parser has answered the grocery message. *)
Definition groceriesPrompt : PromptWithConfig :=
  {| pwc_prompt := "You extract one transaction from the message.";
     pwc_config := fallbackOf getExpenseParserJSONSchema |}.

Definition groceriesPrompted : World :=
  snd (PromptManager.getPromptWithConfig "expense-parser"
         (fallbackOf getExpenseParserJSONSchema) None groceriesEnv
         (set_trace (trace world ++ [EvChatAction "typing"]) world)).

Definition groceriesParsed : World :=
  snd (TextProcessor.extractStructured "Spent $50 on groceries"
         (pwc_prompt groceriesPrompt)
         ("expense_parser", schemaOf groceriesPrompt getExpenseParserJSONSchema)
         ExpenseParserSchema groceriesEnv groceriesPrompted).

(** The same for the card payment. *)
Definition paymentPrompted : World :=
  snd (PromptManager.getPromptWithConfig "expense-parser"
         (fallbackOf getExpenseParserJSONSchema) None paymentEnv
         (set_trace (trace world ++ [EvChatAction "typing"]) world)).

Definition paymentParsed : World :=
  snd (TextProcessor.extractStructured "Paid 100 on my card from Cash"
         (pwc_prompt groceriesPrompt)
         ("expense_parser", schemaOf groceriesPrompt getExpenseParserJSONSchema)
         ExpenseParserSchema paymentEnv paymentPrompted).

(** The worlds in which the validator prompt is resolved and the model
    has answered the validator. *)
Definition archivedQuestion : string := "How many archived transactions do I have?".

Definition validatorPrompted : World :=
  snd (PromptManager.getPrompt "query-validator" None (validatorEnv safeReply) world).

Definition validatorAnswer : AIResponse :=
  {| ai_content := safeReply; ai_model := "openai/gpt-4o-mini"; ai_usage := None |}.

Definition validatorAnswered : World :=
  snd (TextProcessor.processText AnalyticsService.validatorQuestion
         (AnalyticsService.validatorOptions
            (AnalyticsService.validatorPrompt (validatorEnv safeReply) validatorTemplate
               archivedQuestion countArchived))
         (validatorEnv safeReply) validatorPrompted).

End Example.

(** ** Further example values *)

Module Sample.

(** The three accounts that spent most this month. *)
Definition rankingValue : JsValue :=
  JObject [ ("query_type", JString "rank_accounts_by_expense"); ("limit", JNumber 3);
            ("time_period", JString "this_month") ].

Definition ranking : GeneratedQuery :=
  {| query_type := "rank_accounts_by_expense"; sort_order := None; limit := Some 3;
     time_period := "this_month"; filters := JUndefined; include_archived := false;
     credit_card_account_id := None |}.

(** A transfer of 100 USD that arrives as 92 EUR. *)
Definition transferValue : JsValue :=
  JObject [ ("type", JString "transfer"); ("description", JString "To savings");
            ("amount", JNumber 100); ("fromAccount", JString "Cash");
            ("toAccount", JString "Visa Credit Card"); ("currency", JString "USD");
            ("date", JString "2025-03-15"); ("fromAmount", JNumber 100);
            ("toAmount", JNumber 92); ("confidence", JNumber 90) ].

Definition transfer : ExpenseParserResult :=
  {| ep_type := PTransfer; ep_description := "To savings"; ep_amount := 100;
     ep_fromAccount := Some "Cash"; ep_toAccount := Some "Visa Credit Card";
     ep_category := None; ep_currency := USD;
     ep_date := "2025-03-15"; ep_installments := 1;
     ep_fromAmount := Some 100%Q; ep_toAmount := Some 92%Q; ep_confidence := 90 |}.

(** A purchase in three installments, made in the middle of January. *)
Definition phone : CreateFullCreditCardPurchaseDTO :=
  {| full_creditCardAccountId := 2; full_date := JsDate.Civil 2025 0 15 0;
     full_description := "Phone"; full_totalAmount := 900; full_currency := USD;
     full_categoryId := None; full_totalInstallments := 3 |}.

Definition visa : Account :=
  {| acc_id := 2; acc_name := "Visa Credit Card"; acc_type := CREDIT_CARD;
     acc_currency := USD |}.

(** An expense for which the message names no account. *)
Definition coffee : ExpenseParserResult :=
  {| ep_type := PExpense; ep_description := "Coffee"; ep_amount := 4;
     ep_fromAccount := None; ep_toAccount := None;
     ep_category := Some "Food & Groceries"; ep_currency := USD;
     ep_date := "2025-03-15"; ep_installments := 1;
     ep_fromAmount := None; ep_toAmount := None; ep_confidence := 80 |}.

(** A purchase on the card in a category that the database does not
    have. *)
Definition headphones : ExpenseParserResult :=
  {| ep_type := PCreditCardPurchase; ep_description := "Headphones"; ep_amount := 300;
     ep_fromAccount := None; ep_toAccount := Some "Visa Credit Card";
     ep_category := Some "Gadgets"; ep_currency := USD;
     ep_date := "2025-03-15"; ep_installments := 3;
     ep_fromAmount := None; ep_toAmount := None; ep_confidence := 90 |}.

End Sample.
Section Quiet.

Variable P : Event -> bool.

Lemma quiet_ret {A : Type} (a : A) : quiet P (ret a).
Proof. intros env w. reflexivity. Qed.

Lemma quiet_throw {A : Type} (e : Exn) : quiet P (@throw A e).
Proof. intros env w. reflexivity. Qed.

Lemma quiet_ask : quiet P ask.
Proof. intros env w. reflexivity. Qed.

Lemma quiet_get : quiet P get.
Proof. intros env w. reflexivity. Qed.

Lemma quiet_lift {A : Type} (r : Result A) : quiet P (lift_result r).
Proof. intros env w. reflexivity. Qed.

Lemma quiet_Date_now : quiet P Date_now.
Proof. intros env w. reflexivity. Qed.

Lemma quiet_modify (f : World -> World) :
  (forall w, trace (f w) = trace w) -> quiet P (modify f).
Proof. intros Hf env w. cbn. now rewrite Hf. Qed.

Lemma quiet_bind {A B : Type} (m : M A) (k : A -> M B) :
  quiet P m -> (forall a, quiet P (k a)) -> quiet P (bind m k).
Proof.
  intros Hm Hk env w. unfold bind.
  specialize (Hm env w). destruct (m env w) as [[a | e] w1]; cbn in *.
  - now rewrite Hk.
  - exact Hm.
Qed.

Lemma quiet_try_catch {A : Type} (m : M A) (h : Exn -> M A) :
  quiet P m -> (forall e, quiet P (h e)) -> quiet P (try_catch m h).
Proof.
  intros Hm Hh env w. unfold try_catch.
  specialize (Hm env w). destruct (m env w) as [[a | e] w1]; cbn in *.
  - exact Hm.
  - now rewrite Hh.
Qed.

Lemma quiet_call {A : Type} (e : Event) (answer : Env -> Trace -> Result A) :
  P e = false -> quiet P (call e answer).
Proof.
  intros He env w. cbn. rewrite List.filter_app. cbn. rewrite He.
  now rewrite app_nil_r.
Qed.

Lemma quiet_emit (e : Event) : P e = false -> quiet P (emit e).
Proof.
  intros He env w. cbn. rewrite List.filter_app. cbn. rewrite He.
  now rewrite app_nil_r.
Qed.

End Quiet.

Ltac quiet_step :=
  first
    [ apply quiet_ret | apply quiet_throw | apply quiet_ask | apply quiet_get
    | apply quiet_lift | apply quiet_Date_now
    | apply quiet_call; solve [ reflexivity | auto ]
    | apply quiet_emit; solve [ reflexivity | auto ]
    | apply quiet_modify; intros; reflexivity
    | apply quiet_bind; [ | intros ? ]
    | apply quiet_try_catch; [ | intros ? ]
    | match goal with
      | |- quiet _ (match ?x with _ => _ end) => destruct x
      | |- quiet _ (if ?x then _ else _) => destruct x
      end ].

Ltac quiet_auto := repeat quiet_step.


Lemma PromptData_eta (d : PromptData) :
  {| pd_prompt := pd_prompt d; pd_config := pd_config d |} = d.
Proof. now destruct d. Qed.

Lemma LangfuseClient_getPrompt_run env w name version :
  LangfuseClient.getPrompt name version env w =
    (Ok (storeAnswer env (trace w) name version),
     if langfuse_enabled env
     then set_trace (trace w ++ [EvLangfuseGetPrompt name (LangfuseClient.sdkVersion version)]) w
     else w).
Proof.
  unfold LangfuseClient.getPrompt, LangfuseClient.isEnabled, storeAnswer,
    bind, ask, ret, try_catch, call.
  destruct (langfuse_enabled env); cbn; [ | reflexivity ].
  destruct (langfuse_sdk_getPrompt env (trace w) name (LangfuseClient.sdkVersion version))
    as [[d | ] | e]; cbn; try reflexivity.
  now rewrite PromptData_eta.
Qed.

(** C10. [LangfuseClient.getPrompt] never throws: it returns null when the
    client is disabled, when the store has no data for the name and when
    the fetch throws, and the [{prompt, config}] pair of the store
    otherwise.  So the only failure that the prompt resolver surfaces from
    fetching is its own descriptive error. *)
Theorem LangfuseClient_getPrompt_never_throws env w name version fallbackConfig :
  fst (LangfuseClient.getPrompt name version env w) =
    Ok (if langfuse_enabled env then
          match langfuse_sdk_getPrompt env (trace w) name (LangfuseClient.sdkVersion version) with
          | Ok (Some d) => Some {| pd_prompt := pd_prompt d; pd_config := pd_config d |}
          | Ok None => None
          | Throw _ => None
          end
        else None)
  /\ match fst (PromptManager.getPromptWithConfig name fallbackConfig version env w) with
     | Ok _ => True
     | Throw e => e = JsError (PromptManager.notFoundMessage name)
     end.
Proof.
  split.
  - rewrite LangfuseClient_getPrompt_run. cbn. unfold storeAnswer.
    destruct (langfuse_enabled env); [ | reflexivity ].
    destruct (langfuse_sdk_getPrompt _ _ _ _) as [[d | ] | e]; try reflexivity.
    now rewrite PromptData_eta.
  - unfold PromptManager.getPromptWithConfig, bind, get.
    assert (Hfetch : forall w0,
      match fst (PromptManager.fetchPromptWithConfig name fallbackConfig version env w0) with
      | Ok _ => True
      | Throw e => e = JsError (PromptManager.notFoundMessage name)
      end).
    { intros w0. unfold PromptManager.fetchPromptWithConfig, bind.
      unfold LangfuseClient.isEnabled at 1. unfold bind, ask, ret.
      destruct (langfuse_enabled env) eqn:En; [ | reflexivity ].
      rewrite LangfuseClient_getPrompt_run.
      destruct (storeAnswer env (trace w0) name version) as [d | ]; [ | reflexivity ].
      destruct (pd_prompt d) as [text | ]; [ | reflexivity ].
      destruct (String.eqb text EmptyString); cbn; [ reflexivity | exact I ]. }
    destruct (promptCache w !! name) as [cached | ]; [ | apply Hfetch ].
    unfold Date_now.
    destruct (_ <? _); [ exact I | apply Hfetch ].
Qed.

Lemma fetchPromptWithConfig_run env w name fallbackConfig version :
  PromptManager.fetchPromptWithConfig name fallbackConfig version env w =
    match promptText (storeAnswer env (trace w) name version) with
    | Some (text, config) =>
        let w1 := asked env w name version in
        let entry := {| ce_prompt := text; ce_config := js_or config fallbackConfig;
                        ce_timestamp := clock env (clock_reads w1) |} in
        (Ok {| pwc_prompt := text; pwc_config := js_or config fallbackConfig |},
         set_promptCache (<[name := entry]> (promptCache w1))
           (set_clock_reads (S (clock_reads w1)) w1))
    | None => (Throw (JsError (PromptManager.notFoundMessage name)), asked env w name version)
    end.
Proof.
  unfold PromptManager.fetchPromptWithConfig, bind.
  unfold LangfuseClient.isEnabled at 1. unfold bind, ask, ret.
  destruct (langfuse_enabled env) eqn:En.
  - rewrite LangfuseClient_getPrompt_run. unfold asked. rewrite En.
    destruct (storeAnswer env (trace w) name version) as [d | ]; cbn; [ | reflexivity ].
    destruct (pd_prompt d) as [text | ]; cbn; [ | reflexivity ].
    destruct (String.eqb text EmptyString); cbn; reflexivity.
  - unfold storeAnswer, asked. rewrite En. reflexivity.
Qed.

Lemma getPromptWithConfig_miss env w name fallbackConfig version :
  freshEntry env w name = false ->
  fst (PromptManager.getPromptWithConfig name fallbackConfig version env w) =
    match promptText (storeAnswer env (trace w) name version) with
    | Some (text, config) =>
        Ok {| pwc_prompt := text; pwc_config := js_or config fallbackConfig |}
    | None => Throw (JsError (PromptManager.notFoundMessage name))
    end.
Proof.
  unfold freshEntry, PromptManager.getPromptWithConfig, bind, get.
  destruct (promptCache w !! name) as [cached | ].
  - intros Hstale. unfold Date_now. rewrite Hstale.
    rewrite fetchPromptWithConfig_run. cbn.
    destruct (promptText _) as [[text config] | ]; reflexivity.
  - intros _. rewrite fetchPromptWithConfig_run.
    destruct (promptText _) as [[text config] | ]; reflexivity.
Qed.

(** C7, amended.  When the cache holds no fresh entry for the name:
    if the prompt store is disabled, or it hands back no prompt, or the
    prompt text is missing or empty, [getPromptWithConfig] throws the
    descriptive error (there is no hardcoded prompt text to fall back on);
    on a successful fetch the returned config is the store's config when
    that value is truthy, else the fallback config of the caller. *)
Theorem getPromptWithConfig_on_miss env w name fallbackConfig version :
  freshEntry env w name = false ->
  let answer := storeAnswer env (trace w) name version in
  let result := fst (PromptManager.getPromptWithConfig name fallbackConfig version env w) in
  ((langfuse_enabled env = false
    \/ answer = None
    \/ (exists d, answer = Some d /\ (pd_prompt d = None \/ pd_prompt d = Some EmptyString)))
   -> result = Throw (JsError (PromptManager.notFoundMessage name)))
  /\ (forall d text,
        answer = Some d -> pd_prompt d = Some text -> text <> EmptyString ->
        result = Ok {| pwc_prompt := text;
                       pwc_config := if truthy (pd_config d) then pd_config d
                                     else fallbackConfig |}).
Proof.
  intros Hmiss answer result. subst result.
  rewrite (getPromptWithConfig_miss _ _ _ _ _ Hmiss). fold answer.
  split.
  - intros [Hoff | [Hnone | [d [Hd [Hp | Hp]]]]].
    + unfold answer, storeAnswer. rewrite Hoff. reflexivity.
    + rewrite Hnone. reflexivity.
    + rewrite Hd. cbn. rewrite Hp. reflexivity.
    + rewrite Hd. cbn. rewrite Hp. reflexivity.
  - intros d text Hd Hp Hne. rewrite Hd. cbn. rewrite Hp.
    destruct (String.eqb_spec text EmptyString) as [-> | _]; [ congruence | reflexivity ].
Qed.

(** C8.  After a successful first fetch of a prompt (one store fetch, whose
    result is cached under the time that the fetch read from the clock),
    every later resolution of the same name that reads the clock less than
    5 minutes after that time returns the cached [{prompt, config}] and
    adds nothing to the trace: no further store fetch.  So a second
    resolution right after the first, within the 5 minutes, leaves exactly
    one store fetch across the two calls. *)
Theorem getPromptWithConfig_cached_within_ttl env w name fallbackConfig version p w1 :
  freshEntry env w name = false ->
  PromptManager.getPromptWithConfig name fallbackConfig version env w = (Ok p, w1) ->
  List.filter isStoreFetch (trace w1)
    = List.filter isStoreFetch (trace w)
      ++ [EvLangfuseGetPrompt name (LangfuseClient.sdkVersion version)]
  /\ exists reads entry,
       clock_reads w1 = S reads
       /\ promptCache w1 !! name = Some entry
       /\ ce_prompt entry = pwc_prompt p /\ ce_config entry = pwc_config p
       /\ ce_timestamp entry = clock env reads
       /\ (forall fallbackConfig2 version2 w2,
            promptCache w2 !! name = Some entry ->
            clock env (clock_reads w2) - clock env reads < 5 * 60 * 1000 ->
            exists w3,
              PromptManager.getPromptWithConfig name fallbackConfig2 version2 env w2 = (Ok p, w3)
              /\ trace w3 = trace w2)
       /\ (clock env (S reads) - clock env reads < 5 * 60 * 1000 ->
           forall fallbackConfig2 version2,
           exists w3,
             PromptManager.getPromptWithConfig name fallbackConfig2 version2 env w1 = (Ok p, w3)
             /\ List.filter isStoreFetch (trace w3)
                = List.filter isStoreFetch (trace w)
                  ++ [EvLangfuseGetPrompt name (LangfuseClient.sdkVersion version)]).
Proof.
  intros Hmiss Hrun.
  assert (Hfetch : PromptManager.fetchPromptWithConfig name fallbackConfig version env
                     (match promptCache w !! name with Some _ => set_clock_reads (S (clock_reads w)) w | None => w end)
                   = (Ok p, w1)).
  { revert Hrun. unfold freshEntry in Hmiss.
    unfold PromptManager.getPromptWithConfig, bind, get.
    destruct (promptCache w !! name) as [cached | ]; [ | easy ].
    unfold Date_now. now rewrite Hmiss. }
  clear Hrun. rewrite fetchPromptWithConfig_run in Hfetch.
  set (w0 := match promptCache w !! name with Some _ => _ | None => w end) in *.
  assert (Htr : trace w0 = trace w) by (subst w0; now destruct (promptCache w !! name)).
  destruct (promptText _) as [[text config] | ] eqn:Hanswer; [ | discriminate ].
  assert (Hon : langfuse_enabled env = true).
  { unfold storeAnswer in Hanswer. destruct (langfuse_enabled env); [ reflexivity | discriminate ]. }
  cbn zeta in Hfetch. injection Hfetch as <- <-.
  unfold asked. rewrite Hon. cbn [trace set_trace set_promptCache set_clock_reads clock_reads
                                   promptCache pwc_prompt pwc_config].
  assert (Hhit : forall fallbackConfig2 version2 w2,
            promptCache w2 !! name
            = Some {| ce_prompt := text; ce_config := js_or config fallbackConfig;
                      ce_timestamp := clock env (clock_reads w0) |} ->
            clock env (clock_reads w2) - clock env (clock_reads w0) < 5 * 60 * 1000 ->
            exists w3,
              PromptManager.getPromptWithConfig name fallbackConfig2 version2 env w2
              = (Ok {| pwc_prompt := text; pwc_config := js_or config fallbackConfig |}, w3)
              /\ trace w3 = trace w2).
  { intros fallbackConfig2 version2 w2 Hentry Hfresh.
    unfold PromptManager.getPromptWithConfig, bind, get. rewrite Hentry.
    unfold Date_now. cbn [ce_timestamp ce_prompt ce_config].
    destruct (Z.ltb_spec (clock env (clock_reads w2) - clock env (clock_reads w0))
                PromptManager.cacheTTL) as [_ | Hge];
      [ | unfold PromptManager.cacheTTL in Hge; lia ].
    eexists. split; reflexivity. }
  split.
  - rewrite Htr, List.filter_app. reflexivity.
  - exists (clock_reads w0). eexists.
    split; [ reflexivity | ]. split; [ apply lookup_insert_eq | ].
    cbn [ce_prompt ce_config ce_timestamp].
    split; [ reflexivity | split; [ reflexivity | split; [ reflexivity | ] ] ].
    split; [ exact Hhit | ].
    intros Hfresh fallbackConfig2 version2.
    destruct (Hhit fallbackConfig2 version2
                (set_promptCache
                   (<[name := {| ce_prompt := text; ce_config := js_or config fallbackConfig;
                                 ce_timestamp := clock env (clock_reads w0) |}]>
                      (promptCache w0))
                   (set_clock_reads (S (clock_reads w0))
                      (set_trace (trace w0 ++ [EvLangfuseGetPrompt name
                                                 (LangfuseClient.sdkVersion version)]) w0))))
      as [w3 [Hsecond Hsame]].
    + cbn [promptCache set_promptCache]. apply lookup_insert_eq.
    + exact Hfresh.
    + exists w3. split; [ exact Hsecond | ].
      rewrite Hsame. cbn [trace set_promptCache set_clock_reads set_trace].
      rewrite Htr, List.filter_app. reflexivity.
Qed.

Section QuietServices.

Variable P : Event -> bool.
Hypothesis P_fetch : forall name version, P (EvLangfuseGetPrompt name version) = false.
Hypothesis P_model : forall req, P (EvCompletion req) = false.

Lemma getPromptWithConfig_quiet name fallbackConfig version :
  quiet P (PromptManager.getPromptWithConfig name fallbackConfig version).
Proof.
  unfold PromptManager.getPromptWithConfig, PromptManager.fetchPromptWithConfig,
    LangfuseClient.getPrompt, LangfuseClient.isEnabled.
  quiet_auto.
Qed.

Lemma getPrompt_quiet name version : quiet P (PromptManager.getPrompt name version).
Proof.
  unfold PromptManager.getPrompt. apply quiet_bind; [ apply getPromptWithConfig_quiet | ].
  intros ?. apply quiet_ret.
Qed.

Lemma chat_quiet messages model options :
  quiet P (OpenRouterClient.chat messages model options).
Proof. unfold OpenRouterClient.chat. quiet_auto. Qed.

Lemma processText_quiet userMessage options :
  quiet P (TextProcessor.processText userMessage options).
Proof.
  unfold TextProcessor.processText, OpenRouterClient.getModel.
  apply quiet_bind; [ quiet_auto | intros ?; apply chat_quiet ].
Qed.

Lemma extractStructured_quiet {T : Type} text systemPrompt jsonSchema
    (zodSchema : JsValue -> Result T) :
  quiet P (TextProcessor.extractStructured text systemPrompt jsonSchema zodSchema).
Proof.
  unfold TextProcessor.extractStructured, OpenRouterClient.getModel.
  apply quiet_bind; [ quiet_auto | intros ? ].
  apply quiet_bind; [ apply chat_quiet | intros ? ].
  quiet_auto.
Qed.

Lemma generateQuery_quiet query : quiet P (AnalyticsService.generateQuery query).
Proof.
  unfold AnalyticsService.generateQuery.
  apply quiet_try_catch; [ | intros ?; apply quiet_throw ].
  apply quiet_bind; [ apply getPromptWithConfig_quiet | intros ? ].
  apply extractStructured_quiet.
Qed.

Lemma validateQuery_quiet query generatedQuery :
  quiet P (AnalyticsService.validateQuery query generatedQuery).
Proof.
  unfold AnalyticsService.validateQuery.
  destruct (negb _); [ apply quiet_ret | ].
  apply quiet_bind; [ apply getPrompt_quiet | intros ? ].
  apply quiet_bind; [ apply quiet_ask | intros ? ].
  apply quiet_bind; [ apply processText_quiet | intros ? ].
  apply quiet_ret.
Qed.

End QuietServices.

Lemma validateQuery_rejected env w naturalLanguageQuery generatedQuery :
  AnalyticsService.includes AnalyticsService.allowedQueryTypes (query_type generatedQuery) = false ->
  AnalyticsService.validateQuery naturalLanguageQuery generatedQuery env w = (Ok false, w).
Proof.
  intros Hout. unfold AnalyticsService.validateQuery. now rewrite Hout.
Qed.

(** C2.  For a generated query whose [query_type] is not one of the six
    allow-listed values, [validateQuery] returns false and leaves the world
    as it was: no prompt is fetched (cache, clock and trace are untouched)
    and the model is not called. *)
Theorem validateQuery_rejects_outside_allow_list env w naturalLanguageQuery generatedQuery :
  AnalyticsService.allowedQueryTypes
    = [ "rank_accounts_by_expense"; "total_spending_by_category";
        "count_archived_transactions"; "count_remaining_installments";
        "total_credit_card_debt"; "rank_accounts_by_transaction_count" ]
  /\ (AnalyticsService.includes AnalyticsService.allowedQueryTypes
        (query_type generatedQuery) = false ->
      AnalyticsService.validateQuery naturalLanguageQuery generatedQuery env w = (Ok false, w)).
Proof.
  split; [ reflexivity | apply validateQuery_rejected ].
Qed.

Lemma validateQuery_allowed env w naturalLanguageQuery generatedQuery :
  AnalyticsService.includes AnalyticsService.allowedQueryTypes (query_type generatedQuery) = true ->
  AnalyticsService.validateQuery naturalLanguageQuery generatedQuery env w =
    match PromptManager.getPrompt "query-validator" None env w with
    | (Ok promptTemplate, w1) =>
        match TextProcessor.processText AnalyticsService.validatorQuestion
                (AnalyticsService.validatorOptions
                   (AnalyticsService.validatorPrompt env promptTemplate naturalLanguageQuery
                      generatedQuery)) env w1 with
        | (Ok response, w2) =>
            (Ok (String.eqb (Text.toUpperCase (Text.trim (ai_content response))) "SAFE"), w2)
        | (Throw e, w2) => (Throw e, w2)
        end
    | (Throw e, w1) => (Throw e, w1)
    end.
Proof.
  intros Hin. unfold AnalyticsService.validateQuery. rewrite Hin. cbn [negb].
  unfold bind at 1.
  destruct (PromptManager.getPrompt _ _ env w) as [[promptTemplate | e] w1]; [ | reflexivity ].
  unfold bind at 1. unfold ask. unfold bind at 1.
  destruct (TextProcessor.processText _ _ env w1) as [[response | e] w2]; reflexivity.
Qed.

(** C3.  For an allow-listed query, once the validator prompt is resolved
    and the model has answered, [validateQuery] returns true if and only if
    the answer, trimmed and upper-cased, is exactly the text SAFE; any
    other answer gives false. *)
Theorem validateQuery_model_stage_exact_SAFE env w naturalLanguageQuery generatedQuery
    promptTemplate w1 response w2 :
  AnalyticsService.includes AnalyticsService.allowedQueryTypes (query_type generatedQuery) = true ->
  PromptManager.getPrompt "query-validator" None env w = (Ok promptTemplate, w1) ->
  TextProcessor.processText AnalyticsService.validatorQuestion
    (AnalyticsService.validatorOptions
       (AnalyticsService.validatorPrompt env promptTemplate naturalLanguageQuery generatedQuery))
    env w1 = (Ok response, w2) ->
  exists verdict,
    AnalyticsService.validateQuery naturalLanguageQuery generatedQuery env w = (Ok verdict, w2)
    /\ (verdict = true <-> Text.toUpperCase (Text.trim (ai_content response)) = "SAFE").
Proof.
  intros Hin Hprompt Hmodel.
  rewrite (validateQuery_allowed _ _ _ _ Hin), Hprompt, Hmodel.
  eexists. split; [ reflexivity | ]. apply String.eqb_eq.
Qed.

Lemma validateQuery_true_inv env w naturalLanguageQuery generatedQuery w2 :
  AnalyticsService.validateQuery naturalLanguageQuery generatedQuery env w = (Ok true, w2) ->
  AnalyticsService.includes AnalyticsService.allowedQueryTypes (query_type generatedQuery) = true
  /\ exists promptTemplate w1 response,
       PromptManager.getPrompt "query-validator" None env w = (Ok promptTemplate, w1)
       /\ TextProcessor.processText AnalyticsService.validatorQuestion
            (AnalyticsService.validatorOptions
               (AnalyticsService.validatorPrompt env promptTemplate naturalLanguageQuery
                  generatedQuery)) env w1 = (Ok response, w2)
       /\ Text.toUpperCase (Text.trim (ai_content response)) = "SAFE".
Proof.
  destruct (AnalyticsService.includes AnalyticsService.allowedQueryTypes
              (query_type generatedQuery)) eqn:Hin.
  - rewrite (validateQuery_allowed _ _ _ _ Hin).
    destruct (PromptManager.getPrompt _ _ env w) as [[promptTemplate | e] w1]; [ | discriminate ].
    destruct (TextProcessor.processText _ _ env w1) as [[response | e] w2'] eqn:Hmodel;
      [ | discriminate ].
    intros [= Hsafe <-]. split; [ reflexivity | ].
    exists promptTemplate, w1, response. repeat split; try assumption.
    now apply String.eqb_eq.
  - rewrite (validateQuery_rejected _ _ _ _ Hin). discriminate.
Qed.

(** C1.  In [processNaturalLanguageQuery], when validation returns false
    the call throws the unsafe-query error in the very world that
    validation left (nothing is executed or formatted); and whenever a run
    adds an aggregation to the trace, the generated query is on the
    allow-list and the model's answer, trimmed and upper-cased, is SAFE. *)
Theorem processNaturalLanguageQuery_executes_only_if_safe env w query :
  (forall generatedQuery w1 w2,
     AnalyticsService.generateQuery query env w = (Ok generatedQuery, w1) ->
     AnalyticsService.validateQuery query generatedQuery env w1 = (Ok false, w2) ->
     AnalyticsService.processNaturalLanguageQuery query env w
       = (Throw (JsError AnalyticsService.unsafeMessage), w2)
     /\ List.filter isAggregate (trace w2) = List.filter isAggregate (trace w))
  /\ (forall result w',
        AnalyticsService.processNaturalLanguageQuery query env w = (result, w') ->
        List.filter isAggregate (trace w') <> List.filter isAggregate (trace w) ->
        exists generatedQuery w1 promptTemplate wp response w2,
          AnalyticsService.generateQuery query env w = (Ok generatedQuery, w1)
          /\ AnalyticsService.includes AnalyticsService.allowedQueryTypes
               (query_type generatedQuery) = true
          /\ PromptManager.getPrompt "query-validator" None env w1 = (Ok promptTemplate, wp)
          /\ TextProcessor.processText AnalyticsService.validatorQuestion
               (AnalyticsService.validatorOptions
                  (AnalyticsService.validatorPrompt env promptTemplate query generatedQuery))
               env wp = (Ok response, w2)
          /\ Text.toUpperCase (Text.trim (ai_content response)) = "SAFE"
          /\ AnalyticsService.validateQuery query generatedQuery env w1 = (Ok true, w2)).
Proof.
  assert (Hgen := generateQuery_quiet isAggregate (fun _ _ => eq_refl) (fun _ => eq_refl) query env w).
  split.
  - intros generatedQuery w1 w2 Hg Hv.
    assert (Hval := validateQuery_quiet isAggregate (fun _ _ => eq_refl) (fun _ => eq_refl)
                      query generatedQuery env w1).
    rewrite Hg in Hgen. rewrite Hv in Hval. cbn in Hgen, Hval.
    split; [ | congruence ].
    unfold AnalyticsService.processNaturalLanguageQuery, bind. now rewrite Hg, Hv.
  - intros result w' Hrun Hexec.
    unfold AnalyticsService.processNaturalLanguageQuery in Hrun. unfold bind at 1 in Hrun.
    destruct (AnalyticsService.generateQuery query env w) as [[generatedQuery | e] w1] eqn:Hg;
      cbn in Hgen.
    2: { injection Hrun as <- <-. congruence. }
    assert (Hval := validateQuery_quiet isAggregate (fun _ _ => eq_refl) (fun _ => eq_refl)
                      query generatedQuery env w1).
    unfold bind at 1 in Hrun.
    destruct (AnalyticsService.validateQuery query generatedQuery env w1)
      as [[[ | ] | e] w2] eqn:Hv; cbn in Hval.
    + destruct (validateQuery_true_inv _ _ _ _ _ Hv) as [Hin [promptTemplate [wp [response [Hp [Hm Hsafe]]]]]].
      exists generatedQuery, w1, promptTemplate, wp, response, w2. repeat split; assumption.
    + cbn in Hrun. injection Hrun as <- <-. congruence.
    + injection Hrun as <- <-. congruence.
Qed.

Lemma OrchestratorDecisionSchema_valid v d :
  OrchestratorDecisionSchema v = Ok d ->
  In (intent d) intents /\ (0 <= confidence d)%Q /\ (confidence d <= 1)%Q.
Proof.
  unfold OrchestratorDecisionSchema. destruct v; try discriminate.
  unfold Zod.rbind, Zod.enum, Zod.number, Zod.invalid.
  destruct (js_get _ "intent") as [ | | | | s | | ]; try discriminate.
  destruct (existsb (String.eqb s) intents) eqn:Hin; [ | discriminate ].
  destruct (js_get _ "confidence") as [ | | | q | | | ]; try discriminate.
  destruct (Zod.between 0 1 q) eqn:Hq; [ | discriminate ].
  destruct (Zod.optional _ _) as [r | e]; [ | discriminate ].
  intros [= <-]. cbn [intent confidence].
  split.
  - apply existsb_exists in Hin. destruct Hin as [x [Hx Heq]].
    apply String.eqb_eq in Heq. now subst.
  - unfold Zod.between in Hq. apply andb_true_iff in Hq.
    destruct Hq as [H0 H1]. split; now apply Qle_bool_iff.
Qed.

(** C4.  [analyzeIntent] returns for every message and every outside
    world: when the prompt fetch, the model call, the JSON parse or the
    schema validation throws, it returns the decision
    [{intent: unknown, confidence: 0, reasoning: Failed to analyze intent}];
    otherwise it returns the decision that passed the schema (an intent of
    the eight, a confidence between 0 and 1). *)
Theorem analyzeIntent_never_throws env w userMessage :
  let failed :=
    {| intent := "unknown"; confidence := 0;
       reasoning := Some "Failed to analyze intent" |} in
  exists d w',
    Orchestrator.analyzeIntent userMessage env w = (Ok d, w')
    /\ (Ok d, w') =
       match PromptManager.getPromptWithConfig "orchestrator-intent"
               (fallbackOf getOrchestratorJSONSchema) None env w with
       | (Throw _, w1) => (Ok failed, w1)
       | (Ok promptData, w1) =>
           match OpenRouterClient.chat
                   (Orchestrator.messagesFor (pwc_prompt promptData) userMessage)
                   (Some (models env MTextFast))
                   (Orchestrator.chatOptions (schemaOf promptData getOrchestratorJSONSchema))
                   env w1 with
           | (Throw _, w2) => (Ok failed, w2)
           | (Ok response, w2) =>
               match JSON_parse env (stripMarkdownCodeFences (ai_content response)) with
               | Throw _ => (Ok failed, w2)
               | Ok parsed =>
                   match OrchestratorDecisionSchema parsed with
                   | Throw _ => (Ok failed, w2)
                   | Ok decision => (Ok decision, w2)
                   end
               end
           end
       end
    /\ (d = failed
        \/ (exists parsed, OrchestratorDecisionSchema parsed = Ok d)
           /\ In (intent d) intents /\ (0 <= confidence d)%Q /\ (confidence d <= 1)%Q).
Proof.
  cbn zeta. unfold Orchestrator.analyzeIntent, try_catch, Orchestrator.classify.
  unfold bind at 1.
  destruct (PromptManager.getPromptWithConfig _ _ _ env w) as [[promptData | e] w1].
  2: { eexists _, _. split; [ reflexivity | split; [ reflexivity | now left ] ]. }
  unfold bind at 1. unfold OpenRouterClient.getModel at 1. unfold bind at 1.
  unfold ask at 1. unfold ret at 1. unfold bind at 1.
  destruct (OpenRouterClient.chat _ _ _ env w1) as [[response | e] w2].
  2: { eexists _, _. split; [ reflexivity | split; [ reflexivity | now left ] ]. }
  unfold bind, ask, lift_result.
  destruct (JSON_parse env _) as [parsed | e].
  2: { eexists _, _. split; [ reflexivity | split; [ reflexivity | now left ] ]. }
  destruct (OrchestratorDecisionSchema parsed) as [decision | e] eqn:Hschema.
  2: { eexists _, _. split; [ reflexivity | split; [ reflexivity | now left ] ]. }
  eexists _, _. split; [ reflexivity | split; [ reflexivity | right ] ].
  split; [ now exists parsed | now apply OrchestratorDecisionSchema_valid with parsed ].
Qed.

(** ** Credit-card purchases *)

Lemma createInstallments_run env data purchaseGroupId installmentAmount :
  insertsSucceed env ->
  forall remaining i purchases w,
  exists rows w',
    ExpenseTrackerService.createInstallments data purchaseGroupId installmentAmount
      remaining i purchases env w = (Ok (purchases ++ rows), w')
    /\ List.length rows = remaining
    /\ trace w' =
       trace w ++ map EvCreatePurchase
                      (map (ExpenseTrackerService.installmentDTO env data purchaseGroupId
                              installmentAmount)
                           (countFrom i remaining)).
Proof.
  intros Hok remaining. induction remaining as [ | n IH]; intros i purchases w.
  - exists [], w. cbn. now rewrite !app_nil_r.
  - cbn [ExpenseTrackerService.createInstallments].
    unfold bind at 1. unfold ask at 1. unfold bind at 1.
    unfold CreditCardRepository.create, call.
    destruct (Hok (trace w)
                (ExpenseTrackerService.installmentDTO env data purchaseGroupId
                   installmentAmount i)) as [row Hrow].
    rewrite Hrow.
    destruct (IH (i + 1) (purchases ++ [row])
                (set_trace (trace w ++ [EvCreatePurchase
                   (ExpenseTrackerService.installmentDTO env data purchaseGroupId
                      installmentAmount i)]) w)) as [rows [w' [Hrun [Hlen Htrace]]]].
    exists (row :: rows), w'. split; [ | split ].
    + rewrite Hrun. now rewrite <- app_assoc.
    + cbn. now rewrite Hlen.
    + rewrite Htrace. cbn. now rewrite <- app_assoc.
Qed.

Lemma countFrom_length i n : List.length (countFrom i n) = n.
Proof. revert i. induction n as [ | n IH]; intros i; cbn; [ reflexivity | now rewrite IH ]. Qed.

Lemma filter_create_purchases (dtos : list CreateCreditCardPurchaseDTO) :
  List.filter isCreate (map EvCreatePurchase dtos) = map EvCreatePurchase dtos.
Proof. induction dtos as [ | d dtos IH]; cbn; [ reflexivity | now rewrite IH ]. Qed.

Lemma recordCreditCardPurchase_creates env w data card :
  accountWithId env (full_creditCardAccountId data) = Some card ->
  ExpenseTrackerService.isCreditCard card = true ->
  categoryKnown env (full_categoryId data) = true ->
  insertsSucceed env ->
  exists rows w',
    ExpenseTrackerService.recordCreditCardPurchase data env w = (Ok rows, w')
    /\ List.length rows = Z.to_nat (full_totalInstallments data)
    /\ List.filter isCreate (trace w')
       = List.filter isCreate (trace w)
         ++ map EvCreatePurchase (installmentsOfPurchase env w data).
Proof.
  intros Hcard Hcc Hcat Hok.
  unfold ExpenseTrackerService.recordCreditCardPurchase.
  unfold bind at 1. unfold ask at 1. unfold bind at 1.
  unfold AccountRepository.findById at 1. unfold call at 1. rewrite Hcard, Hcc. cbn [negb].
  unfold categoryKnown in Hcat.
  set (w1 := set_trace (trace w ++ [EvFindAccountById (full_creditCardAccountId data)]) w).
  assert (Hcheck : exists w2,
    (match ExpenseTrackerService.givenId (full_categoryId data) with
     | Some categoryId =>
         let* category := CategoryRepository.findById categoryId in
         match category with
         | Some _ => ret tt
         | None =>
             throw (JsError ("Category " +:+ ExpenseTrackerService.idText env categoryId
                             +:+ " not found"))
         end
     | None => ret tt
     end) env w1 = (Ok tt, w2)
    /\ List.filter isCreate (trace w2) = List.filter isCreate (trace w)
    /\ uuids_drawn w2 = uuids_drawn w).
  { destruct (ExpenseTrackerService.givenId (full_categoryId data)) as [id | ].
    - unfold bind, CategoryRepository.findById, call.
      destruct (categoryWithId env id); [ | discriminate ].
      eexists. split; [ reflexivity | ]. cbn. rewrite !List.filter_app. cbn.
      now rewrite !app_nil_r.
    - exists w1. split; [ reflexivity | ]. cbn. rewrite List.filter_app. cbn.
      now rewrite app_nil_r. }
  destruct Hcheck as [w2 [Hcheck [Hcreates Huuid]]].
  unfold bind at 1. rewrite Hcheck.
  unfold bind at 1. unfold ExpenseTrackerService.newUuid at 1.
  destruct (createInstallments_run env data (uuidv4 env (uuids_drawn w2))
              (full_totalAmount data / inject_Z (full_totalInstallments data))%Q Hok
              (Z.to_nat (full_totalInstallments data)) 1 []
              (set_uuids_drawn (S (uuids_drawn w2)) w2)) as [rows [w' [Hrun [Hlen Htrace]]]].
  exists rows, w'. split; [ exact Hrun | split; [ exact Hlen | ] ].
  rewrite Htrace. cbn [trace set_uuids_drawn]. rewrite List.filter_app, Hcreates.
  rewrite filter_create_purchases. unfold installmentsOfPurchase. now rewrite Huuid.
Qed.

Lemma countFrom_In i j n : In i (countFrom j n) -> j <= i < j + Z.of_nat n.
Proof.
  revert j. induction n as [ | n IH]; intros j; cbn -[Z.of_nat]; [ easy | ].
  intros [<- | Hin]; [ lia | ]. specialize (IH _ Hin). lia.
Qed.

(** Each installment carries the quotient, its number, the shared group
    identifier and the date that [setMonth] computes. *)
Lemma installmentsOfPurchase_spec env w data dto :
  In dto (installmentsOfPurchase env w data) ->
  exists i,
    1 <= i <= full_totalInstallments data
    /\ cc_installmentNumber dto = i
    /\ cc_amount dto = (full_totalAmount data / inject_Z (full_totalInstallments data))%Q
    /\ cc_purchaseGroupId dto = uuidv4 env (uuids_drawn w)
    /\ cc_date dto = ExpenseTrackerService.installmentDate (full_date data) i.
Proof.
  unfold installmentsOfPurchase. intros Hin. apply in_map_iff in Hin.
  destruct Hin as [i [<- Hi]]. exists i. cbn.
  apply countFrom_In in Hi. repeat split; try reflexivity; lia.
Qed.


(** Away from the end of a month the installment dates step by one
    calendar month and keep the day. *)
Lemma installmentDate_monthly y m day ms i :
  1 <= day <= 28 -> 
  ExpenseTrackerService.installmentDate (JsDate.Civil y m day ms) i
  = JsDate.Civil (y + (m + (i - 1)) / 12) ((m + (i - 1)) mod 12) day ms.
Proof.
  intros Hday. unfold ExpenseTrackerService.installmentDate. cbn.
  assert (Hdim : 28 <= JsDate.daysInMonth (y + (m + (i - 1)) / 12) ((m + (i - 1)) mod 12)).
  { unfold JsDate.daysInMonth.
    repeat match goal with |- context [if ?c then _ else _] => destruct c end; lia. }
  destruct (Z.leb_spec day (JsDate.daysInMonth (y + (m + (i - 1)) / 12) ((m + (i - 1)) mod 12)));
    [ reflexivity | lia ].
Qed.

(** ** The expense handler *)

Lemma accountNamed_has_id env name a :
  accountNamed env name = Some a -> exists found, accountWithId env (acc_id a) = Some found.
Proof.
  destruct name as [n | ]; [ | discriminate ]. cbn. intros Hfind.
  apply List.find_some in Hfind. destruct Hfind as [Hin _].
  unfold accountWithId.
  destruct (List.find (fun a0 => acc_id a0 =? acc_id a) (db_accounts env)) as [found | ] eqn:Hid.
  - now exists found.
  - apply (List.find_none _ _ Hid) in Hin. cbn in Hin. lia.
Qed.

Lemma categoryNamed_has_id env name c :
  categoryNamed env name = Some c -> exists found, categoryWithId env (cat_id c) = Some found.
Proof.
  destruct name as [n | ]; [ | discriminate ]. cbn. intros Hfind.
  apply List.find_some in Hfind. destruct Hfind as [Hin _].
  unfold categoryWithId.
  destruct (List.find (fun c0 => cat_id c0 =? cat_id c) (db_categories env)) as [found | ] eqn:Hid.
  - now exists found.
  - apply (List.find_none _ _ Hid) in Hin. cbn in Hin. lia.
Qed.

Lemma isSome_true {A : Type} (o : option A) : isSome o = true -> exists a, o = Some a.
Proof. destruct o as [a | ]; [ now exists a | discriminate ]. Qed.

Ltac unfold_services :=
  unfold ExpenseTrackerService.findAccountByName, ExpenseTrackerService.findCategoryByName,
    ExpenseTrackerService.recordIncome, ExpenseTrackerService.recordTransfer,
    ExpenseTrackerService.recordExpense, ExpenseTrackerService.recordCreditCardPayment,
    AccountRepository.findByName, AccountRepository.findById,
    CategoryRepository.findByName, CategoryRepository.findById,
    TransactionRepository.create, bind, call, ask, ret, throw.

Ltac one_create :=
  cbn [snd trace set_trace];
  rewrite ?List.filter_app; cbn [List.filter isCreate]; rewrite ?app_nil_r;
  eexists; reflexivity.

Lemma save_transaction_creates env w parsed :
  ep_type parsed <> PCreditCardPurchase ->
  referencesResolved env parsed = true ->
  exists dto,
    List.filter isCreate (trace (snd (ExpenseHandler.save parsed env w)))
    = List.filter isCreate (trace w) ++ [EvCreateTransaction dto].
Proof.
  intros Hkind. unfold referencesResolved, ExpenseHandler.save.
  destruct (ep_type parsed); [ | | | | congruence ]; clear Hkind; intros Hres.
  - (* income *)
    apply isSome_true in Hres. destruct Hres as [a Ha].
    destruct (accountNamed_has_id _ _ _ Ha) as [found Hfound].
    unfold ExpenseHandler.handleIncome. unfold_services. rewrite Ha. cbn [inc_accountId].
    rewrite Hfound.
    match goal with |- context [db_insert_transaction env ?t ?d] =>
      destruct (db_insert_transaction env t d) end; one_create.
  - (* transfer *)
    apply andb_true_iff in Hres. destruct Hres as [Hfrom Hto].
    apply isSome_true in Hfrom. destruct Hfrom as [a Ha].
    apply isSome_true in Hto. destruct Hto as [b Hb].
    destruct (accountNamed_has_id _ _ _ Ha) as [fa Hfa].
    destruct (accountNamed_has_id _ _ _ Hb) as [fb Hfb].
    unfold ExpenseHandler.handleTransfer. unfold_services. rewrite Ha, Hb.
    cbn [tr_fromAccountId tr_toAccountId]. rewrite Hfa, Hfb.
    match goal with |- context [db_insert_transaction env ?t ?d] =>
      destruct (db_insert_transaction env t d) end; one_create.
  - (* expense *)
    apply andb_true_iff in Hres. destruct Hres as [Hres Hcat].
    apply andb_true_iff in Hres. destruct Hres as [_ Hacc].
    apply isSome_true in Hacc. destruct Hacc as [a Ha].
    apply isSome_true in Hcat. destruct Hcat as [c Hc].
    destruct (accountNamed_has_id _ _ _ Ha) as [fa Hfa].
    destruct (categoryNamed_has_id _ _ _ Hc) as [fc Hfc].
    unfold ExpenseHandler.handleExpense. unfold_services. rewrite Ha, Hc.
    cbn [exp_accountId exp_categoryId]. rewrite Hfa, Hfc.
    match goal with |- context [db_insert_transaction env ?t ?d] =>
      destruct (db_insert_transaction env t d) end; one_create.
  - (* credit-card payment *)
    apply andb_true_iff in Hres. destruct Hres as [Hfrom Hcard].
    apply isSome_true in Hfrom. destruct Hfrom as [a Ha].
    destruct (accountNamed_has_id _ _ _ Ha) as [fa Hfa].
    unfold creditCardNamed in Hcard.
    destruct (accountNamed env (ep_toAccount parsed)) as [card | ] eqn:Hb; [ | discriminate ].
    destruct (accountWithId env (acc_id card)) as [found | ] eqn:Hfound; [ | discriminate ].
    unfold ExpenseHandler.handleCreditCardPayment. unfold_services. rewrite Ha, Hb.
    rewrite Hfa, Hfound, Hcard. cbn [negb].
    match goal with |- context [db_insert_transaction env ?t ?d] =>
      destruct (db_insert_transaction env t d) end; one_create.
Qed.

Lemma save_purchase_creates env w parsed :
  ep_type parsed = PCreditCardPurchase ->
  referencesResolved env parsed = true ->
  insertsSucceed env ->
  exists dtos,
    List.filter isCreate (trace (snd (ExpenseHandler.save parsed env w)))
    = List.filter isCreate (trace w) ++ map EvCreatePurchase dtos
    /\ List.length dtos = Z.to_nat (ExpenseHandler.installmentsOf parsed).
Proof.
  intros Hkind. unfold referencesResolved, ExpenseHandler.save. rewrite Hkind.
  unfold creditCardNamed. intros Hres Hok.
  destruct (accountNamed env (Some (ExpenseHandler.cardName parsed))) as [card | ] eqn:Hcard;
    [ | discriminate ].
  destruct (accountWithId env (acc_id card)) as [found | ] eqn:Hfound; [ | discriminate ].
  unfold ExpenseHandler.handleCreditCardPurchase.
  unfold bind at 1. unfold ask at 1. unfold bind at 1.
  unfold ExpenseTrackerService.findAccountByName at 1, AccountRepository.findByName, call.
  rewrite Hcard.
  set (w1 := set_trace (trace w ++ [EvFindAccountByName (Some (ExpenseHandler.cardName parsed))]) w).
  unfold bind at 1.
  assert (Hcategory : exists category w2,
    (match TextProcessor.nonEmpty (ep_category parsed) with
     | Some c => ExpenseTrackerService.findCategoryByName (Some c)
     | None => ret None
     end) env w1 = (Ok category, w2)
    /\ categoryKnown env (option_map cat_id category) = true
    /\ List.filter isCreate (trace w2) = List.filter isCreate (trace w)).
  { destruct (TextProcessor.nonEmpty (ep_category parsed)) as [c | ].
    - unfold ExpenseTrackerService.findCategoryByName, CategoryRepository.findByName, call.
      eexists _, _. split; [ reflexivity | split ].
      + unfold categoryKnown.
        destruct (categoryNamed env (Some c)) as [cat | ] eqn:Hcat; [ | reflexivity ].
        cbn [option_map ExpenseTrackerService.givenId].
        destruct (cat_id cat =? 0); [ reflexivity | ].
        destruct (categoryNamed_has_id _ _ _ Hcat) as [fc Hfc]. now rewrite Hfc.
      + cbn. rewrite !List.filter_app. cbn. now rewrite !app_nil_r.
    - exists None, w1. split; [ reflexivity | split; [ reflexivity | ] ].
      cbn. rewrite List.filter_app. cbn. now rewrite app_nil_r. }
  destruct Hcategory as [category [w2 [Hrun [Hknown Hcreates]]]]. rewrite Hrun.
  unfold bind at 1.
  match goal with |- context [ExpenseTrackerService.recordCreditCardPurchase ?d env w2] =>
    destruct (recordCreditCardPurchase_creates env w2 d found Hfound Hres Hknown Hok)
      as [rows [w3 [Hrec [_ Htrace]]]]; rewrite Hrec
  end.
  eexists. cbn [snd ret]. split.
  - rewrite Htrace, Hcreates. reflexivity.
  - unfold installmentsOfPurchase. now rewrite length_map, countFrom_length.
Qed.

Section QuietHandler.

Variable P : Event -> bool.
Hypothesis P_reply : forall text keyboard, P (EvReply text keyboard) = false.

Lemma reply_quiet text : quiet P (ExpenseHandler.reply text).
Proof. unfold ExpenseHandler.reply. apply quiet_emit. apply P_reply. Qed.

End QuietHandler.

Lemma askForAccount_resolved env w parsed :
  referencesResolved env parsed = true ->
  ExpenseHandler.askForAccount parsed env w = (Ok false, w).
Proof.
  unfold referencesResolved, ExpenseHandler.askForAccount.
  destruct (ep_type parsed); cbn [ExpenseHandler.isExpense andb]; try reflexivity.
  intros Hres. apply andb_true_iff in Hres. destruct Hres as [Hres _].
  apply andb_true_iff in Hres. destruct Hres as [Hgiven _]. now rewrite Hgiven.
Qed.

Lemma handleParsed_creates env w parsed :
  ExpenseHandler.lowConfidence parsed = false ->
  referencesResolved env parsed = true ->
  List.filter isCreate (trace (snd (ExpenseHandler.handleParsed parsed env w)))
  = List.filter isCreate (trace (snd (ExpenseHandler.save parsed env w))).
Proof.
  intros Hconf Hres. unfold ExpenseHandler.handleParsed.
  unfold bind at 1. unfold ask at 1. rewrite Hconf.
  unfold bind at 1. rewrite (askForAccount_resolved _ _ _ Hres).
  unfold bind at 1. unfold try_catch, throw.
  destruct (ExpenseHandler.save parsed env w) as [[result | e] w1]; [ | reflexivity ].
  unfold bind, lift_result.
  destruct (ExpenseHandler.formatSuccessMessage env (ep_type parsed) result) as [text | e];
    [ | reflexivity ].
  apply (reply_quiet isCreate (fun _ _ => eq_refl)).
Qed.

Lemma handleParsed_low_confidence env w parsed :
  ExpenseHandler.lowConfidence parsed = true ->
  ExpenseHandler.handleParsed parsed env w
  = (Ok tt, set_trace (trace w ++ [EvReply (ExpenseHandler.lowConfidenceReply env parsed) []]) w).
Proof.
  intros Hconf. unfold ExpenseHandler.handleParsed. unfold bind, ask. now rewrite Hconf.
Qed.

Lemma handleExpenseMessage_after_parse env w ctx parsed wp :
  parserAnswered env w ctx parsed wp ->
  ExpenseHandler.handleExpenseMessage ctx env w =
    match ExpenseHandler.handleParsed parsed env wp with
    | (Ok u, w') => (Ok u, w')
    | (Throw e, w') =>
        (Ok tt,
         set_trace (trace w' ++ [EvReply ("❌ Error processing transaction: "
                                          +:+ message_or_unknown e) []]) w')
    end.
Proof.
  intros [messageText [promptData [w1 [Htext [Hprompt Hparse]]]]].
  unfold ExpenseHandler.handleExpenseMessage. unfold try_catch at 1. rewrite Htext.
  unfold bind at 1. unfold emit at 1, modify at 1. fold (typing w).
  unfold bind at 1. rewrite Hprompt.
  unfold bind at 1. unfold try_catch at 1. unfold bind at 1. rewrite Hparse.
  unfold ret at 1.
  destruct (ExpenseHandler.handleParsed parsed env wp) as [[[] | e] w']; reflexivity.
Qed.

Lemma parserAnswered_quiet P env w ctx parsed wp :
  (forall name version, P (EvLangfuseGetPrompt name version) = false) ->
  (forall req, P (EvCompletion req) = false) ->
  P (EvChatAction "typing") = false ->
  parserAnswered env w ctx parsed wp ->
  List.filter P (trace wp) = List.filter P (trace w).
Proof.
  intros Pf Pm Pt [messageText [promptData [w1 [_ [Hprompt Hparse]]]]].
  assert (H1 := getPromptWithConfig_quiet P Pf "expense-parser"
                  (fallbackOf getExpenseParserJSONSchema) None env (typing w)).
  rewrite Hprompt in H1. cbn [snd] in H1.
  assert (H2 := extractStructured_quiet P Pm messageText (pwc_prompt promptData)
                  ("expense_parser", schemaOf promptData getExpenseParserJSONSchema)
                  ExpenseParserSchema env w1).
  rewrite Hparse in H2. cbn [snd] in H2.
  rewrite H2, H1. unfold typing. cbn [trace set_trace].
  rewrite List.filter_app. cbn. rewrite Pt. now rewrite app_nil_r.
Qed.

(** C5, amended.  Once the parser has answered a message with a parsed
    transaction: with a confidence below 50 the handler only replies with
    the request for more details and returns, and no call to the
    persistence layer is made; with a confidence of 50 or more and the
    required references resolved, the card of a payment or purchase to an
    account of the type credit card, exactly one transaction is created,
    or, for a credit-card purchase (when the inserts succeed), as many
    installment rows as the purchase has installments. *)
Theorem handleExpenseMessage_persistence env w ctx parsed wp :
  parserAnswered env w ctx parsed wp ->
  let w' := snd (ExpenseHandler.handleExpenseMessage ctx env w) in
  (ExpenseHandler.lowConfidence parsed = true ->
     ExpenseHandler.handleExpenseMessage ctx env w
     = (Ok tt, set_trace (trace wp ++ [EvReply (ExpenseHandler.lowConfidenceReply env parsed) []]) wp)
     /\ List.filter isPersistence (trace w') = List.filter isPersistence (trace w))
  /\ (ExpenseHandler.lowConfidence parsed = false ->
      referencesResolved env parsed = true ->
      match ep_type parsed with
      | PCreditCardPurchase =>
          insertsSucceed env ->
          exists dtos,
            List.filter isCreate (trace w')
            = List.filter isCreate (trace w) ++ map EvCreatePurchase dtos
            /\ List.length dtos = Z.to_nat (ExpenseHandler.installmentsOf parsed)
      | _ =>
          exists dto,
            List.filter isCreate (trace w')
            = List.filter isCreate (trace w) ++ [EvCreateTransaction dto]
      end).
Proof.
  intros Hparsed w'. subst w'.
  rewrite (handleExpenseMessage_after_parse _ _ _ _ _ Hparsed).
  split.
  - intros Hlow. rewrite (handleParsed_low_confidence _ _ _ Hlow). split; [ reflexivity | ].
    cbn [snd trace set_trace]. rewrite List.filter_app. cbn [List.filter isPersistence].
    rewrite app_nil_r.
    now apply (parserAnswered_quiet isPersistence env w ctx parsed wp).
  - intros Hconf Hres.
    assert (Hcreates :
      List.filter isCreate
        (trace (snd (match ExpenseHandler.handleParsed parsed env wp with
                     | (Ok u, w') => (Ok u, w')
                     | (Throw e, w') =>
                         (Ok tt,
                          set_trace (trace w' ++ [EvReply ("❌ Error processing transaction: "
                                                           +:+ message_or_unknown e) []]) w')
                     end)))
      = List.filter isCreate (trace (snd (ExpenseHandler.save parsed env wp)))).
    { rewrite <- (handleParsed_creates _ _ _ Hconf Hres).
      destruct (ExpenseHandler.handleParsed parsed env wp) as [[u | e] w1]; [ reflexivity | ].
      cbn [snd trace set_trace]. rewrite List.filter_app. cbn [List.filter isCreate].
      now rewrite app_nil_r. }
    rewrite Hcreates.
    assert (Hbefore : List.filter isCreate (trace wp) = List.filter isCreate (trace w))
      by now apply (parserAnswered_quiet isCreate env w ctx parsed wp).
    rewrite <- Hbefore.
    destruct (ep_type parsed) eqn:Hkind.
    1-4: apply save_transaction_creates; [ congruence | assumption ].
    intros Hok. now apply save_purchase_creates.
Qed.

(** ** Placeholders *)

Lemma replaceFrom_absent key value whole pos s :
  hasPlaceholder key s = false ->
  PromptManager.replaceFrom key value whole pos 0 s = s.
Proof.
  revert pos. induction s as [ | c rest IH]; intros pos; [ reflexivity | ].
  cbn [hasPlaceholder PromptManager.replaceFrom]. intros Habsent.
  apply orb_false_iff in Habsent. destruct Habsent as [Hhere Hrest].
  destruct (PromptManager.matchPlaceholder key (String c rest)); [ discriminate | ].
  now rewrite IH.
Qed.

(** A key that does not occur in the template is ignored, and compiling a
    text that has no placeholder left for the key changes nothing. *)
Lemma replacePlaceholders_absent key value compiled :
  hasPlaceholder key compiled = false ->
  PromptManager.replacePlaceholders key value compiled = compiled.
Proof. apply replaceFrom_absent. Qed.

(** A replacement text without dollar signs is inserted as it is. *)
Lemma getSubstitution_dollarFree matched before after value :
  dollarFree value = true ->
  PromptManager.getSubstitution matched before after value = value.
Proof.
  unfold dollarFree. induction value as [ | c rest IH]; [ reflexivity | ].
  cbn [list_ascii_of_string forallb PromptManager.getSubstitution].
  intros Hfree. apply andb_true_iff in Hfree. destruct Hfree as [Hc Hrest].
  apply negb_true_iff in Hc. rewrite Hc. now rewrite IH.
Qed.

(** The round trip of the specification: every placeholder of the caption
    is replaced, white space inside the braces allowed, and a second pass
    with the same variables changes nothing. *)
Lemma compilePrompt_caption_round_trip :
  PromptManager.compilePrompt "Caption {{caption}}, again {{  caption }}, and {{other}}."
    [ ("caption", "x"); ("unused", "y") ]
  = "Caption x, again x, and {{other}}."
  /\ PromptManager.compilePrompt "Caption x, again x, and {{other}}."
       [ ("caption", "x"); ("unused", "y") ]
     = "Caption x, again x, and {{other}}.".
Proof. split; reflexivity. Qed.

(** C9, at the failing input.  The key is an ordinary word and the value a
    caption with dollar signs; [compilePrompt] does not put the value in
    place of the placeholder: the replace method reads a doubled dollar
    sign in the value as one, and a dollar sign before an ampersand as the
    matched placeholder. *)
Theorem compilePrompt_dollar_in_value :
  PromptManager.literalKey "caption" = true
  /\ PromptManager.compilePrompt Example.captionTemplate [ ("caption", "Dinner $$$") ]
     = "You are analyzing an image with caption: Dinner $$"
  /\ PromptManager.compilePrompt Example.captionTemplate [ ("caption", "Dinner $$$") ]
     <> "You are analyzing an image with caption: Dinner $$$"
  /\ PromptManager.compilePrompt Example.captionTemplate [ ("caption", "5$&tip") ]
     = "You are analyzing an image with caption: 5{{caption}}tip".
Proof. repeat split; try reflexivity. discriminate. Qed.

(** C6, at the failing input.  A purchase of 1200 in 12 installments made
    on 31 January 2025 creates 12 rows of the amount 1200/12 = 100 under one
    group identifier, but their dates do not step by one month: where the
    month is shorter than 31 days, [setMonth] runs over into the month
    after it, so March, May, July, October and December get two
    installments each and February, April, June, September and November
    none. *)
Theorem recordCreditCardPurchase_month_end_dates :
  exists rows w',
    ExpenseTrackerService.recordCreditCardPurchase Example.laptop Example.shopEnv Example.world
    = (Ok rows, w')
    /\ List.length rows = 12%nat
    /\ List.filter isCreate (trace w')
       = map EvCreatePurchase (installmentsOfPurchase Example.shopEnv Example.world Example.laptop)
    /\ Forall (fun dto => (cc_amount dto == 100)%Q /\ cc_purchaseGroupId dto = "uuid-0")
         (installmentsOfPurchase Example.shopEnv Example.world Example.laptop)
    /\ map cc_date (installmentsOfPurchase Example.shopEnv Example.world Example.laptop)
       = [ JsDate.Civil 2025 0 31 0; JsDate.Civil 2025 2 3 0; JsDate.Civil 2025 2 31 0;
           JsDate.Civil 2025 4 1 0; JsDate.Civil 2025 4 31 0; JsDate.Civil 2025 6 1 0;
           JsDate.Civil 2025 6 31 0; JsDate.Civil 2025 7 31 0; JsDate.Civil 2025 9 1 0;
           JsDate.Civil 2025 9 31 0; JsDate.Civil 2025 11 1 0; JsDate.Civil 2025 11 31 0 ].
Proof.
  eexists _, _. split; [ vm_compute; reflexivity | ].
  split; [ reflexivity | ].
  split; [ vm_compute; reflexivity | ].
  split; [ | vm_compute; reflexivity ].
  repeat constructor.
Qed.

(** C7, the claim as stated fails: the store holds a prompt whose config is
    the value false; the config is present, yet the resolver returns the
    fallback of the caller. *)
Lemma getPromptWithConfig_falsy_config :
  storeAnswer Example.switchedOffEnv (trace Example.world) "expense-parser" None
  = Some {| pd_prompt := Some "You extract one transaction from the message.";
            pd_config := JBool false |}
  /\ fst (PromptManager.getPromptWithConfig "expense-parser"
            (fallbackOf getExpenseParserJSONSchema) None Example.switchedOffEnv Example.world)
     = Ok {| pwc_prompt := "You extract one transaction from the message.";
             pwc_config := fallbackOf getExpenseParserJSONSchema |}
  /\ fallbackOf getExpenseParserJSONSchema <> JBool false.
Proof. repeat split; try (vm_compute; reflexivity). discriminate. Qed.

(** C5, the claim as stated fails: a card payment with a confidence of 90
    whose two account names both resolve, the card's to a bank account.
    The service refuses the account, nothing is created and the user gets
    the error. *)
Lemma handleExpenseMessage_payment_to_bank_account :
  parserAnswered Example.paymentEnv Example.world Example.paymentContext
    Example.payment Example.paymentParsed
  /\ ExpenseHandler.lowConfidence Example.payment = false
  /\ isSome (accountNamed Example.paymentEnv (ep_fromAccount Example.payment)) = true
  /\ isSome (accountNamed Example.paymentEnv (ep_toAccount Example.payment)) = true
  /\ List.filter isCreate
       (trace (snd (ExpenseHandler.handleExpenseMessage Example.paymentContext
                      Example.paymentEnv Example.world))) = []
  /\ last (trace (snd (ExpenseHandler.handleExpenseMessage Example.paymentContext
                         Example.paymentEnv Example.world)))
     = Some (EvReply "❌ Error processing transaction: Account 1 is not a credit card" []).
Proof.
  split.
  { exists "Paid 100 on my card from Cash", Example.groceriesPrompt, Example.paymentPrompted.
    split; [ reflexivity | split; vm_compute; reflexivity ]. }
  repeat split; vm_compute; reflexivity.
Qed.

(** A disabled store never fills the cache: from an empty cache the
    resolver throws and the cache stays empty. *)
Lemma getPromptWithConfig_disabled env w name fallbackConfig version :
  langfuse_enabled env = false ->
  promptCache w = ∅ ->
  PromptManager.getPromptWithConfig name fallbackConfig version env w
  = (Throw (JsError (PromptManager.notFoundMessage name)), w).
Proof.
  intros Hoff Hempty. unfold PromptManager.getPromptWithConfig, bind, get.
  rewrite Hempty, lookup_empty, fetchPromptWithConfig_run.
  unfold storeAnswer, asked. now rewrite Hoff.
Qed.

(** ** The theorems at the scenarios *)

Lemma validateQuery_rejects_outside_allow_list_witness :
  AnalyticsService.includes AnalyticsService.allowedQueryTypes
    (query_type Example.deleteAll) = false
  /\ AnalyticsService.validateQuery "Delete all my transactions" Example.deleteAll
       (Example.validatorEnv "SAFE") Example.world
     = (Ok false, Example.world).
Proof.
  split; [ reflexivity | ].
  apply (proj2 (validateQuery_rejects_outside_allow_list
                  (Example.validatorEnv "SAFE") Example.world
                  "Delete all my transactions" Example.deleteAll)).
  reflexivity.
Defined.

Lemma validateQuery_model_stage_exact_SAFE_witness :
  AnalyticsService.includes AnalyticsService.allowedQueryTypes
    (query_type Example.countArchived) = true
  /\ PromptManager.getPrompt "query-validator" None (Example.validatorEnv Example.safeReply)
       Example.world
     = (Ok Example.validatorTemplate, Example.validatorPrompted)
  /\ TextProcessor.processText AnalyticsService.validatorQuestion
       (AnalyticsService.validatorOptions
          (AnalyticsService.validatorPrompt (Example.validatorEnv Example.safeReply)
             Example.validatorTemplate Example.archivedQuestion Example.countArchived))
       (Example.validatorEnv Example.safeReply) Example.validatorPrompted
     = (Ok Example.validatorAnswer, Example.validatorAnswered)
  /\ exists verdict,
       AnalyticsService.validateQuery Example.archivedQuestion Example.countArchived
         (Example.validatorEnv Example.safeReply) Example.world
       = (Ok verdict, Example.validatorAnswered)
       /\ (verdict = true
           <-> Text.toUpperCase (Text.trim (ai_content Example.validatorAnswer)) = "SAFE").
Proof.
  assert (Hprompt :
    PromptManager.getPrompt "query-validator" None (Example.validatorEnv Example.safeReply)
      Example.world
    = (Ok Example.validatorTemplate, Example.validatorPrompted))
    by (vm_compute; reflexivity).
  assert (Hmodel :
    TextProcessor.processText AnalyticsService.validatorQuestion
      (AnalyticsService.validatorOptions
         (AnalyticsService.validatorPrompt (Example.validatorEnv Example.safeReply)
            Example.validatorTemplate Example.archivedQuestion Example.countArchived))
      (Example.validatorEnv Example.safeReply) Example.validatorPrompted
    = (Ok Example.validatorAnswer, Example.validatorAnswered))
    by (vm_compute; reflexivity).
  split; [ reflexivity | split; [ exact Hprompt | split; [ exact Hmodel | ] ] ].
  exact (validateQuery_model_stage_exact_SAFE
           (Example.validatorEnv Example.safeReply) Example.world
           Example.archivedQuestion Example.countArchived
           Example.validatorTemplate Example.validatorPrompted
           Example.validatorAnswer Example.validatorAnswered
           eq_refl Hprompt Hmodel).
Defined.

Lemma analyzeIntent_never_throws_witness :
  Orchestrator.analyzeIntent "hello" Example.shopEnv Example.world
  = (Ok {| intent := "unknown"; confidence := 0;
           reasoning := Some "Failed to analyze intent" |},
     set_trace [EvLangfuseGetPrompt "orchestrator-intent" (LangfuseClient.sdkVersion None)]
       Example.world).
Proof.
  destruct (analyzeIntent_never_throws Example.shopEnv Example.world "hello")
    as [d [w' [Hrun [Hresult _]]]].
  rewrite Hrun, Hresult. reflexivity.
Defined.

Lemma getPromptWithConfig_on_miss_witness :
  freshEntry Example.groceriesEnv Example.world "expense-parser" = false
  /\ fst (PromptManager.getPromptWithConfig "expense-parser"
            (fallbackOf getExpenseParserJSONSchema) None Example.groceriesEnv Example.world)
     = Ok {| pwc_prompt := "You extract one transaction from the message.";
             pwc_config := fallbackOf getExpenseParserJSONSchema |}.
Proof.
  split; [ reflexivity | ].
  apply (proj2 (getPromptWithConfig_on_miss Example.groceriesEnv Example.world
                  "expense-parser" (fallbackOf getExpenseParserJSONSchema) None eq_refl)
               {| pd_prompt := Some "You extract one transaction from the message.";
                  pd_config := JUndefined |}
               "You extract one transaction from the message.").
  - reflexivity.
  - reflexivity.
  - discriminate.
Defined.

Lemma getPromptWithConfig_cached_within_ttl_witness :
  freshEntry Example.groceriesEnv Example.world "expense-parser" = false
  /\ PromptManager.getPromptWithConfig "expense-parser"
       (fallbackOf getExpenseParserJSONSchema) None Example.groceriesEnv
       (set_trace (trace Example.world ++ [EvChatAction "typing"]) Example.world)
     = (Ok Example.groceriesPrompt, Example.groceriesPrompted)
  /\ exists w3,
       PromptManager.getPromptWithConfig "expense-parser" JUndefined None
         Example.groceriesEnv Example.groceriesPrompted
       = (Ok Example.groceriesPrompt, w3)
       /\ List.filter isStoreFetch (trace w3)
          = [EvLangfuseGetPrompt "expense-parser" (LangfuseClient.sdkVersion None)].
Proof.
  assert (Hfirst :
    PromptManager.getPromptWithConfig "expense-parser"
      (fallbackOf getExpenseParserJSONSchema) None Example.groceriesEnv
      (set_trace (trace Example.world ++ [EvChatAction "typing"]) Example.world)
    = (Ok Example.groceriesPrompt, Example.groceriesPrompted))
    by (vm_compute; reflexivity).
  split; [ reflexivity | split; [ exact Hfirst | ] ].
  destruct (getPromptWithConfig_cached_within_ttl Example.groceriesEnv
              (set_trace (trace Example.world ++ [EvChatAction "typing"]) Example.world)
              "expense-parser" (fallbackOf getExpenseParserJSONSchema) None
              Example.groceriesPrompt Example.groceriesPrompted eq_refl Hfirst)
    as [_ [reads [entry [Hreads [_ [_ [_ [_ [_ Hsecond]]]]]]]]].
  vm_compute in Hreads. injection Hreads as <-.
  apply (Hsecond eq_refl JUndefined None).
Defined.

Lemma handleExpenseMessage_persistence_witness :
  parserAnswered Example.groceriesEnv Example.world Example.groceriesContext
    Example.groceries Example.groceriesParsed
  /\ ExpenseHandler.lowConfidence Example.groceries = false
  /\ referencesResolved Example.groceriesEnv Example.groceries = true
  /\ exists dto,
       List.filter isCreate
         (trace (snd (ExpenseHandler.handleExpenseMessage Example.groceriesContext
                        Example.groceriesEnv Example.world)))
       = List.filter isCreate (trace Example.world) ++ [EvCreateTransaction dto].
Proof.
  assert (Hparsed :
    parserAnswered Example.groceriesEnv Example.world Example.groceriesContext
      Example.groceries Example.groceriesParsed).
  { exists "Spent $50 on groceries", Example.groceriesPrompt, Example.groceriesPrompted.
    split; [ reflexivity | split; vm_compute; reflexivity ]. }
  split; [ exact Hparsed | split; [ reflexivity | split; [ reflexivity | ] ] ].
  exact (proj2 (handleExpenseMessage_persistence Example.groceriesEnv Example.world
                  Example.groceriesContext Example.groceries Example.groceriesParsed Hparsed)
               eq_refl eq_refl).
Defined.

(** * Further properties *)

(** ** Schemas *)

Lemma positive_Qnum q : Zod.positive q = true -> 0 < Qnum (Qred q).
Proof.
  unfold Zod.positive. intros H. apply negb_true_iff in H.
  assert (Hlt : (0 < q)%Q).
  { apply Qnot_le_lt. intros Hle. apply Qle_bool_iff in Hle. congruence. }
  rewrite <- (Qred_correct q) in Hlt. unfold Qlt in Hlt. cbn in Hlt. lia.
Qed.

Lemma positiveInt_positive key v n : Zod.positiveInt key v = Ok n -> 0 < n.
Proof.
  unfold Zod.positiveInt, Zod.rbind, Zod.number, Zod.invalid.
  destruct v as [ | | | y | | | ]; try discriminate.
  destruct (Zod.isInt y && Zod.positive y) eqn:H; [ | discriminate ].
  intros [= <-]. apply andb_true_iff in H. now apply positive_Qnum.
Qed.

Lemma enum_member options key v s : Zod.enum options key v = Ok s -> In s options.
Proof.
  unfold Zod.enum, Zod.invalid. destruct v as [ | | | | y | | ]; try discriminate.
  destruct (existsb (String.eqb y) options) eqn:H; [ | discriminate ].
  intros [= <-]. apply existsb_exists in H. destruct H as [x [Hx Heq]].
  apply String.eqb_eq in Heq. now subst.
Qed.

Lemma optional_inv {A : Type} (p : JsValue -> Result A) v o (P : A -> Prop) :
  (forall a, p v = Ok a -> P a) ->
  Zod.optional p v = Ok o -> forall a, o = Some a -> P a.
Proof.
  intros Hp. unfold Zod.optional, Zod.rbind.
  destruct v; try (intros [= <-]; discriminate);
    (destruct (p _) as [a' | e] eqn:E; [ | discriminate ];
     intros [= <-] a [= <-]; now apply Hp).
Qed.

Lemma withDefault_inv {A : Type} (d : A) (p : JsValue -> Result A) v a (P : A -> Prop) :
  P d -> (forall a, p v = Ok a -> P a) -> Zod.withDefault d p v = Ok a -> P a.
Proof.
  intros Hd Hp. unfold Zod.withDefault. destruct v; try (now apply Hp).
  now intros [= <-].
Qed.

Lemma QueryGeneratorSchema_inv v q :
  QueryGeneratorSchema v = Ok q ->
  Zod.enum queryTypes "query_type" (js_get v "query_type") = Ok (query_type q)
  /\ Zod.optional (Zod.enum ["asc"; "desc"] "sort_order") (js_get v "sort_order")
     = Ok (sort_order q)
  /\ Zod.optional (Zod.positiveInt "limit") (js_get v "limit") = Ok (limit q)
  /\ Zod.withDefault "all_time" (Zod.enum timePeriods "time_period") (js_get v "time_period")
     = Ok (time_period q)
  /\ Zod.withDefault false (Zod.boolean "include_archived") (js_get v "include_archived")
     = Ok (include_archived q)
  /\ Zod.optional (Zod.positiveInt "credit_card_account_id")
       (js_get v "credit_card_account_id") = Ok (credit_card_account_id q).
Proof.
  unfold QueryGeneratorSchema. destruct v; try discriminate.
  unfold Zod.rbind at 1.
  destruct (Zod.enum queryTypes _ _) as [qt | ] eqn:Hqt; [ | discriminate ].
  unfold Zod.rbind at 1.
  destruct (Zod.optional (Zod.enum _ "sort_order") _) as [so | ] eqn:Hso; [ | discriminate ].
  unfold Zod.rbind at 1.
  destruct (Zod.optional (Zod.positiveInt "limit") _) as [li | ] eqn:Hli; [ | discriminate ].
  unfold Zod.rbind at 1.
  destruct (Zod.withDefault "all_time" _ _) as [tp | ] eqn:Htp; [ | discriminate ].
  unfold Zod.rbind at 1.
  destruct (recordOfAny _ _) as [fi | ]; [ | discriminate ].
  unfold Zod.rbind at 1.
  destruct (Zod.withDefault false _ _) as [ia | ] eqn:Hia; [ | discriminate ].
  unfold Zod.rbind at 1.
  destruct (Zod.optional (Zod.positiveInt "credit_card_account_id") _) as [cc | ] eqn:Hcc;
    [ | discriminate ].
  intros [= <-]. cbn [query_type time_period include_archived sort_order limit
                      credit_card_account_id].
  repeat split; reflexivity.
Qed.

Lemma QueryGeneratorSchema_allowed v q :
  QueryGeneratorSchema v = Ok q ->
  AnalyticsService.includes AnalyticsService.allowedQueryTypes (query_type q) = true.
Proof.
  intros H. apply QueryGeneratorSchema_inv in H as (Hqt & _).
  apply enum_member in Hqt. unfold AnalyticsService.includes.
  apply existsb_exists. exists (query_type q). split; [ exact Hqt | apply String.eqb_refl ].
Qed.

(** X1. A value that [QueryGeneratorSchema] accepts gives a query whose type
    is one of the six of the allow-list of the executor and whose period is
    one of the five known periods; a missing period reads as all time and a
    missing archive flag as false; a sort order is asc or desc; a limit and
    a credit-card account id are positive. *)
Theorem QueryGeneratorSchema_valid v q :
  QueryGeneratorSchema v = Ok q ->
  AnalyticsService.includes AnalyticsService.allowedQueryTypes (query_type q) = true
  /\ In (time_period q) timePeriods
  /\ (js_get v "time_period" = JUndefined -> time_period q = "all_time")
  /\ (js_get v "include_archived" = JUndefined -> include_archived q = false)
  /\ (forall s, sort_order q = Some s -> s = "asc" \/ s = "desc")
  /\ (forall n, limit q = Some n -> 0 < n)
  /\ (forall id, credit_card_account_id q = Some id -> 0 < id).
Proof.
  intros H. pose proof (QueryGeneratorSchema_allowed v q H) as Hallowed.
  apply QueryGeneratorSchema_inv in H as (Hqt & Hso & Hli & Htp & Hia & Hcc).
  split; [ exact Hallowed | ]. repeat split.
  - refine (withDefault_inv "all_time" _ _ _ (fun t => In t timePeriods) _ _ Htp);
      [ cbn; tauto | ]. intros a. apply enum_member.
  - intros Hu. rewrite Hu in Htp. cbn in Htp. congruence.
  - intros Hu. rewrite Hu in Hia. cbn in Hia. congruence.
  - apply (optional_inv _ _ _ (fun s => s = "asc" \/ s = "desc") ) with (2 := Hso).
    intros a Ha. apply enum_member in Ha. cbn in Ha. intuition.
  - apply (optional_inv _ _ _ (fun n => 0 < n)) with (2 := Hli).
    intros a. apply positiveInt_positive.
  - apply (optional_inv _ _ _ (fun n => 0 < n)) with (2 := Hcc).
    intros a. apply positiveInt_positive.
Qed.

Lemma number_positive key x a : Zod.number Zod.positive key x = Ok a -> (0 < a)%Q.
Proof.
  unfold Zod.number, Zod.invalid.
  destruct x as [ | | | y | | | ]; try discriminate.
  destruct (Zod.positive y) eqn:H; [ | discriminate ]. intros [= <-].
  unfold Zod.positive in H. apply negb_true_iff in H.
  apply Qnot_le_lt. intros Hle. apply Qle_bool_iff in Hle. congruence.
Qed.

Lemma ExpenseParserSchema_inv v p :
  ExpenseParserSchema v = Ok p ->
  Zod.number Zod.positive "amount" (js_get v "amount") = Ok (ep_amount p)
  /\ dateText "date" (js_get v "date") = Ok (ep_date p)
  /\ Zod.withDefault 1 (Zod.positiveInt "installments") (js_get v "installments")
     = Ok (ep_installments p)
  /\ Zod.optional (Zod.number Zod.positive "fromAmount") (js_get v "fromAmount")
     = Ok (ep_fromAmount p)
  /\ Zod.optional (Zod.number Zod.positive "toAmount") (js_get v "toAmount")
     = Ok (ep_toAmount p)
  /\ Zod.number (Zod.between 0 100) "confidence" (js_get v "confidence")
     = Ok (ep_confidence p).
Proof.
  unfold ExpenseParserSchema. destruct v; try discriminate.
  unfold Zod.rbind at 1. destruct (Zod.enum _ "type" _) as [ty | ]; [ | discriminate ].
  unfold Zod.rbind at 1. destruct (Zod.string_ "description" _) as [de | ]; [ | discriminate ].
  unfold Zod.rbind at 1.
  destruct (Zod.number Zod.positive "amount" _) as [am | ] eqn:Ham; [ | discriminate ].
  unfold Zod.rbind at 1. destruct (Zod.nullish _ (js_get _ "fromAccount")) as [fa | ];
    [ | discriminate ].
  unfold Zod.rbind at 1. destruct (Zod.nullish _ (js_get _ "toAccount")) as [ta | ];
    [ | discriminate ].
  unfold Zod.rbind at 1. destruct (Zod.nullish _ (js_get _ "category")) as [ca | ];
    [ | discriminate ].
  unfold Zod.rbind at 1. destruct (Zod.enum _ "currency" _) as [cu | ]; [ | discriminate ].
  unfold Zod.rbind at 1. destruct (dateText "date" _) as [da | ] eqn:Hda; [ | discriminate ].
  unfold Zod.rbind at 1.
  destruct (Zod.withDefault 1 _ _) as [ins | ] eqn:Hins; [ | discriminate ].
  unfold Zod.rbind at 1.
  destruct (Zod.optional _ (js_get _ "fromAmount")) as [fam | ] eqn:Hfam; [ | discriminate ].
  unfold Zod.rbind at 1.
  destruct (Zod.optional _ (js_get _ "toAmount")) as [tam | ] eqn:Htam; [ | discriminate ].
  unfold Zod.rbind at 1.
  destruct (Zod.number _ "confidence" _) as [co | ] eqn:Hco; [ | discriminate ].
  intros [= <-].
  cbn [ep_amount ep_confidence ep_installments ep_date ep_fromAmount ep_toAmount].
  repeat split; reflexivity.
Qed.

Lemma ExpenseParserSchema_amounts v p :
  ExpenseParserSchema v = Ok p ->
  (0 < ep_amount p)%Q
  /\ (forall a, ep_fromAmount p = Some a -> (0 < a)%Q)
  /\ (forall a, ep_toAmount p = Some a -> (0 < a)%Q).
Proof.
  intros H. apply ExpenseParserSchema_inv in H as (Ham & _ & _ & Hfam & Htam & _).
  split; [ now apply number_positive in Ham | ]. split.
  - apply (optional_inv _ _ _ (fun a => (0 < a)%Q)) with (2 := Hfam).
    intros a. apply number_positive.
  - apply (optional_inv _ _ _ (fun a => (0 < a)%Q)) with (2 := Htam).
    intros a. apply number_positive.
Qed.

(** X2. A value that [ExpenseParserSchema] accepts gives a transaction with
    a positive amount, a confidence between 0 and 100, at least one
    installment (one when the key is missing), a date of the form
    YYYY-MM-DD, and positive from and to amounts where they are given. *)
Theorem ExpenseParserSchema_valid v p :
  ExpenseParserSchema v = Ok p ->
  (0 < ep_amount p)%Q
  /\ (0 <= ep_confidence p)%Q /\ (ep_confidence p <= 100)%Q
  /\ 1 <= ep_installments p
  /\ (js_get v "installments" = JUndefined -> ep_installments p = 1)
  /\ isDateText (ep_date p) = true
  /\ (forall a, ep_fromAmount p = Some a -> (0 < a)%Q)
  /\ (forall a, ep_toAmount p = Some a -> (0 < a)%Q).
Proof.
  intros H. destruct (ExpenseParserSchema_amounts v p H) as (Hamount & Hfrom & Hto).
  apply ExpenseParserSchema_inv in H as (_ & Hda & Hins & _ & _ & Hco).
  assert (Hconf : (0 <= ep_confidence p)%Q /\ (ep_confidence p <= 100)%Q).
  { revert Hco. unfold Zod.number, Zod.invalid.
    destruct (js_get _ "confidence") as [ | | | x | | | ]; try discriminate.
    destruct (Zod.between 0 100 x) eqn:H; [ | discriminate ]. intros [= <-].
    unfold Zod.between in H. apply andb_true_iff in H. destruct H.
    split; now apply Qle_bool_iff. }
  destruct Hconf as [Hc0 Hc1].
  repeat split; try assumption.
  - refine (withDefault_inv 1 _ _ _ (fun n => 1 <= n) _ _ Hins); [ lia | ].
    intros a Ha. apply positiveInt_positive in Ha. lia.
  - intros Hu. rewrite Hu in Hins. cbn in Hins. congruence.
  - revert Hda. unfold dateText, Zod.invalid.
    destruct (js_get _ "date") as [ | | | | x | | ]; try discriminate.
    destruct (isDateText x) eqn:H; [ | discriminate ]. now intros [= <-].
Qed.

Lemma assoc_get_extra k k' x p1 p2 :
  k' <> k -> assoc_get k' (p1 ++ (k, x) :: p2) = assoc_get k' (p1 ++ p2).
Proof.
  intros Hne. induction p1 as [ | [k0 v0] p1 IH]; cbn.
  - destruct (String.eqb_spec k' k); [ congruence | reflexivity ].
  - now rewrite IH.
Qed.

Ltac other_key H :=
  let E := fresh in intros E; apply H; rewrite <- E; cbn; tauto.

(** X3. Each of the three schemas reads only the keys it declares: an entry
    under any other key, wherever it stands in the object, changes neither
    the parsed value nor the error. *)
Theorem schemas_drop_unknown_keys k x p1 p2 :
  (~ In k orchestratorKeys ->
     OrchestratorDecisionSchema (JObject (p1 ++ (k, x) :: p2))
     = OrchestratorDecisionSchema (JObject (p1 ++ p2)))
  /\ (~ In k queryGeneratorKeys ->
        QueryGeneratorSchema (JObject (p1 ++ (k, x) :: p2))
        = QueryGeneratorSchema (JObject (p1 ++ p2)))
  /\ (~ In k expenseParserKeys ->
        ExpenseParserSchema (JObject (p1 ++ (k, x) :: p2))
        = ExpenseParserSchema (JObject (p1 ++ p2))).
Proof.
  split; [ | split ]; intros Hk.
  - unfold OrchestratorDecisionSchema. cbn [js_get].
    rewrite !assoc_get_extra by other_key Hk. reflexivity.
  - unfold QueryGeneratorSchema. cbn [js_get].
    rewrite !assoc_get_extra by other_key Hk. reflexivity.
  - unfold ExpenseParserSchema. cbn [js_get].
    rewrite !assoc_get_extra by other_key Hk. reflexivity.
Qed.

(** ** The model gateway *)

Lemma chat_run env w messages model options :
  OpenRouterClient.chat messages model options env w =
    (match completions_create env (trace w)
             (OpenRouterClient.requestParams env messages model options) with
     | Ok response =>
         match resp_choices response with
         | choice :: _ =>
             match choice_message choice with
             | Some message =>
                 Ok {| ai_content :=
                         if OpenRouterClient.isJsonFormat options
                         then stripMarkdownCodeFences (default EmptyString message)
                         else default EmptyString message;
                       ai_model := resp_model response;
                       ai_usage := resp_usage response |}
             | None => Throw (JsError "AI request failed: No response from AI model")
             end
         | [] => Throw (JsError "AI request failed: No response from AI model")
         end
     | Throw e => Throw (JsError ("AI request failed: " +:+ message_or_unknown e))
     end,
     set_trace (trace w ++ [EvCompletion (OpenRouterClient.requestParams env messages model
                                            options)]) w).
Proof.
  unfold OpenRouterClient.chat, try_catch, bind, ask, call, ret, throw.
  destruct (completions_create env (trace w) _) as [response | e]; [ | reflexivity ].
  destruct (resp_choices response) as [ | choice rest]; [ reflexivity | ].
  destruct (choice_message choice) as [message | ]; reflexivity.
Qed.

(** X4. [chat] sends exactly one completion request in every outcome, and
    there is no retry; whatever it throws is an Error whose message starts
    with AI request failed, carrying the message of the provider's error, or
    No response from AI model when the response has no choice. *)
Theorem chat_single_attempt env w messages model options :
  let request := OpenRouterClient.requestParams env messages model options in
  let run := OpenRouterClient.chat messages model options env w in
  snd run = set_trace (trace w ++ [EvCompletion request]) w
  /\ (forall e, fst run = Throw e ->
        exists reason, e = JsError ("AI request failed: " +:+ reason))
  /\ (forall e, completions_create env (trace w) request = Throw e ->
        fst run = Throw (JsError ("AI request failed: " +:+ message_or_unknown e)))
  /\ (forall response,
        completions_create env (trace w) request = Ok response ->
        resp_choices response = [] ->
        fst run = Throw (JsError "AI request failed: No response from AI model")).
Proof.
  cbn zeta. rewrite chat_run. cbn [fst snd]. split; [ reflexivity | ].
  split; [ | split ].
  - intros e. destruct (completions_create env (trace w) _) as [response | e0].
    + destruct (resp_choices response) as [ | choice rest].
      * intros [= <-]. now exists "No response from AI model".
      * destruct (choice_message choice) as [message | ]; [ discriminate | ].
        intros [= <-]. now exists "No response from AI model".
    + intros [= <-]. now exists (message_or_unknown e0).
  - intros e He. now rewrite He.
  - intros response Hr Hc. now rewrite Hr, Hc.
Qed.

Lemma extractStructured_run {T : Type} text systemPrompt jsonSchema
    (zodSchema : JsValue -> Result T) env w :
  TextProcessor.extractStructured text systemPrompt jsonSchema zodSchema env w =
    (match fst (OpenRouterClient.chat
                  [ {| msg_role := "system"; msg_content := systemPrompt |};
                    {| msg_role := "user"; msg_content := text |} ]
                  (Some (models env MTextFast))
                  {| opt_temperature := Some (2 # 10)%Q;
                     opt_maxTokens := Some 1000;
                     opt_responseFormat :=
                       Some {| rf_type := "json_schema";
                               rf_json_schema :=
                                 Some {| js_name := fst jsonSchema; js_strict := true;
                                         js_schema := snd jsonSchema |} |} |} env w) with
     | Ok response =>
         match JSON_parse env (stripMarkdownCodeFences (ai_content response)) with
         | Ok parsed => zodSchema parsed
         | Throw e => Throw e
         end
     | Throw e => Throw e
     end,
     set_trace (trace w ++ [EvCompletion (extractionRequest env text systemPrompt
                                            jsonSchema)]) w).
Proof.
  unfold TextProcessor.extractStructured.
  unfold bind at 1. unfold OpenRouterClient.getModel at 1. unfold bind at 1.
  unfold ask at 1, ret at 1. unfold bind at 1. rewrite chat_run. cbn [fst].
  fold (extractionRequest env text systemPrompt jsonSchema).
  destruct (match completions_create env (trace w) _ with Ok _ => _ | Throw _ => _ end)
    as [response | e]; [ | reflexivity ].
  unfold bind, ask, lift_result.
  destruct (JSON_parse env _) as [parsed | e]; reflexivity.
Qed.


(** ** Code fences *)

Lemma append_cons (x : ascii) (a b : string) : String x a +:+ b = String x (a +:+ b).
Proof. reflexivity. Qed.

Lemma append_assoc (a b c : string) : (a +:+ b) +:+ c = a +:+ (b +:+ c).
Proof.
  induction a as [ | x a IH ]; [ reflexivity | ]. now rewrite !append_cons, IH.
Qed.

Lemma append_empty (a : string) : a +:+ EmptyString = a.
Proof. induction a as [ | x a IH ]; [ reflexivity | ]. now rewrite append_cons, IH. Qed.

Lemma length_append (a b : string) :
  String.length (a +:+ b) = (String.length a + String.length b)%nat.
Proof.
  induction a as [ | x a IH ]; [ reflexivity | ].
  rewrite append_cons. cbn [String.length]. now rewrite IH.
Qed.

Lemma backquoteFree_append a b :
  backquoteFree (a +:+ b) = backquoteFree a && backquoteFree b.
Proof.
  induction a as [ | x a IH ]; [ reflexivity | ].
  rewrite append_cons. unfold backquoteFree in *. cbn [list_ascii_of_string forallb].
  now rewrite IH, andb_assoc.
Qed.

Lemma backquoteFree_trimStart s : backquoteFree s = true -> backquoteFree (Text.trimStart s) = true.
Proof.
  induction s as [ | c s IH ]; [ reflexivity | ]. intros H. cbn [Text.trimStart].
  destruct (Text.isWhiteSpace c); [ | exact H ].
  apply IH. unfold backquoteFree in *. cbn in H. now apply andb_prop in H as [_ H].
Qed.

Lemma stripPrefix_no_backquote p c rest :
  Ascii.eqb c "`" = false -> Text.stripPrefix (String "`" p) (String c rest) = None.
Proof. intros H. cbn [Text.stripPrefix]. now rewrite Ascii.eqb_sym, H. Qed.

Lemma removeJsonFences_free u t :
  backquoteFree u = true -> removeJsonFences 0 (u +:+ t) = u +:+ removeJsonFences 0 t.
Proof.
  induction u as [ | c u IH ]; [ reflexivity | ]. intros H.
  unfold backquoteFree in H. cbn in H. apply andb_prop in H as [Hc Hu].
  apply negb_true_iff in Hc.
  change (String c u +:+ t) with (String c (u +:+ t)). cbn [removeJsonFences].
  rewrite (stripPrefix_no_backquote _ c _ Hc). now rewrite (IH Hu).
Qed.

Lemma removeClosingFence_free u t :
  backquoteFree u = true -> removeClosingFence (u +:+ t) = u +:+ removeClosingFence t.
Proof.
  induction u as [ | c u IH ]; [ reflexivity | ]. intros H.
  unfold backquoteFree in H. cbn in H. apply andb_prop in H as [Hc Hu].
  apply negb_true_iff in Hc.
  change (String c u +:+ t) with (String c (u +:+ t)). cbn [removeClosingFence].
  rewrite (stripPrefix_no_backquote _ c _ Hc). now rewrite (IH Hu).
Qed.

Lemma removeJsonFences_skip p t :
  removeJsonFences (String.length p) (p +:+ t) = removeJsonFences 0 t.
Proof. induction p as [ | c p IH ]; [ reflexivity | exact IH ]. Qed.

Lemma trimStart_suffix s : exists p, s = p +:+ Text.trimStart s.
Proof.
  induction s as [ | c s [p IH] ]; [ now exists EmptyString | ].
  cbn [Text.trimStart]. destruct (Text.isWhiteSpace c); [ | now exists EmptyString ].
  exists (String c p). now rewrite append_cons, <- IH.
Qed.

Lemma trimStart_append x c y :
  Text.isWhiteSpace c = false ->
  Text.trimStart (x +:+ String c y) = Text.trimStart x +:+ String c y.
Proof.
  intros Hc. induction x as [ | a x IH ].
  - change (Text.trimStart (String c y) = String c y). cbn [Text.trimStart]. now rewrite Hc.
  - rewrite append_cons. cbn [Text.trimStart]. now destruct (Text.isWhiteSpace a).
Qed.

Lemma trimStart_idempotent s : Text.trimStart (Text.trimStart s) = Text.trimStart s.
Proof.
  induction s as [ | c s IH ]; [ reflexivity | ]. cbn [Text.trimStart].
  destruct (Text.isWhiteSpace c) eqn:Hc; [ exact IH | ]. cbn [Text.trimStart]. now rewrite Hc.
Qed.

Lemma trimEnd_append_space y c :
  Text.isWhiteSpace c = true -> Text.trimEnd (y +:+ String c EmptyString) = Text.trimEnd y.
Proof.
  intros Hc. induction y as [ | a y IH ].
  - change (Text.trimEnd (String c EmptyString) = EmptyString). cbn [Text.trimEnd].
    now rewrite Hc.
  - rewrite append_cons. cbn [Text.trimEnd]. now rewrite IH.
Qed.

Lemma trim_append_space x c :
  Text.isWhiteSpace c = true -> Text.trim (x +:+ String c EmptyString) = Text.trim x.
Proof.
  intros Hc. unfold Text.trim. induction x as [ | a x IH ].
  { change (Text.trimEnd (Text.trimStart (String c EmptyString)) = EmptyString).
    cbn [Text.trimStart]. now rewrite Hc. }
  rewrite append_cons. cbn [Text.trimStart]. destruct (Text.isWhiteSpace a); [ exact IH | ].
  now apply (trimEnd_append_space (String a x)).
Qed.

(** X6. On a text without backquotes [stripMarkdownCodeFences] is [trim];
    and a body without backquotes that is wrapped in a json code fence comes
    back trimmed, the fence lines gone. *)
Theorem stripMarkdownCodeFences_unwraps body :
  backquoteFree body = true ->
  stripMarkdownCodeFences body = Text.trim body
  /\ stripMarkdownCodeFences (fenced body) = Text.trim body.
Proof.
  intros Hfree. unfold stripMarkdownCodeFences. split.
  - rewrite <- (append_empty body) at 1.
    rewrite (removeJsonFences_free _ _ Hfree). cbn [removeJsonFences].
    rewrite (removeClosingFence_free _ _ Hfree). cbn [removeClosingFence].
    now rewrite append_empty.
  - unfold fenced.
    set (r := lineFeed +:+ body +:+ lineFeed +:+ "```").
    assert (Hr : Text.trimStart r = Text.trimStart (body +:+ lineFeed) +:+ "```").
    { unfold r. change (lineFeed +:+ body +:+ lineFeed +:+ "```")
        with (String (ascii_of_nat 10) (body +:+ lineFeed +:+ "```")).
      cbn [Text.trimStart]. change (Text.isWhiteSpace (ascii_of_nat 10)) with true.
      cbn iota. rewrite <- append_assoc. now apply trimStart_append. }
    assert (Hu : backquoteFree (Text.trimStart (body +:+ lineFeed)) = true).
    { apply backquoteFree_trimStart. rewrite backquoteFree_append, Hfree. reflexivity. }
    destruct (trimStart_suffix r) as [p Hp].
    assert (Hjson : removeJsonFences 0 ("```json" +:+ r) = Text.trimStart r).
    { change ("```json" +:+ r) with (String "`" ("``json" +:+ r)).
      cbn [removeJsonFences].
      change (Text.stripPrefix "```json" (String "`" ("``json" +:+ r))) with (Some r).
      cbn iota.
      replace (String.length (String "`" ("``json" +:+ r))
               - String.length (Text.trimStart r) - 1)%nat
        with (String.length ("``json" +:+ p)).
      2: { rewrite Hp at 1. rewrite <- append_assoc. cbn [String.length].
           rewrite (length_append ("``json" +:+ p)). lia. }
      rewrite Hp at 1. rewrite <- append_assoc, removeJsonFences_skip.
      rewrite Hr, (removeJsonFences_free _ _ Hu). reflexivity. }
    rewrite Hjson, Hr, (removeClosingFence_free _ _ Hu). cbn [removeClosingFence].
    change (Text.stripPrefix "```" "```") with (Some EmptyString). cbn.
    rewrite append_empty. unfold Text.trim. rewrite trimStart_idempotent.
    now apply (trim_append_space body).
Qed.

Lemma stripMarkdownCodeFences_unwraps_witness :
  backquoteFree "{ }" = true
  /\ stripMarkdownCodeFences "{ }" = Text.trim "{ }"
  /\ stripMarkdownCodeFences (fenced "{ }") = Text.trim "{ }".
Proof. split; [ reflexivity | apply (stripMarkdownCodeFences_unwraps "{ }"); reflexivity ]. Defined.

(** ** The analytics pipeline *)

Lemma generateQuery_run env w query :
  AnalyticsService.generateQuery query env w =
    match PromptManager.getPromptWithConfig "query-generator"
            (fallbackOf getQueryGeneratorJSONSchema) None env w with
    | (Ok promptData, w1) =>
        match TextProcessor.extractStructured query (pwc_prompt promptData)
                ("query_generator", schemaOf promptData getQueryGeneratorJSONSchema)
                QueryGeneratorSchema env w1 with
        | (Ok q, w2) => (Ok q, w2)
        | (Throw _, w2) =>
            (Throw (JsError "Failed to generate a valid structured query from your request."),
             w2)
        end
    | (Throw _, w1) =>
        (Throw (JsError "Failed to generate a valid structured query from your request."), w1)
    end.
Proof.
  unfold AnalyticsService.generateQuery, try_catch, bind, throw.
  destruct (PromptManager.getPromptWithConfig _ _ _ env w) as [[promptData | e] w1];
    [ | reflexivity ].
  destruct (TextProcessor.extractStructured _ _ _ _ env w1) as [[q | e] w2]; reflexivity.
Qed.

(** X7. [generateQuery] either returns a query that the schema accepted,
    whose type is therefore on the allow-list of the validator and the
    executor, or throws the one error Failed to generate a valid structured
    query from your request, whatever went wrong underneath. *)
Theorem generateQuery_outcome env w query :
  match fst (AnalyticsService.generateQuery query env w) with
  | Ok q =>
      (exists parsed, QueryGeneratorSchema parsed = Ok q)
      /\ AnalyticsService.includes AnalyticsService.allowedQueryTypes (query_type q) = true
  | Throw e =>
      e = JsError "Failed to generate a valid structured query from your request."
  end.
Proof.
  rewrite generateQuery_run.
  destruct (PromptManager.getPromptWithConfig _ _ _ env w) as [[promptData | e] w1];
    [ | reflexivity ].
  rewrite extractStructured_run. cbn [fst].
  destruct (fst (OpenRouterClient.chat _ _ _ env w1)) as [response | e]; [ | reflexivity ].
  destruct (JSON_parse env _) as [parsed | e]; [ | reflexivity ].
  destruct (QueryGeneratorSchema parsed) as [q | e] eqn:Hq; [ | reflexivity ].
  split; [ now exists parsed | ]. now apply QueryGeneratorSchema_allowed in Hq.
Qed.

Ltac split_query_type :=
  repeat match goal with
         | |- context [String.eqb ?a ?b] => destruct (String.eqb a b)
         end.

(** X8. The switch of [executeQuery] and the allow-list of [validateQuery]
    name the same query types: for a type on the list exactly one
    aggregation is asked of the repositories, and for any other type the
    not-supported error is thrown and no repository is called. *)
Theorem executeQuery_matches_allow_list env w query :
  (AnalyticsService.includes AnalyticsService.allowedQueryTypes (query_type query) = true ->
     exists aggregation,
       snd (AnalyticsService.executeQuery query env w)
       = set_trace (trace w ++ [EvAggregate aggregation]) w)
  /\ (AnalyticsService.includes AnalyticsService.allowedQueryTypes (query_type query) = false ->
      AnalyticsService.executeQuery query env w
      = (Throw (JsError ("The query type " +:+ doubleQuote +:+ query_type query +:+ doubleQuote
                         +:+ " is not supported.")), w)).
Proof.
  unfold AnalyticsService.executeQuery, AnalyticsService.includes,
    AnalyticsService.allowedQueryTypes, AnalyticsService.rows, AnalyticsService.count,
    bind, call, ret, throw.
  cbn [existsb orb]. split; intros Hin; revert Hin; split_query_type; cbn [orb];
    try discriminate; intros _; try reflexivity;
    match goal with
    | |- context [db_rows env ?t ?a] => destruct (db_rows env t a); eexists; reflexivity
    | |- context [db_count env ?t ?a] => destruct (db_count env t a); eexists; reflexivity
    end.
Qed.

Lemma executeQuery_trace env w query :
  exists added,
    trace (snd (AnalyticsService.executeQuery query env w)) = trace w ++ added
    /\ (List.length added <= 1)%nat
    /\ List.filter isAggregate added = added
    /\ (forall results, fst (AnalyticsService.executeQuery query env w) = Ok results ->
          List.length added = 1%nat).
Proof.
  unfold AnalyticsService.executeQuery, AnalyticsService.rows, AnalyticsService.count,
    bind, call, ret, throw.
  split_query_type;
    try match goal with
        | |- context [db_rows env ?t ?a] =>
            destruct (db_rows env t a); eexists [EvAggregate _]; cbn;
            (split; [ reflexivity | split; [ lia | split; [ reflexivity | ] ] ]);
            try reflexivity; discriminate
        | |- context [db_count env ?t ?a] =>
            destruct (db_count env t a); eexists [EvAggregate _]; cbn;
            (split; [ reflexivity | split; [ lia | split; [ reflexivity | ] ] ]);
            try reflexivity; discriminate
        end.
  exists []. cbn. rewrite app_nil_r.
  split; [ reflexivity | split; [ lia | split; [ reflexivity | discriminate ] ] ].
Qed.

(** X9. [processNaturalLanguageQuery] asks the repositories for at most one
    aggregation, and for exactly one when it returns a response. *)
Theorem processNaturalLanguageQuery_executes_once env w query :
  let run := AnalyticsService.processNaturalLanguageQuery query env w in
  exists executed,
    List.filter isAggregate (trace (snd run))
    = List.filter isAggregate (trace w) ++ executed
    /\ (List.length executed <= 1)%nat
    /\ (forall response, fst run = Ok response -> List.length executed = 1%nat).
Proof.
  cbn zeta.
  assert (Hgen := generateQuery_quiet isAggregate (fun _ _ => eq_refl) (fun _ => eq_refl)
                    query env w).
  unfold AnalyticsService.processNaturalLanguageQuery, bind, ask, ret, throw.
  destruct (AnalyticsService.generateQuery query env w) as [[generatedQuery | e] w1];
    cbn [fst snd] in *.
  2: { exists []. rewrite app_nil_r.
       split; [ exact Hgen | split; [ cbn; lia | discriminate ] ]. }
  assert (Hval := validateQuery_quiet isAggregate (fun _ _ => eq_refl) (fun _ => eq_refl)
                    query generatedQuery env w1).
  destruct (AnalyticsService.validateQuery query generatedQuery env w1)
    as [[[ | ] | e] w2]; cbn [fst snd negb] in *.
  - destruct (executeQuery_trace env w2 generatedQuery) as [added [Htr [Hlen [Hagg Hok]]]].
    destruct (AnalyticsService.executeQuery generatedQuery env w2) as [[results | e] w3];
      cbn [fst snd] in *; exists added; rewrite Htr, List.filter_app, Hagg, Hval, Hgen.
    + split; [ reflexivity | split; [ exact Hlen | ] ]. intros _ _. now apply (Hok results).
    + split; [ reflexivity | split; [ exact Hlen | discriminate ] ].
  - exists []. rewrite app_nil_r.
    split; [ congruence | split; [ cbn; lia | discriminate ] ].
  - exists []. rewrite app_nil_r.
    split; [ congruence | split; [ cbn; lia | discriminate ] ].
Qed.

(** X10. [handleCustomReportQuery] ignores a message without text; when the
    analytics pipeline throws, the message of the error is sent to the user
    behind the prefix Error processing your query; so when the validator
    judges the generated query unsafe the user is told Query was deemed
    unsafe to run, and no aggregation has been run. *)
Theorem handleCustomReportQuery_reports_errors env w messageText :
  (TextProcessor.nonEmpty messageText = None ->
     QueryHandler.handleCustomReportQuery messageText env w = (Ok tt, w))
  /\ (forall text e w1,
        TextProcessor.nonEmpty messageText = Some text ->
        AnalyticsService.processNaturalLanguageQuery text env (typing w) = (Throw e, w1) ->
        snd (QueryHandler.handleCustomReportQuery messageText env w)
        = replied ("❌ Error processing your query: " +:+ message_or_unknown e) w1)
  /\ (forall text generatedQuery w1 w2,
        TextProcessor.nonEmpty messageText = Some text ->
        AnalyticsService.generateQuery text env (typing w) = (Ok generatedQuery, w1) ->
        AnalyticsService.validateQuery text generatedQuery env w1 = (Ok false, w2) ->
        snd (QueryHandler.handleCustomReportQuery messageText env w)
        = replied ("❌ Error processing your query: " +:+ AnalyticsService.unsafeMessage) w2
        /\ List.filter isAggregate (trace w2) = List.filter isAggregate (trace w)).
Proof.
  assert (Hthrow : forall text e w1,
    TextProcessor.nonEmpty messageText = Some text ->
    AnalyticsService.processNaturalLanguageQuery text env (typing w) = (Throw e, w1) ->
    snd (QueryHandler.handleCustomReportQuery messageText env w)
    = replied ("❌ Error processing your query: " +:+ message_or_unknown e) w1).
  { intros text e w1 Htext Hrun.
    unfold QueryHandler.handleCustomReportQuery, try_catch. rewrite Htext.
    unfold bind at 1. unfold emit at 1, modify at 1. fold (typing w).
    unfold bind at 1. rewrite Hrun. reflexivity. }
  split; [ | split ].
  - intros Hnone. unfold QueryHandler.handleCustomReportQuery, try_catch.
    now rewrite Hnone.
  - exact Hthrow.
  - intros text generatedQuery w1 w2 Htext Hgen Hval. split.
    + apply (Hthrow text (JsError AnalyticsService.unsafeMessage) w2 Htext).
      unfold AnalyticsService.processNaturalLanguageQuery, bind. now rewrite Hgen, Hval.
    + assert (H1 := generateQuery_quiet isAggregate (fun _ _ => eq_refl) (fun _ => eq_refl)
                      text env (typing w)).
      assert (H2 := validateQuery_quiet isAggregate (fun _ _ => eq_refl) (fun _ => eq_refl)
                      text generatedQuery env w1).
      rewrite Hgen in H1. rewrite Hval in H2. cbn [snd] in H1, H2. rewrite H2, H1.
      unfold typing. cbn [trace set_trace]. rewrite List.filter_app. cbn.
      now rewrite app_nil_r.
Qed.

(** ** The prompt cache *)

Lemma promptCache_asked env w name version :
  promptCache (asked env w name version) = promptCache w.
Proof. unfold asked. now destruct (langfuse_enabled env). Qed.

Lemma fetchPromptWithConfig_cache env w name fallbackConfig version :
  let run := PromptManager.fetchPromptWithConfig name fallbackConfig version env w in
  (forall other, other <> name -> promptCache (snd run) !! other = promptCache w !! other)
  /\ match fst run with
     | Ok p =>
         exists entry,
           promptCache (snd run) !! name = Some entry
           /\ ce_prompt entry = pwc_prompt p /\ ce_config entry = pwc_config p
     | Throw e =>
         e = JsError (PromptManager.notFoundMessage name)
         /\ promptCache (snd run) = promptCache w
     end.
Proof.
  cbn zeta. rewrite fetchPromptWithConfig_run.
  destruct (promptText _) as [[text config] | ]; cbn [fst snd].
  - cbn zeta. cbn [promptCache set_promptCache set_clock_reads]. split.
    + intros other Hother. rewrite lookup_insert_ne by congruence.
      now rewrite promptCache_asked.
    + eexists. split; [ apply lookup_insert_eq | split; reflexivity ].
  - rewrite promptCache_asked. now split.
Qed.

(** X11. [getPromptWithConfig] touches no cache entry but that of the name
    asked for; what it returns is what the cache then holds under the name;
    and what it throws is the not-found error of the name, the cache left as
    it was, so an entry that is too old is neither served nor evicted when
    the store fails. *)
Theorem getPromptWithConfig_cache_invariant env w name fallbackConfig version :
  let run := PromptManager.getPromptWithConfig name fallbackConfig version env w in
  (forall other, other <> name -> promptCache (snd run) !! other = promptCache w !! other)
  /\ match fst run with
     | Ok p =>
         exists entry,
           promptCache (snd run) !! name = Some entry
           /\ ce_prompt entry = pwc_prompt p /\ ce_config entry = pwc_config p
     | Throw e =>
         e = JsError (PromptManager.notFoundMessage name)
         /\ promptCache (snd run) = promptCache w
     end.
Proof.
  cbn zeta. unfold PromptManager.getPromptWithConfig, bind, get.
  destruct (promptCache w !! name) as [cached | ] eqn:Hcached.
  - unfold Date_now.
    destruct (_ <? _).
    + cbn. split; [ reflexivity | ]. exists cached. now split.
    + apply (fetchPromptWithConfig_cache env (set_clock_reads (S (clock_reads w)) w)).
  - apply fetchPromptWithConfig_cache.
Qed.

(** X12. After [clearPromptCache] of a name, or [clearCache], the next
    resolution of the name is answered by the prompt store alone, however
    fresh the entry was; [clearPromptCache] leaves the entries of the other
    names, [clearCache] leaves none. *)
Theorem clearPromptCache_then_resolve env w name fallbackConfig version :
  fst ((let* _ := PromptManager.clearPromptCache name in
        PromptManager.getPromptWithConfig name fallbackConfig version) env w)
  = storeResult env w name fallbackConfig version
  /\ fst ((let* _ := PromptManager.clearCache in
           PromptManager.getPromptWithConfig name fallbackConfig version) env w)
     = storeResult env w name fallbackConfig version
  /\ (forall other, other <> name ->
        promptCache (snd (PromptManager.clearPromptCache name env w)) !! other
        = promptCache w !! other)
  /\ promptCache (snd (PromptManager.clearCache env w)) = ∅.
Proof.
  unfold PromptManager.clearPromptCache, PromptManager.clearCache, modify, storeResult.
  unfold bind. cbn [fst snd].
  split; [ | split; [ | split ] ].
  - rewrite getPromptWithConfig_miss; [ reflexivity | ].
    unfold freshEntry. cbn [promptCache set_promptCache]. now rewrite lookup_delete_eq.
  - rewrite getPromptWithConfig_miss; [ reflexivity | ].
    unfold freshEntry. cbn [promptCache set_promptCache]. now rewrite lookup_empty.
  - intros other Hother. cbn [promptCache set_promptCache].
    now rewrite lookup_delete_ne by congruence.
  - reflexivity.
Qed.

(** ** Compiling a prompt *)

(** X13. Variables whose keys have no pattern syntax and for which the
    template has no placeholder are ignored: [compilePrompt] returns the
    template unchanged. *)
Theorem compilePrompt_ignores_unused template variables :
  forallb (fun kv => PromptManager.literalKey (fst kv)
                     && negb (hasPlaceholder (fst kv) template)) variables = true ->
  PromptManager.compilePrompt template variables = template.
Proof.
  unfold PromptManager.compilePrompt.
  induction variables as [ | [key value] variables IH ]; [ reflexivity | ].
  cbn [forallb fold_left fst snd]. intros Hunused.
  apply andb_prop in Hunused as [Hkey Hrest]. apply andb_prop in Hkey as [_ Hkey].
  apply negb_true_iff in Hkey.
  rewrite (replacePlaceholders_absent _ _ _ Hkey). exact (IH Hrest).
Qed.

Lemma compilePrompt_ignores_unused_witness :
  forallb (fun kv => PromptManager.literalKey (fst kv)
                     && negb (hasPlaceholder (fst kv) Example.captionTemplate))
    [ ("image", "a receipt"); ("date", "2025-01-31") ] = true
  /\ PromptManager.compilePrompt Example.captionTemplate
       [ ("image", "a receipt"); ("date", "2025-01-31") ] = Example.captionTemplate.
Proof.
  split; [ reflexivity | ].
  apply (compilePrompt_ignores_unused Example.captionTemplate
           [ ("image", "a receipt"); ("date", "2025-01-31") ]).
  reflexivity.
Defined.

Lemma trimStart_allWhiteSpace ws x :
  allWhiteSpace ws = true -> Text.trimStart (ws +:+ x) = Text.trimStart x.
Proof.
  unfold allWhiteSpace. induction ws as [ | c ws IH ]; [ reflexivity | ].
  cbn [list_ascii_of_string forallb]. intros H. apply andb_prop in H as [Hc Hws].
  rewrite append_cons. cbn [Text.trimStart]. rewrite Hc. exact (IH Hws).
Qed.

Lemma stripPrefix_append p x : Text.stripPrefix p (p +:+ x) = Some x.
Proof.
  induction p as [ | c p IH ]; [ reflexivity | ].
  rewrite append_cons. cbn [Text.stripPrefix]. now rewrite Ascii.eqb_refl.
Qed.

Lemma matchPlaceholder_placeholder key before after post :
  PromptManager.literalKey key = true ->
  allWhiteSpace before = true -> allWhiteSpace after = true ->
  PromptManager.matchPlaceholder key (placeholder before key after +:+ post)
  = Some (String.length (placeholder before key after)).
Proof.
  intros Hkey Hbefore Hafter. unfold PromptManager.matchPlaceholder, placeholder.
  rewrite !append_assoc. rewrite (stripPrefix_append "{{").
  rewrite (trimStart_allWhiteSpace _ _ Hbefore).
  assert (Hclose : forall x, Text.trimStart (after +:+ "}}" +:+ x) = "}}" +:+ x).
  { intros x. now rewrite (trimStart_allWhiteSpace _ _ Hafter). }
  assert (Hlen : (String.length ("{{" +:+ before +:+ key +:+ after +:+ "}}" +:+ post)
                  - String.length post
                  = String.length ("{{" +:+ before +:+ key +:+ after +:+ "}}"))%nat).
  { rewrite <- !append_assoc. rewrite (length_append _ post). lia. }
  destruct key as [ | k key ].
  - change (EmptyString +:+ after +:+ "}}" +:+ post) with (after +:+ "}}" +:+ post).
    rewrite Hclose.
    change (Text.stripPrefix EmptyString ("}}" +:+ post)) with (Some ("}}" +:+ post)).
    cbv beta iota. change (Text.trimStart ("}}" +:+ post)) with ("}}" +:+ post).
    rewrite (stripPrefix_append "}}"). exact (f_equal Some Hlen).
  - unfold PromptManager.literalKey in Hkey. apply andb_prop in Hkey as [_ Hk].
    apply negb_true_iff in Hk.
    rewrite append_cons. cbn [Text.trimStart]. rewrite Hk. rewrite <- append_cons.
    rewrite stripPrefix_append, Hclose, (stripPrefix_append "}}").
    exact (f_equal Some Hlen).
Qed.

Lemma replaceFrom_braceFree key value whole pos pre t :
  braceFree pre = true ->
  exists pos',
    PromptManager.replaceFrom key value whole pos 0 (pre +:+ t)
    = pre +:+ PromptManager.replaceFrom key value whole pos' 0 t.
Proof.
  unfold braceFree. revert pos. induction pre as [ | c pre IH ]; intros pos.
  - intros _. now exists pos.
  - cbn [list_ascii_of_string forallb]. intros H. apply andb_prop in H as [Hc Hpre].
    apply negb_true_iff in Hc. destruct (IH (S pos) Hpre) as [pos' Hpos'].
    exists pos'. rewrite !append_cons. cbn [PromptManager.replaceFrom].
    unfold PromptManager.matchPlaceholder at 1. cbn [Text.stripPrefix].
    rewrite Ascii.eqb_sym, Hc. now rewrite Hpos'.
Qed.

Lemma replaceFrom_skip key value whole pos p t :
  PromptManager.replaceFrom key value whole pos (String.length p) (p +:+ t)
  = PromptManager.replaceFrom key value whole (pos + String.length p) 0 t.
Proof.
  revert pos. induction p as [ | c p IH ]; intros pos.
  - cbn [String.length]. now rewrite Nat.add_0_r.
  - rewrite append_cons. cbn [String.length PromptManager.replaceFrom].
    rewrite IH. f_equal. lia.
Qed.

Lemma replaceFrom_dollarFree key value whole whole' pos pos' skip s :
  dollarFree value = true ->
  PromptManager.replaceFrom key value whole pos skip s
  = PromptManager.replaceFrom key value whole' pos' skip s.
Proof.
  intros Hvalue. revert pos pos' skip. induction s as [ | c s IH ]; intros pos pos' skip;
    [ reflexivity | ].
  cbn [PromptManager.replaceFrom]. destruct skip as [ | skip ]; [ | apply IH ].
  destruct (PromptManager.matchPlaceholder key (String c s)) as [len | ].
  - rewrite !(getSubstitution_dollarFree _ _ _ _ Hvalue). f_equal. apply IH.
  - f_equal. apply IH.
Qed.

(** X14. For a key without pattern syntax and a value without dollar signs,
    [compilePrompt] puts the value in place of the first placeholder of the
    key, white space inside the braces allowed, keeps the text before it,
    and goes on with the text after it. *)
Theorem compilePrompt_fills_placeholder key value before after pre post :
  PromptManager.literalKey key = true ->
  allWhiteSpace before = true -> allWhiteSpace after = true ->
  braceFree pre = true ->
  dollarFree value = true ->
  PromptManager.compilePrompt (pre +:+ placeholder before key after +:+ post) [ (key, value) ]
  = pre +:+ value +:+ PromptManager.compilePrompt post [ (key, value) ].
Proof.
  intros Hkey Hbefore Hafter Hpre Hvalue.
  unfold PromptManager.compilePrompt. cbn [fold_left fst snd].
  unfold PromptManager.replacePlaceholders.
  destruct (replaceFrom_braceFree key value (pre +:+ placeholder before key after +:+ post)
              0 pre (placeholder before key after +:+ post) Hpre) as [pos Hcopy].
  rewrite Hcopy. f_equal.
  pose proof (matchPlaceholder_placeholder key before after post Hkey Hbefore Hafter)
    as Hmatch.
  remember (placeholder before key after) as ph eqn:Hph.
  destruct ph as [ | c ph ]; [ discriminate Hph | ].
  rewrite append_cons in *. cbn [PromptManager.replaceFrom]. rewrite Hmatch.
  rewrite (getSubstitution_dollarFree _ _ _ _ Hvalue). f_equal.
  cbn [String.length]. rewrite Nat.sub_succ, Nat.sub_0_r, replaceFrom_skip.
  now apply replaceFrom_dollarFree.
Qed.

Lemma compilePrompt_fills_placeholder_witness :
  PromptManager.literalKey "caption" = true
  /\ allWhiteSpace " " = true /\ allWhiteSpace EmptyString = true
  /\ braceFree "Caption: " = true
  /\ dollarFree "Dinner" = true
  /\ PromptManager.compilePrompt
       ("Caption: " +:+ placeholder " " "caption" EmptyString +:+ ". Again: {{caption}}")
       [ ("caption", "Dinner") ]
     = "Caption: " +:+ "Dinner"
       +:+ PromptManager.compilePrompt ". Again: {{caption}}" [ ("caption", "Dinner") ].
Proof.
  do 5 (split; [ reflexivity | ]).
  apply (compilePrompt_fills_placeholder "caption" "Dinner" " " EmptyString "Caption: "
           ". Again: {{caption}}"); reflexivity.
Defined.

(** ** Prompts of the store as system prompts *)

(** X15. With variables whose keys have no pattern syntax,
    [processWithPrompt] calls the model only once the prompt is resolved:
    when the prompt cannot be resolved the error of the resolution is thrown
    and no completion is requested; otherwise one completion is requested
    whose messages are the prompt, compiled with the variables when there
    are any, as the system message (left out when it is empty) and then the
    user message. *)
Theorem processWithPrompt_request env w userMessage promptName variables options :
  literalVariables variables = true ->
  let run := TextProcessor.processWithPrompt userMessage promptName variables options env w in
  match PromptManager.getPrompt promptName None env w with
  | (Throw e, w1) =>
      run = (Throw e, w1)
      /\ List.filter isCompletion (trace w1) = List.filter isCompletion (trace w)
  | (Ok template, w1) =>
      exists request,
        List.filter isCompletion (trace (snd run))
        = List.filter isCompletion (trace w) ++ [EvCompletion request]
        /\ req_messages request
           = promptedMessages
               (match variables with
                | Some vars => PromptManager.compilePrompt template vars
                | None => template
                end) userMessage
  end.
Proof.
  intros _. cbn zeta.
  assert (Hprompt := getPrompt_quiet isCompletion (fun _ _ => eq_refl) promptName None env w).
  unfold TextProcessor.processWithPrompt, bind.
  destruct (PromptManager.getPrompt promptName None env w) as [[template | e] w1];
    cbn [snd] in Hprompt; [ | now split ].
  unfold TextProcessor.processText, bind, OpenRouterClient.getModel, bind, ask, ret.
  cbn [TextProcessor.withSystemPrompt tp_model tp_systemPrompt tp_temperature tp_maxTokens].
  set (systemPrompt := match variables with Some _ => _ | None => _ end).
  assert (Hmessages :
    (match TextProcessor.nonEmpty (Some systemPrompt) with
     | Some p => [ {| msg_role := "system"; msg_content := p |} ]
     | None => []
     end) ++ [ {| msg_role := "user"; msg_content := userMessage |} ]
    = promptedMessages systemPrompt userMessage).
  { unfold promptedMessages, TextProcessor.nonEmpty.
    now destruct (String.eqb systemPrompt ""). }
  rewrite Hmessages.
  destruct (TextProcessor.nonEmpty (tp_model options)) as [model | ];
    rewrite chat_run; cbn [snd trace set_trace]; eexists;
    (split; [ rewrite List.filter_app, Hprompt; reflexivity | reflexivity ]).
Qed.

(** ** The description of an archive request *)

Lemma startsSolid_trimStart s : startsSolid (Text.trimStart s) = true.
Proof.
  induction s as [ | c s IH ]; [ reflexivity | ]. cbn [Text.trimStart].
  destruct (Text.isWhiteSpace c) eqn:Hc; [ exact IH | ]. cbn. now rewrite Hc.
Qed.

Lemma startsSolid_whiteSpaceThen s r :
  ArchiveHandler.whiteSpaceThen s = Some r -> startsSolid r = true.
Proof.
  unfold ArchiveHandler.whiteSpaceThen. destruct s as [ | c s ]; [ discriminate | ].
  destruct (Text.isWhiteSpace c) eqn:Hc; [ | discriminate ].
  intros [= <-]. apply (startsSolid_trimStart (String c s)).
Qed.

Lemma startsSolid_verbThen s r : ArchiveHandler.verbThen s = Some r -> startsSolid r = true.
Proof.
  unfold ArchiveHandler.verbThen.
  destruct (ArchiveHandler.stripPrefixNoCase "delete" s) as [r1 | ].
  - destruct (ArchiveHandler.whiteSpaceThen r1) as [r1' | ] eqn:H1.
    + intros [= <-]. now apply startsSolid_whiteSpaceThen in H1.
    + destruct (ArchiveHandler.stripPrefixNoCase "archive" s) as [r2 | ]; [ | discriminate ].
      apply startsSolid_whiteSpaceThen.
  - destruct (ArchiveHandler.stripPrefixNoCase "archive" s) as [r2 | ]; [ | discriminate ].
    apply startsSolid_whiteSpaceThen.
Qed.

Lemma startsSolid_articleThen r :
  startsSolid r = true -> startsSolid (ArchiveHandler.articleThen r) = true.
Proof.
  intros Hr. unfold ArchiveHandler.articleThen.
  destruct (ArchiveHandler.stripPrefixNoCase "the" r) as [r1 | ]; [ | exact Hr ].
  destruct (ArchiveHandler.whiteSpaceThen r1) as [r1' | ] eqn:H1; [ | exact Hr ].
  now apply startsSolid_whiteSpaceThen in H1.
Qed.

Lemma isLineTerminator_isWhiteSpace c :
  ArchiveHandler.isLineTerminator c = true -> Text.isWhiteSpace c = true.
Proof.
  unfold ArchiveHandler.isLineTerminator, Text.isWhiteSpace. cbn zeta.
  intros H. apply orb_true_iff in H as [H | H]; apply Nat.eqb_eq in H; now rewrite H.
Qed.

Lemma startsSolid_restOfLine s :
  startsSolid s = true -> startsSolid (ArchiveHandler.restOfLine s) = true.
Proof.
  destruct s as [ | c s ]; [ reflexivity | ]. cbn [startsSolid ArchiveHandler.restOfLine].
  intros Hc. destruct (ArchiveHandler.isLineTerminator c) eqn:Hl; [ reflexivity | exact Hc ].
Qed.

Lemma startsSolid_matchGroup s group :
  ArchiveHandler.matchGroup s = Some group -> startsSolid group = true.
Proof.
  induction s as [ | c s IH ].
  - cbn [ArchiveHandler.matchGroup].
    destruct (ArchiveHandler.verbThen EmptyString) as [r | ] eqn:Hr; [ | discriminate ].
    intros [= <-]. apply startsSolid_restOfLine, startsSolid_articleThen.
    now apply startsSolid_verbThen in Hr.
  - cbn [ArchiveHandler.matchGroup].
    destruct (ArchiveHandler.verbThen (String c s)) as [r | ] eqn:Hr; [ | exact IH ].
    intros [= <-]. apply startsSolid_restOfLine, startsSolid_articleThen.
    now apply startsSolid_verbThen in Hr.
Qed.

Lemma trim_solid s : startsSolid s = true -> s <> EmptyString -> Text.trim s <> EmptyString.
Proof.
  destruct s as [ | c s ]; [ congruence | ]. cbn [startsSolid]. intros Hc _.
  apply negb_true_iff in Hc. unfold Text.trim. cbn [Text.trimStart]. rewrite Hc.
  cbn [Text.trimEnd]. rewrite Hc. now destruct (Text.trimEnd s).
Qed.

Lemma restOfLine_free s :
  lineTerminatorFree s = true -> ArchiveHandler.restOfLine s = s.
Proof.
  unfold lineTerminatorFree. induction s as [ | c s IH ]; [ reflexivity | ].
  cbn [list_ascii_of_string forallb ArchiveHandler.restOfLine]. intros H.
  apply andb_prop in H as [Hc Hs]. apply negb_true_iff in Hc. rewrite Hc.
  now rewrite (IH Hs).
Qed.

Lemma lineTerminatorFree_append a b :
  lineTerminatorFree (a +:+ b) = lineTerminatorFree a && lineTerminatorFree b.
Proof.
  induction a as [ | x a IH ]; [ reflexivity | ].
  rewrite append_cons. unfold lineTerminatorFree in *. cbn [list_ascii_of_string forallb].
  now rewrite IH, andb_assoc.
Qed.

Lemma lineTerminatorFree_trimStart s :
  lineTerminatorFree s = true -> lineTerminatorFree (Text.trimStart s) = true.
Proof.
  induction s as [ | c s IH ]; [ reflexivity | ]. intros H. cbn [Text.trimStart].
  destruct (Text.isWhiteSpace c); [ | exact H ].
  apply IH. unfold lineTerminatorFree in *. cbn in H. now apply andb_prop in H as [_ H].
Qed.

Lemma trimStart_expense description :
  Text.trimStart (description +:+ " expense") <> EmptyString.
Proof.
  induction description as [ | c description IH ]; [ discriminate | ].
  rewrite append_cons. cbn [Text.trimStart].
  destruct (Text.isWhiteSpace c); [ exact IH | discriminate ].
Qed.

(** X16. [extractDescriptionForArchiving] never returns the empty text for a
    message that is not empty; and the optional tail of its pattern takes
    nothing: from a request to delete the DESCRIPTION expense the
    description comes back with the word expense still at its end. *)
Theorem extractDescriptionForArchiving_keeps_text :
  (forall message,
     message <> EmptyString ->
     ArchiveHandler.extractDescriptionForArchiving message <> EmptyString)
  /\ (forall description,
        lineTerminatorFree description = true ->
        ArchiveHandler.extractDescriptionForArchiving
          ("delete the " +:+ description +:+ " expense")
        = Text.trim (description +:+ " expense")).
Proof.
  split.
  - intros message Hmessage. unfold ArchiveHandler.extractDescriptionForArchiving.
    destruct (ArchiveHandler.matchGroup message) as [group | ] eqn:Hgroup;
      [ | exact Hmessage ].
    destruct (String.eqb_spec group EmptyString) as [_ | Hne]; [ exact Hmessage | ].
    apply trim_solid; [ | exact Hne ]. now apply startsSolid_matchGroup in Hgroup.
  - intros description Hfree.
    unfold ArchiveHandler.extractDescriptionForArchiving.
    assert (Hgroup : ArchiveHandler.matchGroup ("delete the " +:+ description +:+ " expense")
                     = Some (Text.trimStart (description +:+ " expense"))).
    { change ("delete the " +:+ description +:+ " expense")
        with (String "d" ("elete the " +:+ description +:+ " expense")).
      cbn [ArchiveHandler.matchGroup].
      change (ArchiveHandler.verbThen (String "d" ("elete the " +:+ description +:+ " expense")))
        with (Some ("the " +:+ description +:+ " expense")).
      cbv beta iota.
      change (ArchiveHandler.articleThen ("the " +:+ description +:+ " expense"))
        with (Text.trimStart (description +:+ " expense")).
      f_equal. apply restOfLine_free, lineTerminatorFree_trimStart.
      rewrite lineTerminatorFree_append, Hfree. reflexivity. }
    rewrite Hgroup.
    destruct (String.eqb_spec (Text.trimStart (description +:+ " expense")) EmptyString)
      as [Heq | _]; [ now apply trimStart_expense in Heq | ].
    unfold Text.trim. now rewrite trimStart_idempotent.
Qed.

(** ** Recording transactions *)

Lemma exchangeRate_single_amount date description from to amount fromCurrency toCurrency
    category type :
  (TransactionRepository.exchangeRate
     {| tx_date := date; tx_description := description;
        tx_fromAccountId := from; tx_toAccountId := to;
        tx_fromAmount := Some amount; tx_toAmount := amount;
        tx_fromCurrency := fromCurrency; tx_toCurrency := toCurrency;
        tx_categoryId := category; tx_type := type |} == 1)%Q.
Proof.
  unfold TransactionRepository.exchangeRate. cbn [tx_fromAmount tx_toAmount].
  destruct (Qeq_bool amount 0) eqn:Hzero; cbn [negb andb]; [ reflexivity | ].
  apply Qeq_bool_neq in Hzero. unfold Qdiv. now apply Qmult_inv_r.
Qed.

Ltac single_row :=
  eexists; split;
  [ cbn [trace set_trace snd]; unfold createdTransactions; rewrite ?flat_map_app;
    cbn [flat_map app]; rewrite <- ?app_assoc; cbn [app]; reflexivity
  | cbn [List.length]; split; [ lia | ] ].

(** X17. [recordIncome], [recordExpense] and [recordCreditCardPayment] each
    ask for at most one transaction row, of their own type, whose from and
    to amounts are the one amount given, so that the repository stores the
    exchange rate 1 (also for a payment between accounts of different
    currencies); no row is asked for when an account or the category is
    missing or the card is not a credit card. *)
Theorem record_single_amount env w :
  (forall data,
     exists rows,
       createdTransactions (trace (snd (ExpenseTrackerService.recordIncome data env w)))
       = createdTransactions (trace w) ++ rows
       /\ (List.length rows <= 1)%nat
       /\ (accountWithId env (inc_accountId data) = None -> rows = [])
       /\ Forall (singleAmountRow INCOME (inc_amount data)) rows)
  /\ (forall data,
        exists rows,
          createdTransactions (trace (snd (ExpenseTrackerService.recordExpense data env w)))
          = createdTransactions (trace w) ++ rows
          /\ (List.length rows <= 1)%nat
          /\ (accountWithId env (exp_accountId data) = None
              \/ categoryWithId env (exp_categoryId data) = None -> rows = [])
          /\ Forall (singleAmountRow EXPENSE (exp_amount data)) rows)
  /\ (forall fromAccountId creditCardAccountId amount date description,
        exists rows,
          createdTransactions
            (trace (snd (ExpenseTrackerService.recordCreditCardPayment fromAccountId
                           creditCardAccountId amount date description env w)))
          = createdTransactions (trace w) ++ rows
          /\ (List.length rows <= 1)%nat
          /\ (accountWithId env fromAccountId = None
              \/ option_map ExpenseTrackerService.isCreditCard
                   (accountWithId env creditCardAccountId) <> Some true -> rows = [])
          /\ Forall (singleAmountRow CREDIT_CARD_PAYMENT amount) rows).
Proof.
  split; [ | split ].
  - intros data. unfold ExpenseTrackerService.recordIncome, AccountRepository.findById,
      TransactionRepository.create, bind, ask, call, throw.
    destruct (accountWithId env (inc_accountId data)) as [account | ]; single_row.
    + split; [ discriminate | ]. constructor; [ | constructor ].
      repeat split. apply exchangeRate_single_amount.
    + split; [ reflexivity | constructor ].
  - intros data. unfold ExpenseTrackerService.recordExpense, AccountRepository.findById,
      CategoryRepository.findById, TransactionRepository.create, bind, ask, call, throw.
    destruct (accountWithId env (exp_accountId data)) as [account | ];
      [ destruct (categoryWithId env (exp_categoryId data)) as [category | ] | ];
      single_row.
    + split; [ now intros [H | H] | ]. constructor; [ | constructor ].
      repeat split. apply exchangeRate_single_amount.
    + split; [ reflexivity | constructor ].
    + split; [ reflexivity | constructor ].
  - intros fromAccountId creditCardAccountId amount date description.
    unfold ExpenseTrackerService.recordCreditCardPayment, AccountRepository.findById,
      TransactionRepository.create, bind, ask, call, throw.
    destruct (accountWithId env fromAccountId) as [from | ];
      [ destruct (accountWithId env creditCardAccountId) as [card | ];
        [ destruct (ExpenseTrackerService.isCreditCard card) eqn:Hcard | ] | ];
      cbn [negb option_map]; single_row.
    + split; [ intros [H | H]; [ discriminate | congruence ] | ].
      constructor; [ | constructor ]. repeat split. apply exchangeRate_single_amount.
    + split; [ reflexivity | constructor ].
    + split; [ reflexivity | constructor ].
    + split; [ reflexivity | constructor ].
Qed.

Lemma amountOr_positive amount fallback :
  (forall a, amount = Some a -> (0 < a)%Q) -> (0 < fallback)%Q ->
  (0 < ExpenseHandler.amountOr amount fallback)%Q.
Proof.
  intros Hamount Hfallback. unfold ExpenseHandler.amountOr.
  destruct amount as [a | ]; [ | exact Hfallback ].
  destruct (Qeq_bool a 0); [ exact Hfallback | now apply Hamount ].
Qed.

Lemma Qeq_bool_positive a : (0 < a)%Q -> Qeq_bool a 0 = false.
Proof.
  intros Ha. destruct (Qeq_bool a 0) eqn:H; [ | reflexivity ].
  apply Qeq_bool_iff in H. rewrite H in Ha. now apply Qlt_irrefl in Ha.
Qed.

(** X18. For a parsed transfer that the schema accepted, [handleTransfer]
    asks for at most one row; the row is a transfer with positive amounts on
    both sides, and the exchange rate that the repository stores with it is
    the amount that arrives divided by the amount that leaves; without
    separate from and to amounts both are the amount, at the rate 1. *)
Theorem handleTransfer_row env w v parsed :
  ExpenseParserSchema v = Ok parsed ->
  exists rows,
    createdTransactions (trace (snd (ExpenseHandler.handleTransfer parsed env w)))
    = createdTransactions (trace w) ++ rows
    /\ (List.length rows <= 1)%nat
    /\ Forall transferRow rows
    /\ (ep_fromAmount parsed = None -> ep_toAmount parsed = None ->
        Forall (singleAmountRow TRANSFER (ep_amount parsed)) rows).
Proof.
  intros Hvalid. apply ExpenseParserSchema_amounts in Hvalid as (Hamount & Hfrom & Hto).
  pose proof (amountOr_positive _ _ Hfrom Hamount) as Hf.
  pose proof (amountOr_positive _ _ Hto Hamount) as Ht.
  unfold ExpenseHandler.handleTransfer. unfold_services.
  destruct (accountNamed env (ep_fromAccount parsed)) as [from | ];
    destruct (accountNamed env (ep_toAccount parsed)) as [to | ];
    cbn [fst snd tr_date tr_description tr_fromAccountId tr_toAccountId tr_fromAmount
         tr_toAmount].
  1: destruct (accountWithId env (acc_id from)) as [from' | ];
    destruct (accountWithId env (acc_id to)) as [to' | ]; cbn [fst snd].
  1: match goal with
     | |- context [db_insert_transaction env ?t ?d] =>
         destruct (db_insert_transaction env t d) as [row | e]
     end.
  all: single_row.
  1, 2: split; [ constructor; [ | constructor ] | intros Hnf Hnt; constructor; [ | constructor ] ].
  1, 3: split; [ reflexivity | ]; split; [ exact Ht | ];
    eexists; split; [ reflexivity | ]; split; [ exact Hf | ];
    unfold TransactionRepository.exchangeRate; cbn [tx_fromAmount tx_toAmount];
    rewrite (Qeq_bool_positive _ Hf), (Qeq_bool_positive _ Ht); reflexivity.
  1, 2: rewrite Hnf, Hnt; cbn [ExpenseHandler.amountOr]; repeat split;
    apply exchangeRate_single_amount.
  all: split; [ constructor | intros _ _; constructor ].
Qed.

(** ** Installments *)

Lemma createdPurchases_filter tr :
  createdPurchases (List.filter isCreate tr) = createdPurchases tr.
Proof.
  unfold createdPurchases. induction tr as [ | e tr IH ]; [ reflexivity | ].
  destruct e; cbn; try exact IH. now rewrite IH.
Qed.

Lemma createdPurchases_map dtos : createdPurchases (map EvCreatePurchase dtos) = dtos.
Proof.
  unfold createdPurchases. induction dtos as [ | d dtos IH ]; [ reflexivity | ].
  cbn. now rewrite IH.
Qed.

Lemma createdPurchases_app tr1 tr2 :
  createdPurchases (tr1 ++ tr2) = createdPurchases tr1 ++ createdPurchases tr2.
Proof. apply flat_map_app. Qed.

(** X19. For a purchase made on one of the first 28 days of a month, on a
    credit card, with a known category or none and inserts that succeed,
    [recordCreditCardPurchase] returns as many rows as there are
    installments; installment i is dated the same day i - 1 calendar months
    later, and all carry the total divided by the number of installments,
    the number of installments and one group identifier. *)
Theorem recordCreditCardPurchase_monthly env w data card y m day ms :
  accountWithId env (full_creditCardAccountId data) = Some card ->
  ExpenseTrackerService.isCreditCard card = true ->
  categoryKnown env (full_categoryId data) = true ->
  insertsSucceed env ->
  full_date data = JsDate.Civil y m day ms ->
  1 <= day <= 28 ->
  exists rows w',
    ExpenseTrackerService.recordCreditCardPurchase data env w = (Ok rows, w')
    /\ List.length rows = Z.to_nat (full_totalInstallments data)
    /\ createdPurchases (trace w')
       = createdPurchases (trace w) ++ installmentsOfPurchase env w data
    /\ map (fun dto => (cc_installmentNumber dto, cc_date dto))
           (installmentsOfPurchase env w data)
       = map (fun i => (i, JsDate.Civil (y + (m + (i - 1)) / 12) ((m + (i - 1)) mod 12)
                             day ms))
             (countFrom 1 (Z.to_nat (full_totalInstallments data)))
    /\ Forall (fun dto =>
                 cc_amount dto
                 = (full_totalAmount data / inject_Z (full_totalInstallments data))%Q
                 /\ cc_purchaseGroupId dto = uuidv4 env (uuids_drawn w)
                 /\ cc_totalInstallments dto = full_totalInstallments data)
              (installmentsOfPurchase env w data).
Proof.
  intros Hcard Hcc Hcat Hok Hdate Hday.
  destruct (recordCreditCardPurchase_creates env w data card Hcard Hcc Hcat Hok)
    as [rows [w' [Hrun [Hlen Hcreates]]]].
  exists rows, w'. split; [ exact Hrun | split; [ exact Hlen | ] ]. split; [ | split ].
  - rewrite <- (createdPurchases_filter (trace w')), Hcreates.
    now rewrite createdPurchases_app, createdPurchases_filter, createdPurchases_map.
  - unfold installmentsOfPurchase. rewrite map_map. apply map_ext. intros i.
    cbn [ExpenseTrackerService.installmentDTO cc_installmentNumber cc_date].
    now rewrite Hdate, (installmentDate_monthly _ _ _ _ _ Hday).
  - unfold installmentsOfPurchase. apply List.Forall_forall. intros dto Hin.
    apply in_map_iff in Hin as [i [<- _]]. cbn. repeat split.
Qed.

(** X20. The loop of [recordCreditCardPurchase] inserts the installments one
    after the other, in order, and stops at the first insert that fails,
    throwing its error; the installments inserted before it stay, for
    nothing takes them back. *)
Theorem createInstallments_stops_at_first_failure env data purchaseGroupId
    installmentAmount remaining i purchases w :
  let dto := ExpenseTrackerService.installmentDTO env data purchaseGroupId
               installmentAmount in
  let run := ExpenseTrackerService.createInstallments data purchaseGroupId
               installmentAmount remaining i purchases env w in
  exists attempts,
    (attempts <= remaining)%nat
    /\ trace (snd run) = trace w ++ map EvCreatePurchase (map dto (countFrom i attempts))
    /\ match fst run with
       | Ok rows =>
           attempts = remaining
           /\ List.length rows = (List.length purchases + remaining)%nat
       | Throw e =>
           (1 <= attempts)%nat
           /\ db_insert_purchase env
                (trace w ++ map EvCreatePurchase (map dto (countFrom i (attempts - 1))))
                (dto (i + Z.of_nat (attempts - 1))) = Throw e
       end.
Proof.
  cbn zeta. revert i purchases w.
  induction remaining as [ | n IH ]; intros i purchases w.
  - exists 0%nat. cbn. rewrite app_nil_r. repeat split; lia.
  - assert (Hstep :
      ExpenseTrackerService.createInstallments data purchaseGroupId installmentAmount
        (S n) i purchases env w
      = match db_insert_purchase env (trace w)
                (ExpenseTrackerService.installmentDTO env data purchaseGroupId
                   installmentAmount i) with
        | Ok row =>
            ExpenseTrackerService.createInstallments data purchaseGroupId
              installmentAmount n (i + 1) (purchases ++ [row]) env
              (set_trace (trace w ++ [EvCreatePurchase
                 (ExpenseTrackerService.installmentDTO env data purchaseGroupId
                    installmentAmount i)]) w)
        | Throw e =>
            (Throw e,
             set_trace (trace w ++ [EvCreatePurchase
               (ExpenseTrackerService.installmentDTO env data purchaseGroupId
                  installmentAmount i)]) w)
        end).
    { cbn [ExpenseTrackerService.createInstallments].
      unfold bind, ask, CreditCardRepository.create, call.
      now destruct (db_insert_purchase env (trace w) _). }
    rewrite Hstep. clear Hstep.
    destruct (db_insert_purchase env (trace w) _) as [row | e] eqn:Hrow.
    + specialize (IH (i + 1) (purchases ++ [row])
                    (set_trace (trace w ++ [EvCreatePurchase
                       (ExpenseTrackerService.installmentDTO env data purchaseGroupId
                          installmentAmount i)]) w)).
      revert IH.
      destruct (ExpenseTrackerService.createInstallments _ _ _ n _ _ env _)
        as [[rows | e] w']; cbn [fst snd];
        intros [attempts [Hle [Htrace Hresult]]]; exists (S attempts);
        (split; [ lia | ]);
        (split; [ rewrite Htrace; cbn [trace set_trace countFrom map];
                  now rewrite <- app_assoc | ]).
      * destruct Hresult as [-> Hlen]. split; [ reflexivity | ].
        rewrite Hlen, length_app. cbn. lia.
      * destruct Hresult as [Hone Hfail]. split; [ lia | ].
        rewrite <- Hfail. cbn [trace set_trace].
        replace (S attempts - 1)%nat with (S (attempts - 1)) by lia.
        cbn [countFrom map]. rewrite <- app_assoc. cbn [app]. do 2 f_equal. lia.
    + exists 1%nat. cbn [fst snd trace set_trace countFrom map]. split; [ lia | ].
      split; [ reflexivity | ]. split; [ lia | ].
      cbn. rewrite app_nil_r, Z.add_0_r. exact Hrow.
Qed.


(** ** The expense handler, further *)

Lemma nonEmpty_Some o s : TextProcessor.nonEmpty o = Some s -> o = Some s.
Proof.
  unfold TextProcessor.nonEmpty. destruct o as [x | ]; [ | discriminate ].
  destruct (String.eqb x ""); [ discriminate | congruence ].
Qed.

(** X22. An expense of sufficient confidence that names no account is not
    recorded: when there are accounts, the parsed expense is parked in the
    session and the user is asked, with one button for each account; when
    there is none, the handler goes on and fails with Account not found, the
    session untouched; in neither case is a row created. *)
Theorem handleParsed_asks_for_account env w parsed :
  ExpenseHandler.lowConfidence parsed = false ->
  ep_type parsed = PExpense ->
  ExpenseHandler.given (ep_fromAccount parsed) = false ->
  (db_accounts env <> [] ->
     ExpenseHandler.handleParsed parsed env w
     = (Ok tt,
        set_trace (trace w ++ [EvFindAllAccounts;
                               EvReply (accountQuestion env parsed) (accountKeyboard env)])
          (set_pendingTransaction (Some parsed) w)))
  /\ (db_accounts env = [] ->
      let run := ExpenseHandler.handleParsed parsed env w in
      fst run = Throw (JsError ("Account not found: "
                                +:+ ExpenseHandler.nameText (ep_fromAccount parsed)))
      /\ pendingTransaction (snd run) = pendingTransaction w
      /\ List.filter isCreate (trace (snd run)) = List.filter isCreate (trace w)).
Proof.
  intros Hconf Hkind Hgiven.
  assert (Hasked :
    ExpenseHandler.handleParsed parsed env w
    = match db_accounts env with
      | _ :: _ =>
          (Ok tt,
           set_trace (trace w ++ [EvFindAllAccounts;
                                  EvReply (accountQuestion env parsed) (accountKeyboard env)])
             (set_pendingTransaction (Some parsed) w))
      | [] =>
          (Throw (JsError ("Account not found: "
                           +:+ ExpenseHandler.nameText (ep_fromAccount parsed))),
           set_trace (trace w ++ [EvFindAllAccounts;
                                  EvFindAccountByName (ep_fromAccount parsed);
                                  EvFindCategoryByName (ep_category parsed)]) w)
      end).
  { unfold ExpenseHandler.handleParsed, ExpenseHandler.askForAccount,
      ExpenseTrackerService.getAllAccounts, AccountRepository.findAll,
      ExpenseHandler.replyWithKeyboard, emit, modify, try_catch.
    unfold bind, ask, call, ret. cbn beta iota. rewrite Hconf, Hkind, Hgiven.
    cbn [ExpenseHandler.isExpense negb andb]. cbn beta iota.
    unfold accountKeyboard, accountQuestion.
    destruct (db_accounts env) as [ | account accounts ] eqn:Haccounts; cbn beta iota.
    - unfold ExpenseHandler.save. rewrite Hkind.
      unfold ExpenseHandler.handleExpense. unfold_services. cbn beta iota.
      assert (Haccount : accountNamed env (ep_fromAccount parsed) = None).
      { unfold accountNamed. rewrite Haccounts. now destruct (ep_fromAccount parsed). }
      rewrite Haccount. cbn [trace set_trace]. unfold set_trace. cbn.
      now rewrite <- !app_assoc.
    - unfold set_trace, set_pendingTransaction. cbn. now rewrite <- app_assoc. }
  split.
  - intros Hsome. rewrite Hasked. now destruct (db_accounts env).
  - intros Hnone. cbn zeta. rewrite Hasked, Hnone. cbn [fst snd trace set_trace pendingTransaction].
    split; [ reflexivity | split; [ reflexivity | ] ].
    rewrite List.filter_app. cbn. now rewrite app_nil_r.
Qed.

(** X23. [handleExpenseMessage] ignores a message without text, the world
    left as it was; and once the parser has answered, an error thrown on the
    way to the success message, such as one thrown while saving, is sent to
    the user with its message behind the prefix Error processing
    transaction. *)
Theorem handleExpenseMessage_reports_errors env w ctx :
  (TextProcessor.nonEmpty (ctx_text ctx) = None ->
     ExpenseHandler.handleExpenseMessage ctx env w = (Ok tt, w))
  /\ (forall parsed wp e w',
        parserAnswered env w ctx parsed wp ->
        ExpenseHandler.handleParsed parsed env wp = (Throw e, w') ->
        snd (ExpenseHandler.handleExpenseMessage ctx env w)
        = replied ("❌ Error processing transaction: " +:+ message_or_unknown e) w')
  /\ (forall parsed wp w1 e w',
        parserAnswered env w ctx parsed wp ->
        ExpenseHandler.lowConfidence parsed = false ->
        ExpenseHandler.askForAccount parsed env wp = (Ok false, w1) ->
        ExpenseHandler.save parsed env w1 = (Throw e, w') ->
        snd (ExpenseHandler.handleExpenseMessage ctx env w)
        = replied ("❌ Error processing transaction: " +:+ message_or_unknown e) w').
Proof.
  assert (Hthrow : forall parsed wp e w',
    parserAnswered env w ctx parsed wp ->
    ExpenseHandler.handleParsed parsed env wp = (Throw e, w') ->
    snd (ExpenseHandler.handleExpenseMessage ctx env w)
    = replied ("❌ Error processing transaction: " +:+ message_or_unknown e) w').
  { intros parsed wp e w' Hparsed Hrun.
    rewrite (handleExpenseMessage_after_parse env w ctx parsed wp Hparsed), Hrun.
    reflexivity. }
  split; [ | split ].
  - intros Hnone. unfold ExpenseHandler.handleExpenseMessage, try_catch.
    now rewrite Hnone.
  - exact Hthrow.
  - intros parsed wp w1 e w' Hparsed Hconf Hask Hsave.
    apply (Hthrow parsed wp e w' Hparsed).
    unfold ExpenseHandler.handleParsed. unfold bind at 1. unfold ask at 1. rewrite Hconf.
    unfold bind at 1. rewrite Hask. unfold bind at 1. unfold try_catch, throw.
    now rewrite Hsave.
Qed.

(** X24. When no parsed transaction is obtained, the persistence layer is
    not called at all: a prompt that cannot be resolved ends in the reply
    Error processing transaction with the message of the error, and a
    failure of the extraction in the reply Could not understand the
    transaction format. *)
Theorem handleExpenseMessage_parse_failure env w ctx messageText :
  TextProcessor.nonEmpty (ctx_text ctx) = Some messageText ->
  let prompted := PromptManager.getPromptWithConfig "expense-parser"
                    (fallbackOf getExpenseParserJSONSchema) None env (typing w) in
  (forall e w1,
     prompted = (Throw e, w1) ->
     ExpenseHandler.handleExpenseMessage ctx env w
     = (Ok tt, replied ("❌ Error processing transaction: " +:+ message_or_unknown e) w1)
     /\ List.filter isPersistence (trace w1) = List.filter isPersistence (trace w))
  /\ (forall promptData w1 e w2,
        prompted = (Ok promptData, w1) ->
        TextProcessor.extractStructured messageText (pwc_prompt promptData)
          ("expense_parser", schemaOf promptData getExpenseParserJSONSchema)
          ExpenseParserSchema env w1 = (Throw e, w2) ->
        ExpenseHandler.handleExpenseMessage ctx env w
        = (Ok tt,
           replied "❌ Could not understand the transaction format. Please try again with more details."
             w2)
        /\ List.filter isPersistence (trace w2) = List.filter isPersistence (trace w)).
Proof.
  intros Htext. cbn zeta.
  assert (Htyping : List.filter isPersistence (trace (typing w))
                    = List.filter isPersistence (trace w)).
  { unfold typing. cbn [trace set_trace]. rewrite List.filter_app. cbn.
    now rewrite app_nil_r. }
  assert (Hprompt := getPromptWithConfig_quiet isPersistence (fun _ _ => eq_refl)
                       "expense-parser" (fallbackOf getExpenseParserJSONSchema) None env
                       (typing w)).
  split.
  - intros e w1 Hrun. rewrite Hrun in Hprompt. cbn [snd] in Hprompt.
    split; [ | congruence ].
    unfold ExpenseHandler.handleExpenseMessage. unfold try_catch at 1. rewrite Htext.
    unfold bind at 1. unfold emit at 1, modify at 1. fold (typing w).
    unfold bind at 1. now rewrite Hrun.
  - intros promptData w1 e w2 Hrun Hparse. rewrite Hrun in Hprompt. cbn [snd] in Hprompt.
    assert (Hmodel := extractStructured_quiet isPersistence (fun _ => eq_refl) messageText
                        (pwc_prompt promptData)
                        ("expense_parser", schemaOf promptData getExpenseParserJSONSchema)
                        ExpenseParserSchema env w1).
    rewrite Hparse in Hmodel. cbn [snd] in Hmodel.
    split; [ | congruence ].
    unfold ExpenseHandler.handleExpenseMessage. unfold try_catch at 1. rewrite Htext.
    unfold bind at 1. unfold emit at 1, modify at 1. fold (typing w).
    unfold bind at 1. rewrite Hrun.
    unfold bind at 1. unfold try_catch at 1. unfold bind at 1. rewrite Hparse.
    reflexivity.
Qed.

(** X25. A credit-card purchase whose category is not found by name is
    recorded all the same, its installments without a category; an expense
    with such a category is refused with Category not found and creates
    nothing. *)
Theorem handleCreditCardPurchase_unknown_category env w parsed :
  creditCardNamed env (Some (ExpenseHandler.cardName parsed)) = true ->
  categoryNamed env (ep_category parsed) = None ->
  insertsSucceed env ->
  (exists rows w' dtos,
     ExpenseHandler.handleCreditCardPurchase parsed env w = (Ok (SavedInstallments rows), w')
     /\ createdPurchases (trace w') = createdPurchases (trace w) ++ dtos
     /\ List.length dtos = Z.to_nat (ExpenseHandler.installmentsOf parsed)
     /\ Forall (fun dto => cc_categoryId dto = None) dtos)
  /\ (forall account,
        accountNamed env (ep_fromAccount parsed) = Some account ->
        let run := ExpenseHandler.handleExpense parsed env w in
        fst run = Throw (JsError ("Category not found: "
                                  +:+ ExpenseHandler.nameText (ep_category parsed)))
        /\ List.filter isCreate (trace (snd run)) = List.filter isCreate (trace w)).
Proof.
  intros Hres Hcategory Hok. split.
  - unfold creditCardNamed in Hres.
    destruct (accountNamed env (Some (ExpenseHandler.cardName parsed))) as [card | ] eqn:Hcard;
      [ | discriminate ].
    destruct (accountWithId env (acc_id card)) as [found | ] eqn:Hfound; [ | discriminate ].
    unfold ExpenseHandler.handleCreditCardPurchase.
    unfold bind at 1. unfold ask at 1. unfold bind at 1.
    unfold ExpenseTrackerService.findAccountByName at 1, AccountRepository.findByName, call.
    rewrite Hcard.
    set (w1 := set_trace (trace w ++ [EvFindAccountByName
                                        (Some (ExpenseHandler.cardName parsed))]) w).
    unfold bind at 1.
    assert (Hlookup : exists w2,
      (match TextProcessor.nonEmpty (ep_category parsed) with
       | Some c => ExpenseTrackerService.findCategoryByName (Some c)
       | None => ret None
       end) env w1 = (Ok None, w2)
      /\ createdPurchases (trace w2) = createdPurchases (trace w)).
    { destruct (TextProcessor.nonEmpty (ep_category parsed)) as [c | ] eqn:Hc.
      - apply nonEmpty_Some in Hc. rewrite Hc in Hcategory.
        unfold ExpenseTrackerService.findCategoryByName, CategoryRepository.findByName, call.
        rewrite Hcategory. eexists. split; [ reflexivity | ].
        cbn [trace set_trace w1]. subst w1. cbn [trace set_trace].
        rewrite !createdPurchases_app. cbn. now rewrite !app_nil_r.
      - exists w1. split; [ reflexivity | ]. subst w1. cbn [trace set_trace].
        rewrite createdPurchases_app. cbn. now rewrite app_nil_r. }
    destruct Hlookup as [w2 [Hrun Hcreated]]. rewrite Hrun. cbn [option_map].
    unfold bind at 1.
    match goal with
    | |- context [ExpenseTrackerService.recordCreditCardPurchase ?d env w2] =>
        destruct (recordCreditCardPurchase_creates env w2 d found Hfound Hres eq_refl Hok)
          as [rows [w3 [Hrec [_ Htrace]]]]; rewrite Hrec;
        exists rows, w3, (installmentsOfPurchase env w2 d)
    end.
    split; [ reflexivity | ]. split; [ | split ].
    + rewrite <- (createdPurchases_filter (trace w3)), Htrace.
      now rewrite createdPurchases_app, createdPurchases_filter, createdPurchases_map,
        Hcreated.
    + unfold installmentsOfPurchase. now rewrite length_map, countFrom_length.
    + unfold installmentsOfPurchase. apply List.Forall_forall. intros dto Hin.
      apply in_map_iff in Hin as [i [<- _]]. reflexivity.
  - intros account Haccount. cbn zeta.
    unfold ExpenseHandler.handleExpense. unfold_services.
    rewrite Haccount, Hcategory. cbn. rewrite !List.filter_app. cbn.
    now rewrite !app_nil_r.
Qed.

(** ** The logger *)

(** X26. A call of the logger writes at most one line; at the level NONE
    nothing is written; a message that is written at some level of the
    logger is written at every lower one; and [separator] and [newline]
    write exactly when an info message would. *)
Theorem logger_threshold logger isoNow level message :
  (List.length (LoggerService.log logger isoNow level message) <= 1)%nat
  /\ LoggerService.log (LoggerService.setLevel LoggerService.NONE logger) isoNow level message
     = []
  /\ (forall threshold quieter,
        LoggerService.levelNumber threshold <= LoggerService.levelNumber quieter ->
        LoggerService.log (LoggerService.setLevel quieter logger) isoNow level message <> [] ->
        LoggerService.log (LoggerService.setLevel threshold logger) isoNow level message <> [])
  /\ (LoggerService.newline logger = []
      <-> LoggerService.info logger isoNow message = [])
  /\ (forall char length,
        LoggerService.separator logger char length = []
        <-> LoggerService.info logger isoNow message = []).
Proof.
  destruct logger as [current colors timestamps].
  unfold LoggerService.info, LoggerService.newline, LoggerService.separator,
    LoggerService.log, LoggerService.setLevel.
  cbn [LoggerService.currentLevel LoggerService.enableColors LoggerService.enableTimestamps].
  split; [ | split; [ | split; [ | split ] ] ].
  - destruct level, current; cbn; lia.
  - now destruct level.
  - intros threshold quieter.
    destruct threshold, quieter, level; cbn; intros Hle Hout; try lia; try congruence;
      discriminate.
  - destruct current; cbn; split; intros H; try reflexivity; discriminate H.
  - intros char length.
    destruct current; cbn; split; intros H; try reflexivity; discriminate H.
Qed.

(** ** The further properties at the examples *)

Lemma QueryGeneratorSchema_valid_witness :
  QueryGeneratorSchema Sample.rankingValue = Ok Sample.ranking
  /\ AnalyticsService.includes AnalyticsService.allowedQueryTypes
       (query_type Sample.ranking) = true
  /\ In (time_period Sample.ranking) timePeriods
  /\ (js_get Sample.rankingValue "time_period" = JUndefined ->
      time_period Sample.ranking = "all_time")
  /\ (js_get Sample.rankingValue "include_archived" = JUndefined ->
      include_archived Sample.ranking = false)
  /\ (forall s, sort_order Sample.ranking = Some s -> s = "asc" \/ s = "desc")
  /\ (forall n, limit Sample.ranking = Some n -> 0 < n)
  /\ (forall id, credit_card_account_id Sample.ranking = Some id -> 0 < id).
Proof.
  split; [ reflexivity | ].
  apply (QueryGeneratorSchema_valid Sample.rankingValue Sample.ranking). reflexivity.
Defined.

Lemma ExpenseParserSchema_valid_witness :
  ExpenseParserSchema Sample.transferValue = Ok Sample.transfer
  /\ (0 < ep_amount Sample.transfer)%Q
  /\ (0 <= ep_confidence Sample.transfer)%Q /\ (ep_confidence Sample.transfer <= 100)%Q
  /\ 1 <= ep_installments Sample.transfer
  /\ (js_get Sample.transferValue "installments" = JUndefined ->
      ep_installments Sample.transfer = 1)
  /\ isDateText (ep_date Sample.transfer) = true
  /\ (forall a, ep_fromAmount Sample.transfer = Some a -> (0 < a)%Q)
  /\ (forall a, ep_toAmount Sample.transfer = Some a -> (0 < a)%Q).
Proof.
  split; [ reflexivity | ].
  apply (ExpenseParserSchema_valid Sample.transferValue Sample.transfer). reflexivity.
Defined.

Lemma handleTransfer_row_witness :
  ExpenseParserSchema Sample.transferValue = Ok Sample.transfer
  /\ exists rows,
       createdTransactions
         (trace (snd (ExpenseHandler.handleTransfer Sample.transfer Example.shopEnv
                        Example.world)))
       = createdTransactions (trace Example.world) ++ rows
       /\ (List.length rows <= 1)%nat
       /\ Forall transferRow rows
       /\ (ep_fromAmount Sample.transfer = None -> ep_toAmount Sample.transfer = None ->
           Forall (singleAmountRow TRANSFER (ep_amount Sample.transfer)) rows).
Proof.
  split; [ reflexivity | ].
  apply (handleTransfer_row Example.shopEnv Example.world Sample.transferValue
           Sample.transfer).
  reflexivity.
Defined.

Lemma insertsSucceed_shopEnv : insertsSucceed Example.shopEnv.
Proof. intros tr dto. eexists. reflexivity. Qed.

Lemma recordCreditCardPurchase_monthly_witness :
  accountWithId Example.shopEnv (full_creditCardAccountId Sample.phone) = Some Sample.visa
  /\ ExpenseTrackerService.isCreditCard Sample.visa = true
  /\ categoryKnown Example.shopEnv (full_categoryId Sample.phone) = true
  /\ insertsSucceed Example.shopEnv
  /\ full_date Sample.phone = JsDate.Civil 2025 0 15 0
  /\ 1 <= 15 <= 28
  /\ exists rows w',
       ExpenseTrackerService.recordCreditCardPurchase Sample.phone Example.shopEnv
         Example.world = (Ok rows, w')
       /\ List.length rows = Z.to_nat (full_totalInstallments Sample.phone)
       /\ createdPurchases (trace w')
          = createdPurchases (trace Example.world)
            ++ installmentsOfPurchase Example.shopEnv Example.world Sample.phone
       /\ map (fun dto => (cc_installmentNumber dto, cc_date dto))
              (installmentsOfPurchase Example.shopEnv Example.world Sample.phone)
          = map (fun i => (i, JsDate.Civil (2025 + (0 + (i - 1)) / 12)
                                ((0 + (i - 1)) mod 12) 15 0))
                (countFrom 1 (Z.to_nat (full_totalInstallments Sample.phone)))
       /\ Forall (fun dto =>
                    cc_amount dto
                    = (full_totalAmount Sample.phone
                       / inject_Z (full_totalInstallments Sample.phone))%Q
                    /\ cc_purchaseGroupId dto
                       = uuidv4 Example.shopEnv (uuids_drawn Example.world)
                    /\ cc_totalInstallments dto = full_totalInstallments Sample.phone)
                 (installmentsOfPurchase Example.shopEnv Example.world Sample.phone).
Proof.
  do 3 (split; [ reflexivity | ]). split; [ exact insertsSucceed_shopEnv | ].
  split; [ reflexivity | ]. split; [ lia | ].
  apply (recordCreditCardPurchase_monthly Example.shopEnv Example.world Sample.phone
           Sample.visa 2025 0 15 0);
    first [ reflexivity | exact insertsSucceed_shopEnv | lia ].
Defined.


Lemma handleParsed_asks_for_account_witness :
  ExpenseHandler.lowConfidence Sample.coffee = false
  /\ ep_type Sample.coffee = PExpense
  /\ ExpenseHandler.given (ep_fromAccount Sample.coffee) = false
  /\ (db_accounts Example.shopEnv <> [] ->
      ExpenseHandler.handleParsed Sample.coffee Example.shopEnv Example.world
      = (Ok tt,
         set_trace (trace Example.world
                    ++ [EvFindAllAccounts;
                        EvReply (accountQuestion Example.shopEnv Sample.coffee)
                          (accountKeyboard Example.shopEnv)])
           (set_pendingTransaction (Some Sample.coffee) Example.world)))
  /\ (db_accounts Example.shopEnv = [] ->
      let run := ExpenseHandler.handleParsed Sample.coffee Example.shopEnv Example.world in
      fst run = Throw (JsError ("Account not found: "
                                +:+ ExpenseHandler.nameText (ep_fromAccount Sample.coffee)))
      /\ pendingTransaction (snd run) = pendingTransaction Example.world
      /\ List.filter isCreate (trace (snd run)) = List.filter isCreate (trace Example.world)).
Proof.
  do 3 (split; [ reflexivity | ]).
  apply (handleParsed_asks_for_account Example.shopEnv Example.world Sample.coffee);
    reflexivity.
Defined.

Lemma handleExpenseMessage_parse_failure_witness :
  TextProcessor.nonEmpty (ctx_text Example.groceriesContext) = Some "Spent $50 on groceries"
  /\ (forall e w1,
        PromptManager.getPromptWithConfig "expense-parser"
          (fallbackOf getExpenseParserJSONSchema) None Example.shopEnv
          (typing Example.world) = (Throw e, w1) ->
        ExpenseHandler.handleExpenseMessage Example.groceriesContext Example.shopEnv
          Example.world
        = (Ok tt, replied ("❌ Error processing transaction: " +:+ message_or_unknown e) w1)
        /\ List.filter isPersistence (trace w1)
           = List.filter isPersistence (trace Example.world)).
Proof.
  split; [ reflexivity | ].
  exact (proj1 (handleExpenseMessage_parse_failure Example.shopEnv Example.world
                  Example.groceriesContext "Spent $50 on groceries" eq_refl)).
Defined.

Lemma handleCreditCardPurchase_unknown_category_witness :
  creditCardNamed Example.shopEnv (Some (ExpenseHandler.cardName Sample.headphones)) = true
  /\ categoryNamed Example.shopEnv (ep_category Sample.headphones) = None
  /\ insertsSucceed Example.shopEnv
  /\ exists rows w' dtos,
       ExpenseHandler.handleCreditCardPurchase Sample.headphones Example.shopEnv
         Example.world = (Ok (SavedInstallments rows), w')
       /\ createdPurchases (trace w') = createdPurchases (trace Example.world) ++ dtos
       /\ List.length dtos = Z.to_nat (ExpenseHandler.installmentsOf Sample.headphones)
       /\ Forall (fun dto => cc_categoryId dto = None) dtos.
Proof.
  split; [ reflexivity | ]. split; [ reflexivity | ].
  split; [ exact insertsSucceed_shopEnv | ].
  exact (proj1 (handleCreditCardPurchase_unknown_category Example.shopEnv Example.world
                  Sample.headphones eq_refl eq_refl insertsSucceed_shopEnv)).
Defined.

Lemma processWithPrompt_request_witness :
  literalVariables (Some [ ("caption", "Dinner") ]) = true
  /\ exists request,
       List.filter isCompletion
         (trace (snd (TextProcessor.processWithPrompt "What is it?" "image-caption"
                        (Some [ ("caption", "Dinner") ])
                        {| tp_model := None; tp_systemPrompt := None;
                           tp_temperature := None; tp_maxTokens := None |}
                        (Example.env true (Example.stored Example.captionTemplate JUndefined)
                           "A dinner" Example.noJson)
                        Example.world)))
       = List.filter isCompletion (trace Example.world) ++ [EvCompletion request]
       /\ req_messages request
          = promptedMessages "You are analyzing an image with caption: Dinner" "What is it?".
Proof.
  split; [ reflexivity | ].
  exact (processWithPrompt_request
           (Example.env true (Example.stored Example.captionTemplate JUndefined)
              "A dinner" Example.noJson)
           Example.world "What is it?" "image-caption" (Some [ ("caption", "Dinner") ])
           {| tp_model := None; tp_systemPrompt := None;
              tp_temperature := None; tp_maxTokens := None |} eq_refl).
Defined.
